(** * The Gemini proxy handlers of gem-explorer-app, embedded in Rocq

The repository holds two variants of one Vercel serverless function:
- [part_000], which switches on [type] and reshapes the
  provider's answer ([Module TypeVariant]);
- [api/gemini.js], which switches on [action] and passes the provider's
  answer through ([Module ActionVariant]).

Both are embedded over a model of the JavaScript values they handle:
strings as sequences of UTF-16 code units, numbers as IEEE 754 binary64
([spec_float]), JSON values, [JSON.parse] and [JSON.stringify], and the
three effects the handlers have: [console.error], [fetch], and sending
the HTTP response. *)

From Stdlib Require Import ZArith NArith List Bool Lia SpecFloat.
From Stdlib.Strings Require Import Byte.
Import ListNotations.

Set Warnings "-register-all".

(* ================================================================= *)
(** ** Strings: sequences of UTF-16 code units *)

Record jsstring := JsStr { units : list N }.

Module JsString.

Definition of_bytes (bs : list Byte.byte) : jsstring :=
  JsStr (map (fun b => N.of_nat (Byte.to_nat b)) bs).

Fixpoint bytes_of_units (us : list N) : option (list Byte.byte) :=
  match us with
  | [] => Some []
  | u :: us' =>
      if N.ltb u 128 then
        match Byte.of_N u, bytes_of_units us' with
        | Some b, Some bs => Some (b :: bs)
        | _, _ => None
        end
      else None
  end.

Definition to_bytes (s : jsstring) : option (list Byte.byte) :=
  bytes_of_units (units s).

Definition empty : jsstring := JsStr [].

Definition append (a b : jsstring) : jsstring := JsStr (units a ++ units b).

Definition length (s : jsstring) : nat := List.length (units s).

Fixpoint units_eqb (a b : list N) : bool :=
  match a, b with
  | [], [] => true
  | x :: a', y :: b' => N.eqb x y && units_eqb a' b'
  | _, _ => false
  end.

(** [a === b] on two strings. *)
Definition eqb (a b : jsstring) : bool := units_eqb (units a) (units b).

Definition concat (ss : list jsstring) : jsstring :=
  fold_right append empty ss.

(** [t] occurs in [s] as a contiguous run of code units
    ([s.includes(t)]). *)
Definition contains (s t : jsstring) : Prop :=
  exists pre post, units s = pre ++ units t ++ post.

Definition is_high_surrogate (c : N) : bool :=
  N.leb 55296 c && N.leb c 56319.
Definition is_low_surrogate (c : N) : bool :=
  N.leb 56320 c && N.leb c 57343.

(** The string iterator: one string per code point; a surrogate pair stays
    together, a lone surrogate is a code point of its own. *)
Fixpoint code_points (us : list N) : list jsstring :=
  match us with
  | [] => []
  | c :: rest =>
      match rest with
      | d :: rest' =>
          if is_high_surrogate c && is_low_surrogate d
          then JsStr [c; d] :: code_points rest'
          else JsStr [c] :: code_points rest
      | [] => [JsStr [c]]
      end
  end.

End JsString.

Declare Scope js_scope.
Delimit Scope js_scope with js.
Bind Scope js_scope with jsstring.
String Notation jsstring JsString.of_bytes JsString.to_bytes : js_scope.
Infix "++" := JsString.append : js_scope.

(* ================================================================= *)
(** ** Numbers: IEEE 754 binary64 *)

Module Number.

Definition prec : Z := 53.
Definition emax : Z := 1024.

(** The Number value of the decimal [m * 10^e] (negated when [neg]):
    rounded to nearest, ties to even. *)
Definition of_decimal (neg : bool) (m e : Z) : spec_float :=
  match m with
  | Zpos p =>
      if (0 <=? e)%Z
      then binary_normalize prec emax
             (cond_Zopp neg (Zpos p * 10 ^ e)) 0 false
      else SFdiv prec emax
             (S754_finite neg p 0)
             (S754_finite false (Z.to_pos (10 ^ (- e))) 0)
  | _ => S754_zero neg
  end.

Definition of_N (n : N) : spec_float := of_decimal false (Z.of_N n) 0.

(** [x === y] on two Numbers: NaN differs from itself, the two zeros
    are equal. *)
Definition eqb (x y : spec_float) : bool := SFeqb x y.

Fixpoint uint_units (d : Decimal.uint) : list N :=
  match d with
  | Decimal.Nil => []
  | Decimal.D0 d' => 48%N :: uint_units d'
  | Decimal.D1 d' => 49%N :: uint_units d'
  | Decimal.D2 d' => 50%N :: uint_units d'
  | Decimal.D3 d' => 51%N :: uint_units d'
  | Decimal.D4 d' => 52%N :: uint_units d'
  | Decimal.D5 d' => 53%N :: uint_units d'
  | Decimal.D6 d' => 54%N :: uint_units d'
  | Decimal.D7 d' => 55%N :: uint_units d'
  | Decimal.D8 d' => 56%N :: uint_units d'
  | Decimal.D9 d' => 57%N :: uint_units d'
  end.

(** Decimal digits of a natural number, most significant first. *)
Definition digits_of_N (n : N) : list N := uint_units (N.to_uint n).

Definition nat_to_string (n : N) : jsstring := JsStr (digits_of_N n).

Section ShortestDecimal.
  (** The positive finite value [num / den]. *)
Variables num den : Z.

(** [num / den < 10^n] *)
Definition below_pow10 (n : Z) : bool :=
  if (0 <=? n)%Z then (num <? 10 ^ n * den)%Z
  else (num * 10 ^ (- n) <? den)%Z.

(** The least [n] from [from] on with [num / den < 10^n]. *)
Fixpoint decimal_exponent (fuel : nat) (from : Z) : Z :=
  match fuel with
  | O => from
  | S fuel' =>
      if below_pow10 from then from
      else decimal_exponent fuel' (from + 1)
  end.

(** [num / den * 10^j] as a fraction. *)
Definition scaled (j : Z) : Z * Z :=
  if (0 <=? j)%Z then (num * 10 ^ j, den)%Z
  else (num, den * 10 ^ (- j))%Z.

Variable x : spec_float.

(** A [k]-digit significand [s] with [s * 10^(n-k)] rounding to [x];
    of two, the one closer to [num / den], the even one on a tie. *)
Definition candidate (n k : Z) : option Z :=
  let '(a, b) := scaled (k - n) in
  let lo := (a / b)%Z in
  let hi := (lo + 1)%Z in
  let ok s := SFeqb (of_decimal false s (n - k)) x in
  match ok lo, ok hi with
  | true, true =>
      match (2 * a ?= (2 * lo + 1) * b)%Z with
      | Lt => Some lo
      | Gt => Some hi
      | Eq => Some (if Z.even lo then lo else hi)
      end
  | true, false => Some lo
  | false, true => Some hi
  | false, false => None
  end.

(** The least [k] from [k] on that has a candidate, with it. *)
Fixpoint shortest (fuel : nat) (n k : Z) : Z * Z :=
  match fuel with
  | O => (k, fst (scaled (k - n)) / snd (scaled (k - n)))%Z
  | S fuel' =>
      match candidate n k with
      | Some s => (k, s)
      | None => shortest fuel' n (k + 1)
      end
  end.
End ShortestDecimal.

Definition zeros (n : Z) : list N := repeat 48%N (Z.to_nat n).

(** Number::toString (radix 10) of the positive finite [m * 2^e]. *)
Definition finite_to_units (m : positive) (e : Z) : list N :=
  let num := if (0 <=? e)%Z then (Zpos m * 2 ^ e)%Z else Zpos m in
  let den := if (0 <=? e)%Z then 1%Z else (2 ^ (- e))%Z in
  let n0 := decimal_exponent num den 640 (-330) in
  let '(k, s0) := shortest num den (S754_finite false m e) 17 n0 1 in
  let '(s, n) :=
    if (s0 =? 10 ^ k)%Z then (10 ^ (k - 1), n0 + 1)%Z else (s0, n0) in
  let ds := digits_of_N (Z.to_N s) in
  if ((k <=? n) && (n <=? 21))%Z then ds ++ zeros (n - k)
  else if ((0 <? n) && (n <=? 21))%Z then
    firstn (Z.to_nat n) ds ++ [46%N] ++ skipn (Z.to_nat n) ds
  else if ((-6 <? n) && (n <=? 0))%Z then
    [48%N; 46%N] ++ zeros (- n) ++ ds
  else
    let ex := (n - 1)%Z in
    let sign := if (ex <? 0)%Z then 45%N else 43%N in
    let tail := [101%N; sign] ++ digits_of_N (Z.abs_N ex) in
    if (k =? 1)%Z then ds ++ tail
    else firstn 1 ds ++ [46%N] ++ skipn 1 ds ++ tail.

(** Number::toString (radix 10). *)
Definition to_string (x : spec_float) : jsstring :=
  match x with
  | S754_nan => "NaN"
  | S754_zero _ => "0"
  | S754_infinity s => if s then "-Infinity" else "Infinity"
  | S754_finite s m e =>
      JsStr ((if s then [45%N] else []) ++ finite_to_units m e)
  end.

Definition is_finite (x : spec_float) : bool :=
  match x with
  | S754_zero _ | S754_finite _ _ _ => true
  | _ => false
  end.

End Number.

(* ================================================================= *)
(** ** Values: what [JSON.parse] yields, and [undefined] *)

Inductive value :=
| VUndefined
| VNull
| VBool (b : bool)
| VNum (n : spec_float)
| VStr (s : jsstring)
| VArr (elems : list value)
| VObj (props : list (jsstring * value)).

(** An object is the list of its own properties in the order
    [OrdinaryOwnPropertyKeys] lists them: array-index keys first, ascending,
    then the other keys in the order they were created. *)
Definition object := list (jsstring * value).

Module Obj.

Fixpoint digits_value (acc : N) (us : list N) : option N :=
  match us with
  | [] => Some acc
  | c :: us' =>
      if N.leb 48 c && N.leb c 57
      then digits_value (acc * 10 + (c - 48)) us'
      else None
  end.

(** The array index a property key denotes: a canonical decimal numeral
    of an integer below 2^32 - 1. *)
Definition array_index (k : jsstring) : option N :=
  match units k with
  | [] => None
  | [48%N] => Some 0%N
  | 48%N :: _ => None
  | us =>
      if Nat.leb (List.length us) 10 then
        match digits_value 0 us with
        | Some n => if N.ltb n 4294967295 then Some n else None
        | None => None
        end
      else None
  end.

Fixpoint get (o : object) (k : jsstring) : option value :=
  match o with
  | [] => None
  | (k', v) :: o' => if JsString.eqb k' k then Some v else get o' k
  end.

Definition has (o : object) (k : jsstring) : bool :=
  match get o k with Some _ => true | None => false end.

Fixpoint replace (o : object) (k : jsstring) (v : value) : object :=
  match o with
  | [] => []
  | (k', v') :: o' =>
      if JsString.eqb k' k then (k', v) :: o'
      else (k', v') :: replace o' k v
  end.

(** A new array-index key goes before the first key that is no array
    index or a greater one. *)
Fixpoint insert_index (o : object) (i : N) (k : jsstring) (v : value)
  : object :=
  match o with
  | [] => [(k, v)]
  | (k', v') :: o' =>
      match array_index k' with
      | Some j =>
          if N.ltb j i then (k', v') :: insert_index o' i k v
          else (k, v) :: (k', v') :: o'
      | None => (k, v) :: (k', v') :: o'
      end
  end.

(** [CreateDataProperty(o, k, v)]: an existing key keeps its place. *)
Definition set (o : object) (k : jsstring) (v : value) : object :=
  if has o k then replace o k v
  else
    match array_index k with
    | Some i => insert_index o i k v
    | None => o ++ [(k, v)]
    end.

End Obj.

(* ================================================================= *)
(** ** JSON.parse *)

Module JSON.

Inductive token :=
| TLBrace | TRBrace | TLBracket | TRBracket | TColon | TComma
| TString (s : jsstring)
| TNumber (n : spec_float)
| TTrue | TFalse | TNull.

(** *** Number literals: an optional minus sign; an integer part, one
    digit or several not starting with 0; an optional fraction, a dot and
    at least one digit; an optional exponent, e or E, an optional sign and
    at least one digit. *)

Definition is_digit (c : N) : bool := N.leb 48 c && N.leb c 57.

Fixpoint span_digits (us : list N) : list N * list N :=
  match us with
  | c :: us' =>
      if is_digit c
      then let '(ds, rest) := span_digits us' in (c :: ds, rest)
      else ([], us)
  | [] => ([], [])
  end.

Definition digits_to_Z (ds : list N) : Z :=
  fold_left (fun acc c => (acc * 10 + Z.of_N (c - 48))%Z) ds 0%Z.

Definition number_of_literal (us : list N) : option spec_float :=
  let '(neg, us1) :=
    match us with
    | 45%N :: r => (true, r)
    | _ => (false, us)
    end in
  let '(int, us2) := span_digits us1 in
  let int_ok :=
    match int with
    | [] => false
    | [_] => true
    | 48%N :: _ => false
    | _ => true
    end in
  let frac_part :=
    match us2 with
    | 46%N :: r =>
        let '(fr, r') := span_digits r in
        match fr with [] => None | _ => Some (fr, r') end
    | _ => Some ([], us2)
    end in
  match int_ok, frac_part with
  | true, Some (frac, us3) =>
      let exp_part :=
        match us3 with
        | [] => Some 0%Z
        | c :: r =>
            if N.eqb c 101 || N.eqb c 69 then
              let '(eneg, r1) :=
                match r with
                | 45%N :: r' => (true, r')
                | 43%N :: r' => (false, r')
                | _ => (false, r)
                end in
              match span_digits r1 with
              | ((_ :: _) as ds, []) =>
                  Some (if eneg then (- digits_to_Z ds)%Z
                        else digits_to_Z ds)
              | _ => None
              end
            else None
        end in
      match exp_part with
      | Some ex =>
          Some (Number.of_decimal neg
                  (digits_to_Z (int ++ frac))
                  (ex - Z.of_nat (List.length frac)))
      | None => None
      end
  | _, _ => None
  end.

(** *** The lexer, one code unit at a time *)

Inductive lex_state :=
| LIdle
| LWord (rev_acc : list N)          (* inside true, false or null *)
| LNum (rev_acc : list N)           (* inside a number literal *)
| LStr (rev_acc : list N)           (* inside a string *)
| LEsc (rev_acc : list N)           (* after a backslash *)
| LUni (rev_acc : list N) (hex : list N).  (* after \u, digits so far *)

Definition is_whitespace (c : N) : bool :=
  N.eqb c 32 || N.eqb c 9 || N.eqb c 10 || N.eqb c 13.

Definition is_letter (c : N) : bool := N.leb 97 c && N.leb c 122.

Definition is_number_unit (c : N) : bool :=
  is_digit c || N.eqb c 45 || N.eqb c 43 || N.eqb c 46
  || N.eqb c 101 || N.eqb c 69.

Definition hex_value (c : N) : option N :=
  if is_digit c then Some (c - 48)%N
  else if N.leb 97 c && N.leb c 102 then Some (c - 87)%N
  else if N.leb 65 c && N.leb c 70 then Some (c - 55)%N
  else None.

Definition word_token (rev_acc : list N) : option token :=
  let w := JsStr (rev rev_acc) in
  if JsString.eqb w "true" then Some TTrue
  else if JsString.eqb w "false" then Some TFalse
  else if JsString.eqb w "null" then Some TNull
  else None.

Definition number_token (rev_acc : list N) : option token :=
  option_map TNumber (number_of_literal (rev rev_acc)).

(** A code unit met outside any token. *)
Definition lex_idle (c : N) : option (lex_state * list token) :=
  if is_whitespace c then Some (LIdle, [])
  else if N.eqb c 123 then Some (LIdle, [TLBrace])
  else if N.eqb c 125 then Some (LIdle, [TRBrace])
  else if N.eqb c 91 then Some (LIdle, [TLBracket])
  else if N.eqb c 93 then Some (LIdle, [TRBracket])
  else if N.eqb c 58 then Some (LIdle, [TColon])
  else if N.eqb c 44 then Some (LIdle, [TComma])
  else if N.eqb c 34 then Some (LStr [], [])
  else if is_digit c || N.eqb c 45 then Some (LNum [c], [])
  else if is_letter c then Some (LWord [c], [])
  else None.

Definition after_token (t : option token) (c : N)
  : option (lex_state * list token) :=
  match t, lex_idle c with
  | Some t', Some (st, ts) => Some (st, t' :: ts)
  | _, _ => None
  end.

Definition lex_step (st : lex_state) (c : N)
  : option (lex_state * list token) :=
  match st with
  | LIdle => lex_idle c
  | LWord acc =>
      if is_letter c then Some (LWord (c :: acc), [])
      else after_token (word_token acc) c
  | LNum acc =>
      if is_number_unit c then Some (LNum (c :: acc), [])
      else after_token (number_token acc) c
  | LStr acc =>
      if N.eqb c 34 then Some (LIdle, [TString (JsStr (rev acc))])
      else if N.eqb c 92 then Some (LEsc acc, [])
      else if N.ltb c 32 then None
      else Some (LStr (c :: acc), [])
  | LEsc acc =>
      if N.eqb c 34 then Some (LStr (34%N :: acc), [])
      else if N.eqb c 92 then Some (LStr (92%N :: acc), [])
      else if N.eqb c 47 then Some (LStr (47%N :: acc), [])
      else if N.eqb c 98 then Some (LStr (8%N :: acc), [])
      else if N.eqb c 102 then Some (LStr (12%N :: acc), [])
      else if N.eqb c 110 then Some (LStr (10%N :: acc), [])
      else if N.eqb c 114 then Some (LStr (13%N :: acc), [])
      else if N.eqb c 116 then Some (LStr (9%N :: acc), [])
      else if N.eqb c 117 then Some (LUni acc [], [])
      else None
  | LUni acc hex =>
      match hex_value c with
      | Some h =>
          match hex with
          | [h2; h1; h0] =>
              Some (LStr ((((h0 * 16 + h1) * 16 + h2) * 16 + h)%N :: acc),
                    [])
          | _ => Some (LUni acc (h :: hex), [])
          end
      | None => None
      end
  end.

Fixpoint lex_from (st : lex_state) (us : list N) : option (list token) :=
  match us with
  | [] =>
      match st with
      | LIdle => Some []
      | LWord acc => option_map (fun t => [t]) (word_token acc)
      | LNum acc => option_map (fun t => [t]) (number_token acc)
      | _ => None
      end
  | c :: us' =>
      match lex_step st c with
      | Some (st', ts) => option_map (app ts) (lex_from st' us')
      | None => None
      end
  end.

Definition lex (s : jsstring) : option (list token) :=
  lex_from LIdle (units s).

(** *** The parser, one token at a time, over a stack of the containers
    still open *)

Inductive frame :=
| FArr (rev_elems : list value)
| FObj (props : object) (pending : option jsstring).

Inductive parse_state :=
| PValue (stack : list frame)      (* a value must follow *)
| PFirst (stack : list frame)      (* after [: a value or ] *)
| PKeyFirst (stack : list frame)   (* after {: a key or } *)
| PKey (stack : list frame)        (* after , in an object: a key *)
| PColon (stack : list frame)      (* after a key: a colon *)
| PAfter (stack : list frame)      (* after a value: , or the closer *)
| PDone (v : value).

(** A complete value goes to the innermost open container. *)
Definition deliver (v : value) (stack : list frame) : option parse_state :=
  match stack with
  | [] => Some (PDone v)
  | FArr es :: st => Some (PAfter (FArr (v :: es) :: st))
  | FObj o (Some k) :: st => Some (PAfter (FObj (Obj.set o k v) None :: st))
  | FObj _ None :: _ => None
  end.

Definition start_value (t : token) (stack : list frame)
  : option parse_state :=
  match t with
  | TLBracket => Some (PFirst (FArr [] :: stack))
  | TLBrace => Some (PKeyFirst (FObj [] None :: stack))
  | TString s => deliver (VStr s) stack
  | TNumber n => deliver (VNum n) stack
  | TTrue => deliver (VBool true) stack
  | TFalse => deliver (VBool false) stack
  | TNull => deliver VNull stack
  | _ => None
  end.

Definition take_key (t : token) (stack : list frame)
  : option parse_state :=
  match t, stack with
  | TString k, FObj o None :: st => Some (PColon (FObj o (Some k) :: st))
  | _, _ => None
  end.

Definition parse_step (ps : parse_state) (t : token)
  : option parse_state :=
  match ps with
  | PValue stack => start_value t stack
  | PFirst stack =>
      match t, stack with
      | TRBracket, FArr es :: st => deliver (VArr (rev es)) st
      | _, _ => start_value t stack
      end
  | PKeyFirst stack =>
      match t, stack with
      | TRBrace, FObj o None :: st => deliver (VObj o) st
      | _, _ => take_key t stack
      end
  | PKey stack => take_key t stack
  | PColon stack =>
      match t with
      | TColon => Some (PValue stack)
      | _ => None
      end
  | PAfter stack =>
      match t, stack with
      | TComma, FArr _ :: _ => Some (PValue stack)
      | TComma, FObj _ None :: _ => Some (PKey stack)
      | TRBracket, FArr es :: st => deliver (VArr (rev es)) st
      | TRBrace, FObj o None :: st => deliver (VObj o) st
      | _, _ => None
      end
  | PDone _ => None
  end.

Fixpoint parse_from (ps : parse_state) (ts : list token) : option value :=
  match ts with
  | [] => match ps with PDone v => Some v | _ => None end
  | t :: ts' =>
      match parse_step ps t with
      | Some ps' => parse_from ps' ts'
      | None => None
      end
  end.

(** [JSON.parse(s)] without reviver: [None] is the SyntaxError. *)
Definition parse (s : jsstring) : option value :=
  match lex s with
  | Some ts => parse_from (PValue []) ts
  | None => None
  end.

(** *** JSON.stringify *)

Definition hex_digit (d : N) : N :=
  if N.ltb d 10 then (48 + d)%N else (87 + d)%N.

(** [\uXXXX], lower-case digits. *)
Definition unicode_escape (c : N) : list N :=
  [92%N; 117%N;
   hex_digit (N.modulo (N.div c 4096) 16);
   hex_digit (N.modulo (N.div c 256) 16);
   hex_digit (N.modulo (N.div c 16) 16);
   hex_digit (N.modulo c 16)].

Definition quote_unit (c : N) : list N :=
  if N.eqb c 8 then [92%N; 98%N]
  else if N.eqb c 9 then [92%N; 116%N]
  else if N.eqb c 10 then [92%N; 110%N]
  else if N.eqb c 12 then [92%N; 102%N]
  else if N.eqb c 13 then [92%N; 114%N]
  else if N.eqb c 34 then [92%N; 34%N]
  else if N.eqb c 92 then [92%N; 92%N]
  else if N.ltb c 32 then unicode_escape c
  else if JsString.is_high_surrogate c || JsString.is_low_surrogate c
  then unicode_escape c
  else [c].

(** The body of QuoteJSONString: a surrogate pair is copied, a lone
    surrogate escaped. *)
Fixpoint quote_units (us : list N) : list N :=
  match us with
  | [] => []
  | c :: rest =>
      match rest with
      | d :: rest' =>
          if JsString.is_high_surrogate c && JsString.is_low_surrogate d
          then c :: d :: quote_units rest'
          else quote_unit c ++ quote_units rest
      | [] => quote_unit c
      end
  end.

Definition quote (s : jsstring) : jsstring :=
  JsStr ([34%N] ++ quote_units (units s) ++ [34%N]).

Definition comma_separated (items : list jsstring) : jsstring :=
  match items with
  | [] => JsString.empty
  | i :: rest => fold_left (fun acc x => acc ++ "," ++ x)%js rest i
  end.

(** SerializeJSONProperty without replacer or indentation: [None] is
    [undefined]. An array element that is [undefined] is written [null];
    an object property that is [undefined] is left out. *)
Fixpoint stringify (v : value) : option jsstring :=
  match v with
  | VUndefined => None
  | VNull => Some "null"%js
  | VBool true => Some "true"%js
  | VBool false => Some "false"%js
  | VNum n =>
      Some (if Number.is_finite n then Number.to_string n else "null"%js)
  | VStr s => Some (quote s)
  | VArr es =>
      let items :=
        (fix elems (es : list value) : list jsstring :=
           match es with
           | [] => []
           | e :: es' =>
               match stringify e with
               | Some t => t
               | None => "null"%js
               end :: elems es'
           end) es in
      Some ("[" ++ comma_separated items ++ "]")%js
  | VObj o =>
      let items :=
        (fix members (o : list (jsstring * value)) : list jsstring :=
           match o with
           | [] => []
           | (k, e) :: o' =>
               match stringify e with
               | Some t => (quote k ++ ":" ++ t)%js :: members o'
               | None => members o'
               end
           end) o in
      Some ("{" ++ comma_separated items ++ "}")%js
  end.

End JSON.

(* ================================================================= *)
(** ** Exceptions *)

(** What the engine was doing when it threw a TypeError. *)
Inductive type_error :=
| ReadOfNullish (base : value) (prop : jsstring)
    (* a property of undefined or null was read *)
| NotIterable (v : value)          (* a spread of a value with no iterator *)
| NotAFunction (v : value) (method : jsstring)
    (* v.method(...) where v has no such method *)
| NoPrimitive (v : value).         (* ToString of an object failed *)

Inductive exn :=
| TypeError (cause : type_error)
| SyntaxError (text : jsstring)    (* the text that is no JSON *)
| FetchError (message : jsstring)  (* fetch, or the reading of a body, rejected *)
| Error (message : jsstring).      (* new Error(message) *)

Inductive result (A : Type) :=
| Ok (a : A)
| Raised (e : exn).
Arguments Ok {A} a.
Arguments Raised {A} e.

Definition rbind {A B} (r : result A) (k : A -> result B) : result B :=
  match r with
  | Ok a => k a
  | Raised e => Raised e
  end.

(* ================================================================= *)
(** ** The operations of the language the handlers use *)

Module Js.

(** [a === b]. Two objects or arrays are equal when they are the same
    object; every comparison the handlers make is with a string literal or
    between values of two different [JSON.parse] results, so an object or
    array operand is never identical to the other one. *)
Definition strict_eq (a b : value) : bool :=
  match a, b with
  | VUndefined, VUndefined => true
  | VNull, VNull => true
  | VBool x, VBool y => Bool.eqb x y
  | VNum x, VNum y => Number.eqb x y
  | VStr x, VStr y => JsString.eqb x y
  | _, _ => false
  end.

Section Join.
Variable element_to_string : value -> result jsstring.

(** [Array.prototype.join]: undefined and null elements count as the
    empty string. *)
Definition join_piece (e : value) : result jsstring :=
  match e with
  | VUndefined | VNull => Ok JsString.empty
  | _ => element_to_string e
  end.

Fixpoint join_from (sep acc : jsstring) (es : list value)
  : result jsstring :=
  match es with
  | [] => Ok acc
  | e :: es' =>
      match join_piece e with
      | Ok t => join_from sep (acc ++ sep ++ t)%js es'
      | Raised x => Raised x
      end
  end.

Definition join_with (sep : jsstring) (es : list value)
  : result jsstring :=
  match es with
  | [] => Ok JsString.empty
  | e :: es' =>
      match join_piece e with
      | Ok t => join_from sep t es'
      | Raised x => Raised x
      end
  end.
End Join.

(** [ToString(v)], as a template literal applies it. An object with an
    own property [toString] (which, in a parsed value, is no function)
    has no primitive value. *)
Fixpoint to_string (v : value) : result jsstring :=
  match v with
  | VUndefined => Ok "undefined"%js
  | VNull => Ok "null"%js
  | VBool true => Ok "true"%js
  | VBool false => Ok "false"%js
  | VNum n => Ok (Number.to_string n)
  | VStr s => Ok s
  | VArr es => join_with to_string "," es
  | VObj o =>
      if Obj.has o "toString" then Raised (TypeError (NoPrimitive v))
      else Ok "[object Object]"%js
  end.

(** [base.name] and [base[i]] on own properties. None of the names the
    handlers read is an inherited property of a parsed value. *)
Definition get (base : value) (name : jsstring) : result value :=
  match base with
  | VUndefined | VNull => Raised (TypeError (ReadOfNullish base name))
  | VObj o =>
      Ok (match Obj.get o name with Some v => v | None => VUndefined end)
  | VArr es =>
      match Obj.array_index name with
      | Some i => Ok (nth (N.to_nat i) es VUndefined)
      | None =>
          if JsString.eqb name "length"
          then Ok (VNum (Number.of_N (N.of_nat (List.length es))))
          else Ok VUndefined
      end
  | VStr s =>
      match Obj.array_index name with
      | Some i =>
          Ok (match nth_error (units s) (N.to_nat i) with
              | Some c => VStr (JsStr [c])
              | None => VUndefined
              end)
      | None =>
          if JsString.eqb name "length"
          then Ok (VNum (Number.of_N (N.of_nat (JsString.length s))))
          else Ok VUndefined
      end
  | VBool _ | VNum _ => Ok VUndefined
  end.

(** [...v] inside an array literal. *)
Definition spread (v : value) : result (list value) :=
  match v with
  | VArr es => Ok es
  | VStr s => Ok (map VStr (JsString.code_points (units s)))
  | _ => Raised (TypeError (NotIterable v))
  end.

Fixpoint map_elems (f : value -> result value) (es : list value)
  : result (list value) :=
  match es with
  | [] => Ok []
  | e :: es' =>
      match f e with
      | Ok y =>
          match map_elems f es' with
          | Ok ys => Ok (y :: ys)
          | Raised x => Raised x
          end
      | Raised x => Raised x
      end
  end.

(** [v.map(f)] *)
Definition array_map (v : value) (f : value -> result value)
  : result value :=
  match v with
  | VArr es => rbind (map_elems f es) (fun ys => Ok (VArr ys))
  | _ => Raised (TypeError (NotAFunction v "map"))
  end.

Fixpoint find_elem (pred : value -> result bool) (es : list value)
  : result value :=
  match es with
  | [] => Ok VUndefined
  | e :: es' =>
      match pred e with
      | Ok true => Ok e
      | Ok false => find_elem pred es'
      | Raised x => Raised x
      end
  end.

(** [v.find(pred)] *)
Definition array_find (v : value) (pred : value -> result bool)
  : result value :=
  match v with
  | VArr es => find_elem pred es
  | _ => Raised (TypeError (NotAFunction v "find"))
  end.

(** [v.join(sep)] *)
Definition array_join (v : value) (sep : jsstring) : result jsstring :=
  match v with
  | VArr es => join_with to_string sep es
  | _ => Raised (TypeError (NotAFunction v "join"))
  end.

(** [JSON.parse(v)]: the argument is converted to a string first. *)
Definition JSON_parse (v : value) : result value :=
  rbind (to_string v) (fun text =>
    match JSON.parse text with
    | Some parsed => Ok parsed
    | None => Raised (SyntaxError text)
    end).

(** [ToString(s)] for a string or undefined. *)
Definition string_or_undefined (s : option jsstring) : jsstring :=
  match s with
  | Some t => t
  | None => "undefined"
  end.

(** [!s] for a string or undefined. *)
Definition falsy (s : option jsstring) : bool :=
  match s with
  | None => true
  | Some t => match units t with [] => true | _ => false end
  end.

End Js.

(* ================================================================= *)
(** ** The host: environment, network, console, HTTP response *)

(** The argument of [fetch(url, {method, headers, body})]. *)
Record fetch_request := {
  fetch_url : jsstring;
  fetch_method : jsstring;
  fetch_headers : list (jsstring * jsstring);
  fetch_body : option jsstring
}.

Inductive body_outcome :=
| BodyText (text : jsstring)
| BodyFailed (message : jsstring).   (* reading the body rejects *)

(** The Response object [fetch] resolves to. *)
Record fetch_response := {
  status : N;
  statusText : jsstring;
  received : body_outcome
}.

Inductive fetch_outcome :=
| FetchResolved (r : fetch_response)
| FetchRejected (message : jsstring).   (* a network failure *)

(** [response.ok] *)
Definition ok (r : fetch_response) : bool :=
  N.leb 200 (status r) && N.leb (status r) 299.

(** What a handler runs against. The messages of the errors the engine
    throws are the engine's choice. *)
Record host := {
  env_GEMINI_API_KEY : option jsstring;
  network : fetch_request -> fetch_outcome;
  type_error_message : type_error -> jsstring;
  syntax_error_message : jsstring -> jsstring
}.

(** [error.message] *)
Definition message (h : host) (e : exn) : jsstring :=
  match e with
  | TypeError c => type_error_message h c
  | SyntaxError t => syntax_error_message h t
  | FetchError m => m
  | Error m => m
  end.

Inductive log_arg :=
| LogString (s : jsstring)
| LogError (e : exn).

(** What a handler does to the world, in order. *)
Inductive event :=
| ConsoleError (args : list log_arg)        (* console.error(...args) *)
| Fetch (rq : fetch_request)                (* the outbound call *)
| Respond (code : N) (json : value).        (* res.status(code).json(json) *)

(** The inbound request: [req.method], and [req.body] as the platform
    parsed it ([undefined] when the request has none). *)
Record request := {
  method : jsstring;
  body : value
}.

(** How a statement completes. *)
Inductive completion (A : Type) :=
| Normal (a : A)
| Throw (e : exn)
| Return.                                   (* a return statement ran *)
Arguments Normal {A} a.
Arguments Throw {A} e.
Arguments Return {A}.

Definition M (A : Type) : Type := host -> list event * completion A.

Module Eff.

Definition ret {A} (a : A) : M A := fun _ => ([], Normal a).

Definition bind {A B} (m : M A) (k : A -> M B) : M B :=
  fun h =>
    match m h with
    | (t, Normal a) => let '(t', c) := k a h in (t ++ t', c)
    | (t, Throw e) => (t, Throw e)
    | (t, Return) => (t, Return)
    end.

Definition throw {A} (e : exn) : M A := fun _ => ([], Throw e).

(** [return;] *)
Definition return_ {A} : M A := fun _ => ([], Return).

Definition lift {A} (r : result A) : M A :=
  match r with
  | Ok a => ret a
  | Raised e => throw e
  end.

Definition emit (ev : event) : M unit := fun _ => ([ev], Normal tt).

(** [try { m } catch (error) { handle error }] *)
Definition try_catch {A} (m : M A) (handle : exn -> M A) : M A :=
  fun h =>
    match m h with
    | (t, Throw e) => let '(t', c) := handle e h in (t ++ t', c)
    | other => other
    end.

Definition console_error (args : list log_arg) : M unit :=
  emit (ConsoleError args).

(** [res.status(code).json(v)] *)
Definition res_json (code : N) (v : value) : M unit :=
  emit (Respond code v).

(** [process.env.GEMINI_API_KEY] *)
Definition getenv_GEMINI_API_KEY : M (option jsstring) :=
  fun h => ([], Normal (env_GEMINI_API_KEY h)).

(** [await fetch(...)] *)
Definition fetch (rq : fetch_request) : M fetch_response :=
  fun h =>
    ([Fetch rq],
     match network h rq with
     | FetchResolved r => Normal r
     | FetchRejected m => Throw (FetchError m)
     end).

(** [await r.text()] *)
Definition text (r : fetch_response) : M jsstring :=
  match received r with
  | BodyText t => ret t
  | BodyFailed m => throw (FetchError m)
  end.

(** [await r.json()] *)
Definition json (r : fetch_response) : M value :=
  bind (text r) (fun t =>
    match JSON.parse t with
    | Some v => ret v
    | None => throw (SyntaxError t)
    end).

(** [error.message] *)
Definition message_of (e : exn) : M jsstring :=
  fun h => ([], Normal (message h e)).

End Eff.

Declare Scope eff_scope.
Delimit Scope eff_scope with eff.
Notation "x <- m ;; k" := (Eff.bind m (fun x => k))
  (at level 100, m at next level, right associativity) : eff_scope.
Notation "m ;; k" := (Eff.bind m (fun _ => k))
  (at level 100, right associativity) : eff_scope.

Declare Scope res_scope.
Delimit Scope res_scope with res.
Notation "x <- r ;; k" := (rbind r (fun x => k))
  (at level 100, r at next level, right associativity) : res_scope.

(** The events of a trace, by kind. *)
Definition fetches (t : list event) : list fetch_request :=
  flat_map (fun ev => match ev with Fetch rq => [rq] | _ => [] end) t.

Definition responses (t : list event) : list (N * value) :=
  flat_map (fun ev => match ev with Respond c v => [(c, v)] | _ => [] end) t.

Definition logged (t : list event) : list (list log_arg) :=
  flat_map (fun ev => match ev with ConsoleError a => [a] | _ => [] end) t.

(** The text of a response on the wire. *)
Definition wire (v : value) : option jsstring := JSON.stringify v.

Definition QUOTE : jsstring := JsStr [34%N].

(* ================================================================= *)
(** ** part_000: the handler that switches on [type] *)

Module TypeVariant.
Import Eff.

Definition API_URL (API_KEY : option jsstring) : jsstring :=
  ("https://generativelanguage.googleapis.com/v1beta/models/gemini-1.5-flash-preview-0527:generateContent?key="
     ++ Js.string_or_undefined API_KEY)%js.

Definition system_instruction : value :=
  VObj [("role"%js, VStr "system");
        ("parts"%js,
          VArr [VObj [("text"%js, VStr
"Analyze the user's query to identify relevant product categories and keywords for filtering a product catalog. The possible categories are 'Design Analysis', 'Research & Strategy', and 'Design Generation'. RESPOND ONLY WITH a valid JSON object matching the provided schema. Do not include any other text, explanations, or markdown formatting.")]])].

Definition filter_generationConfig : value :=
  VObj [("response_mime_type"%js, VStr "application/json");
        ("response_schema"%js,
          VObj [("type"%js, VStr "OBJECT");
                ("properties"%js,
                  VObj [("category"%js, VObj [("type"%js, VStr "STRING")]);
                        ("keywords"%js,
                          VObj [("type"%js, VStr "ARRAY");
                                ("items"%js,
                                  VObj [("type"%js, VStr "STRING")])])])])].

Definition suggest_generationConfig : value :=
  VObj [("response_mime_type"%js, VStr "application/json");
        ("response_schema"%js,
          VObj [("type"%js, VStr "OBJECT");
                ("properties"%js,
                  VObj [("recommendedId"%js,
                          VObj [("type"%js, VStr "NUMBER")])])])].

(** [{ contents: [{ parts: [{ text }] }] }] and what follows it. *)
Definition single_prompt (text : jsstring) (more : object) : value :=
  VObj (("contents"%js, VArr [VObj [("parts"%js,
           VArr [VObj [("text"%js, VStr text)]])]]) :: more).

Local Open Scope res_scope.

(** [case 'filter'] *)
Definition filter_requestBody (payload : value) : result value :=
  chatHistory <- Js.get payload "chatHistory" ;;
  turns <- Js.spread chatHistory ;;
  Ok (VObj [("contents"%js, VArr (system_instruction :: turns));
            ("generationConfig"%js, filter_generationConfig)]).

(** [case 'summarize'] *)
Definition summarize_requestBody (payload : value) : result value :=
  product <- Js.get payload "product" ;;
  name <- Js.get product "name" ;;
  name <- Js.to_string name ;;
  product <- Js.get payload "product" ;;
  description <- Js.get product "description" ;;
  description <- Js.to_string description ;;
  product <- Js.get payload "product" ;;
  specs <- Js.get product "specs" ;;
  specs <- Js.to_string specs ;;
  Ok (single_prompt
        ("In a single, concise sentence, summarize what this product does: Name: "
           ++ name ++ ", Description: " ++ description
           ++ ", Specs: " ++ specs)%js
        []).

(** [p => ({id: p.id, name: p.name, description: p.description})] *)
Definition candidate_of (p : value) : result value :=
  id <- Js.get p "id" ;;
  name <- Js.get p "name" ;;
  description <- Js.get p "description" ;;
  Ok (VObj [("id"%js, id); ("name"%js, name);
            ("description"%js, description)]).

(** [case 'suggest'] *)
Definition suggest_requestBody (payload : value) : result value :=
  products <- Js.get payload "products" ;;
  candidates <- Js.array_map products candidate_of ;;
  let productList := JSON.stringify candidates in
  userInput <- Js.get payload "userInput" ;;
  userInput <- Js.to_string userInput ;;
  Ok (single_prompt
        ("A user needs help with the following task: " ++ QUOTE
           ++ userInput ++ QUOTE
           ++ ". Review this list of available tools: "
           ++ Js.string_or_undefined productList
           ++ ". Which one is the absolute best fit for the user's task? Respond with only a valid JSON object containing the ID of the single best product. Example: { "
           ++ QUOTE ++ "recommendedId" ++ QUOTE ++ ": 3 }")%js
        [("generationConfig"%js, suggest_generationConfig)]).

(** [data.candidates[0].content.parts[0].text] *)
Definition aiText_of (data : value) : result value :=
  candidates <- Js.get data "candidates" ;;
  first <- Js.get candidates "0" ;;
  content <- Js.get first "content" ;;
  parts <- Js.get content "parts" ;;
  part <- Js.get parts "0" ;;
  Js.get part "text".

(** The body of [if (type === 'filter')] up to the response. *)
Definition filter_reply (aiText : value) : result value :=
  aiResponseObject <- Js.JSON_parse aiText ;;
  category <- Js.get aiResponseObject "category" ;;
  category <- Js.to_string category ;;
  keywords <- Js.get aiResponseObject "keywords" ;;
  keywords <- Js.array_join keywords ", " ;;
  let modelChatMessage :=
    ("Sure! I'm filtering for products in the '" ++ category
       ++ "' category or related to these keywords: " ++ keywords
       ++ ". Here are the results.")%js in
  Ok (VObj [("aiResponseObject"%js, aiResponseObject);
            ("modelChatMessage"%js, VStr modelChatMessage)]).

(** [p => p.id === recommendedId] *)
Definition has_id (recommendedId : value) (p : value) : result bool :=
  id <- Js.get p "id" ;;
  Ok (Js.strict_eq id recommendedId).

(** The body of [if (type === 'suggest')] up to the response. *)
Definition suggest_reply (payload aiText : value) : result value :=
  parsed <- Js.JSON_parse aiText ;;
  recommendedId <- Js.get parsed "recommendedId" ;;
  allProducts <- Js.get payload "products" ;;
  recommendedProduct <- Js.array_find allProducts (has_id recommendedId) ;;
  Ok (VObj [("recommendedProduct"%js, recommendedProduct)]).

Local Close Scope res_scope.
Local Open Scope eff_scope.

Definition type_is (type : value) (name : jsstring) : bool :=
  Js.strict_eq type (VStr name).

(** The [switch (type)] statement: its value is [requestBody]. *)
Definition requestBody_for (type payload : value) : M value :=
  if type_is type "filter" then lift (filter_requestBody payload)
  else if type_is type "summarize" then lift (summarize_requestBody payload)
  else if type_is type "suggest" then lift (suggest_requestBody payload)
  else
    res_json 400 (VObj [("error"%js, VStr "Invalid request type")]) ;;
    return_.

Definition outbound (API_KEY : option jsstring) (requestBody : value)
  : fetch_request :=
  {| fetch_url := API_URL API_KEY;
     fetch_method := "POST";
     fetch_headers := [("Content-Type"%js, "application/json"%js)];
     fetch_body := JSON.stringify requestBody |}.

(** The statements inside [try] that follow the call. *)
Definition conclude (type payload : value) (geminiResponse : fetch_response)
  : M unit :=
  (if negb (ok geminiResponse) then
     errorBody <- text geminiResponse ;;
     console_error [LogString "Gemini API Error:"; LogString errorBody] ;;
     throw (Error ("Gemini API Error: " ++ statusText geminiResponse)%js)
   else ret tt) ;;
  data <- json geminiResponse ;;
  aiText <- lift (aiText_of data) ;;
  (if type_is type "filter" then
     reply <- lift (filter_reply aiText) ;;
     res_json 200 reply ;;
     return_
   else ret tt) ;;
  (if type_is type "summarize" then
     res_json 200 (VObj [("summary"%js, aiText)]) ;;
     return_
   else ret tt) ;;
  (if type_is type "suggest" then
     reply <- lift (suggest_reply payload aiText) ;;
     res_json 200 reply ;;
     return_
   else ret tt).

(** The statements inside [try]. *)
Definition attempt (API_KEY : option jsstring) (req : request) : M unit :=
  type <- lift (Js.get (body req) "type") ;;
  payload <- lift (Js.get (body req) "payload") ;;
  requestBody <- requestBody_for type payload ;;
  geminiResponse <- fetch (outbound API_KEY requestBody) ;;
  conclude type payload geminiResponse.

(** The [catch (error)] block. *)
Definition recover (error : exn) : M unit :=
  console_error [LogString "Function execution error:"; LogError error] ;;
  res_json 500
    (VObj [("error"%js,
             VStr "An error occurred while processing the AI request.")]) ;;
  return_.

Definition handler (req : request) : M unit :=
  if negb (JsString.eqb (method req) "POST") then
    res_json 405 (VObj [("error"%js, VStr "Method Not Allowed")]) ;;
    return_
  else
    API_KEY <- getenv_GEMINI_API_KEY ;;
    if Js.falsy API_KEY then
      console_error
        [LogString
           "GEMINI_API_KEY is not configured in Vercel project settings."] ;;
      res_json 500 (VObj [("error"%js, VStr "API key is not configured.")]) ;;
      return_
    else
      try_catch (attempt API_KEY req) recover.

(** The request passes the method and credential checks, and the switch
    assembles [requestBody] for its type [d] and payload [p]. *)
Definition reaches_call (h : host) (req : request) (d p requestBody : value)
  : Prop :=
  method req = "POST"%js
  /\ Js.falsy (env_GEMINI_API_KEY h) = false
  /\ Js.get (body req) "type" = Ok d
  /\ Js.get (body req) "payload" = Ok p
  /\ snd (requestBody_for d p h) = Normal requestBody.

(** What the [catch] block answers. *)
Definition internal_error : N * value :=
  (500%N,
   VObj [("error"%js,
           VStr "An error occurred while processing the AI request.")]).

End TypeVariant.

(* ================================================================= *)
(** ** api/gemini.js: the handler that switches on [action] *)

Module ActionVariant.
Import Eff.

Definition geminiApiUrl (geminiApiKey : option jsstring) : jsstring :=
  ("https://generativelanguage.googleapis.com/v1beta/models/gemini-1.5-flash-preview-0527:generateContent?key="
     ++ Js.string_or_undefined geminiApiKey)%js.

Local Open Scope res_scope.

(** [case 'filter'] *)
Definition filter_requestBody (payload : value) : result value :=
  systemInstruction <- Js.get payload "systemInstruction" ;;
  chatHistory <- Js.get payload "chatHistory" ;;
  turns <- Js.spread chatHistory ;;
  userMessage <- Js.get payload "userMessage" ;;
  responseSchema <- Js.get payload "responseSchema" ;;
  Ok (VObj
        [("contents"%js,
           VArr (systemInstruction
                   :: turns
                   ++ [VObj [("role"%js, VStr "user");
                             ("parts"%js,
                               VArr [VObj [("text"%js, userMessage)]])]]));
         ("generationConfig"%js,
           VObj [("response_mime_type"%js, VStr "application/json");
                 ("response_schema"%js, responseSchema)])]).

(** [case 'summarize': case 'suggest'] *)
Definition prompt_requestBody (payload : value) : result value :=
  prompt <- Js.get payload "prompt" ;;
  Ok (VObj [("contents"%js,
              VArr [VObj [("parts"%js,
                           VArr [VObj [("text"%js, prompt)]])]])]).

Local Close Scope res_scope.
Local Open Scope eff_scope.

Definition action_is (action : value) (name : jsstring) : bool :=
  Js.strict_eq action (VStr name).

(** The [switch (action)] statement: its value is [requestBody]. *)
Definition requestBody_for (action payload : value) : M value :=
  if action_is action "filter" then lift (filter_requestBody payload)
  else if action_is action "summarize" || action_is action "suggest"
  then lift (prompt_requestBody payload)
  else
    res_json 400 (VObj [("error"%js, VStr "Invalid action specified.")]) ;;
    return_.

Definition outbound (geminiApiKey : option jsstring) (requestBody : value)
  : fetch_request :=
  {| fetch_url := geminiApiUrl geminiApiKey;
     fetch_method := "POST";
     fetch_headers := [("Content-Type"%js, "application/json"%js)];
     fetch_body := JSON.stringify requestBody |}.

(** The statements inside [try] that follow the call. *)
Definition conclude (apiResponse : fetch_response) : M unit :=
  (if negb (ok apiResponse) then
     errorText <- text apiResponse ;;
     console_error [LogString "Gemini API Error:"; LogString errorText] ;;
     throw (Error ("Gemini API request failed with status "
                     ++ Number.to_string (Number.of_N (status apiResponse)))%js)
   else ret tt) ;;
  data <- json apiResponse ;;
  res_json 200 data.

(** The statements inside [try]. *)
Definition attempt (geminiApiKey : option jsstring) (req : request)
  : M unit :=
  action <- lift (Js.get (body req) "action") ;;
  payload <- lift (Js.get (body req) "payload") ;;
  requestBody <- requestBody_for action payload ;;
  apiResponse <- fetch (outbound geminiApiKey requestBody) ;;
  conclude apiResponse.

(** The [catch (error)] block. *)
Definition recover (error : exn) : M unit :=
  console_error [LogString "Error in Vercel function:"; LogError error] ;;
  details <- message_of error ;;
  res_json 500
    (VObj [("error"%js, VStr "An internal server error occurred.");
           ("details"%js, VStr details)]).

Definition handler (req : request) : M unit :=
  if negb (JsString.eqb (method req) "POST") then
    res_json 405 (VObj [("message"%js, VStr "Method Not Allowed")]) ;;
    return_
  else
    geminiApiKey <- getenv_GEMINI_API_KEY ;;
    if Js.falsy geminiApiKey then
      res_json 500
        (VObj [("error"%js,
                 VStr "GEMINI_API_KEY is not configured on the server.")]) ;;
      return_
    else
      try_catch (attempt geminiApiKey req) recover.

(** The request passes the method and credential checks, and the switch
    assembles [requestBody] for its action [d] and payload [p]. *)
Definition reaches_call (h : host) (req : request) (d p requestBody : value)
  : Prop :=
  method req = "POST"%js
  /\ Js.falsy (env_GEMINI_API_KEY h) = false
  /\ Js.get (body req) "action" = Ok d
  /\ Js.get (body req) "payload" = Ok p
  /\ snd (requestBody_for d p h) = Normal requestBody.

(** What the [catch] block answers to the error [e]. *)
Definition internal_error (h : host) (e : exn) : N * value :=
  (500%N,
   VObj [("error"%js, VStr "An internal server error occurred.");
         ("details"%js, VStr (message h e))]).

End ActionVariant.

(** The trace a handler leaves on a host. *)
Definition run (handler : request -> M unit) (h : host) (req : request)
  : list event :=
  fst (handler req h).

(* ================================================================= *)
(** ** The vocabulary of the properties *)

(** The status codes sent, in order. *)
Definition statuses (t : list event) : list N := map fst (responses t).

(** The discriminator is one of filter, summarize and suggest. *)
Definition known_action (d : value) : bool :=
  Js.strict_eq d (VStr "filter")
  || Js.strict_eq d (VStr "summarize")
  || Js.strict_eq d (VStr "suggest").

(** The provider answers the call [rq] with a success status and a body
    that parses to [data]. *)
Definition answers (h : host) (rq : fetch_request) (data : value) : Prop :=
  exists r t,
    network h rq = FetchResolved r /\ ok r = true
    /\ received r = BodyText t /\ JSON.parse t = Some data.

(** The provider answers the call [rq] with the response [r], whose
    status is outside 200..299. *)
Definition refuses (h : host) (rq : fetch_request) (r : fetch_response)
  : Prop :=
  network h rq = FetchResolved r /\ ok r = false.

(** The same host, its provider sending the text [t] as the body of every
    response. *)
Definition with_body_text (t : jsstring) (h : host) : host :=
  {| env_GEMINI_API_KEY := env_GEMINI_API_KEY h;
     network := fun rq =>
       match network h rq with
       | FetchResolved r =>
           FetchResolved {| status := status r;
                            statusText := statusText r;
                            received := BodyText t |}
       | FetchRejected m => FetchRejected m
       end;
     type_error_message := type_error_message h;
     syntax_error_message := syntax_error_message h |}.


(* ================================================================= *)
(** ** Requests and providers to run the handlers on *)

Module Scenario.

(** A JSON text written with apostrophes for its quotation marks. *)
Definition quoted (s : jsstring) : jsstring :=
  JsStr (map (fun c => if N.eqb c 39 then 34%N else c) (units s)).

Definition json (s : jsstring) : value :=
  match JSON.parse (quoted s) with
  | Some v => v
  | None => VUndefined
  end.

(** A host whose provider gives the same answer to every call. *)
Definition stub (key : option jsstring) (answer : fetch_outcome) : host :=
  {| env_GEMINI_API_KEY := key;
     network := fun _ => answer;
     type_error_message := fun _ => "TypeError"%js;
     syntax_error_message := fun _ => "SyntaxError"%js |}.

Definition success_with (text : jsstring) : fetch_response :=
  {| status := 200; statusText := "OK"; received := BodyText (quoted text) |}.

Definition post (text : jsstring) : request :=
  {| method := "POST"; body := json text |}.

Definition the_body (r : result value) : value :=
  match r with
  | Ok v => v
  | Raised _ => VUndefined
  end.

Definition secret : option jsstring := Some "secret"%js.

(** *** summarize *)

Definition summarize_payload : value :=
  json "{'product':{'name':'X','description':'Y','specs':'Z'},'prompt':'Summarize X.'}".

Definition summarize_request : request :=
  {| method := "POST";
     body := VObj [("type"%js, VStr "summarize");
                   ("action"%js, VStr "summarize");
                   ("payload"%js, summarize_payload)] |}.

Definition summarize_call : fetch_request :=
  TypeVariant.outbound secret
    (the_body (TypeVariant.summarize_requestBody summarize_payload)).

Definition summarize_call_by_action : fetch_request :=
  ActionVariant.outbound secret
    (the_body (ActionVariant.prompt_requestBody summarize_payload)).

Definition summary_text : jsstring :=
  "{'candidates':[{'content':{'parts':[{'text':'A one-sentence summary.'}]}}]}".

Definition summary_data : value := json summary_text.

Definition summarizing : host :=
  stub secret (FetchResolved (success_with summary_text)).

(** *** suggest *)

Definition suggest_payload : value :=
  json "{'userInput':'sketch a chair','products':[{'id':1,'name':'Vizcom','description':'rendering'},{'id':3,'name':'Sketchpad','description':'sketching','url':'https://example.org'}]}".

Definition sketchpad : value :=
  json "{'id':3,'name':'Sketchpad','description':'sketching','url':'https://example.org'}".

Definition suggest_products : list value :=
  [json "{'id':1,'name':'Vizcom','description':'rendering'}"; sketchpad].

Definition suggest_request : request :=
  {| method := "POST";
     body := VObj [("type"%js, VStr "suggest");
                   ("payload"%js, suggest_payload)] |}.

Definition suggest_call : fetch_request :=
  TypeVariant.outbound secret
    (the_body (TypeVariant.suggest_requestBody suggest_payload)).

(** The provider's text [{"recommendedId": id}]. *)
Definition recommendation (id : jsstring) : jsstring :=
  quoted ("{'recommendedId':" ++ id ++ "}").

Definition recommendation_text (id : jsstring) : jsstring :=
  ("{'candidates':[{'content':{'parts':[{'text':'{\'recommendedId\':"
     ++ id ++ "}'}]}}]}")%js.

Definition suggesting (id : jsstring) : host :=
  stub secret (FetchResolved (success_with (recommendation_text id))).

(** *** filter *)

Definition filter_payload (userMessage : jsstring) : value :=
  VObj [("chatHistory"%js,
          json "[{'role':'user','parts':[{'text':'cheap ergonomic tools'}]}]");
        ("userMessage"%js, VStr userMessage)].

Definition filter_request (userMessage : jsstring) : request :=
  {| method := "POST";
     body := VObj [("type"%js, VStr "filter");
                   ("action"%js, VStr "filter");
                   ("payload"%js, filter_payload userMessage)] |}.

Definition filter_call (userMessage : jsstring) : fetch_request :=
  TypeVariant.outbound secret
    (the_body (TypeVariant.filter_requestBody (filter_payload userMessage))).

Definition filter_call_by_action (userMessage : jsstring) : fetch_request :=
  ActionVariant.outbound secret
    (the_body (ActionVariant.filter_requestBody (filter_payload userMessage))).

(** The provider's text, of the spec's example. *)
Definition classification : jsstring :=
  quoted "{'category':'Research & Strategy','keywords':['ergonomics','budget']}".

Definition filter_text : jsstring :=
  "{'candidates':[{'content':{'parts':[{'text':'{\'category\':\'Research & Strategy\',\'keywords\':[\'ergonomics\',\'budget\']}'}]}}]}".

Definition filter_data : value := json filter_text.

Definition filter_object : value :=
  json "{'category':'Research & Strategy','keywords':['ergonomics','budget']}".

Definition filtering : host :=
  stub secret (FetchResolved (success_with filter_text)).

(** *** failures *)

Definition quota_exceeded : fetch_response :=
  {| status := 429;
     statusText := "Too Many Requests";
     received := BodyText "quota exceeded for project 1234" |}.

Definition refusing : host := stub secret (FetchResolved quota_exceeded).

Definition offline : host := stub secret (FetchRejected "fetch failed").

Definition unconfigured : host :=
  stub None (FetchResolved (success_with summary_text)).

Definition bogus_request : request :=
  post "{'type':'bogus','action':'bogus','payload':{}}".

Definition filter_without_payload : request :=
  post "{'type':'filter','action':'filter'}".

Definition get_request : request :=
  {| method := "GET"; body := VUndefined |}.

(** A POST request with no body. *)
Definition post_without_body : request :=
  {| method := "POST"; body := VUndefined |}.

End Scenario.

(* ================================================================= *)
(** ** Four properties as the specification words them

    Each is refuted below, and proved in an amended form. *)

Module AsStated.

(** A request that passes the method, credential and action checks leads
    to exactly one call; every request leads to at most one. *)
Definition one_call_claim : Prop :=
  forall (h : host) (req : request),
    ((forall d,
        method req = "POST"%js ->
        Js.falsy (env_GEMINI_API_KEY h) = false ->
        Js.get (body req) "type" = Ok d ->
        known_action d = true ->
        length (fetches (run TypeVariant.handler h req)) = 1%nat)
     /\ (length (fetches (run TypeVariant.handler h req)) <= 1)%nat)
    /\ ((forall d,
           method req = "POST"%js ->
           Js.falsy (env_GEMINI_API_KEY h) = false ->
           Js.get (body req) "action" = Ok d ->
           known_action d = true ->
           length (fetches (run ActionVariant.handler h req)) = 1%nat)
        /\ (length (fetches (run ActionVariant.handler h req)) <= 1)%nat).

(** A POST request with an unknown discriminator is answered 400, and no
    call is made. *)
Definition unknown_action_claim : Prop :=
  forall (h : host) (req : request) (d : value),
    method req = "POST"%js ->
    known_action d = false ->
    (Js.get (body req) "type" = Ok d ->
     statuses (run TypeVariant.handler h req) = [400%N]
     /\ fetches (run TypeVariant.handler h req) = [])
    /\ (Js.get (body req) "action" = Ok d ->
        statuses (run ActionVariant.handler h req) = [400%N]
        /\ fetches (run ActionVariant.handler h req) = []).

(** A summarize request the provider answers is answered 200 with the
    first text part as [summary]. *)
Definition summarize_claim : Prop :=
  forall (h : host) (req : request) (rq : fetch_request)
         (data aiText : value),
    answers h rq data ->
    TypeVariant.aiText_of data = Ok aiText ->
    (Js.get (body req) "type" = Ok (VStr "summarize") ->
     In rq (fetches (run TypeVariant.handler h req)) ->
     responses (run TypeVariant.handler h req)
     = [(200%N, VObj [("summary"%js, aiText)])])
    /\ (Js.get (body req) "action" = Ok (VStr "summarize") ->
        In rq (fetches (run ActionVariant.handler h req)) ->
        responses (run ActionVariant.handler h req)
        = [(200%N, VObj [("summary"%js, aiText)])]).

(** A filter request the provider answers with a text that parses to a
    category and keywords is answered 200 with that object and a message
    that names the category and every keyword. *)
Definition filter_claim : Prop :=
  forall (h : host) (req : request) (rq : fetch_request)
         (data aiText parsed : value) (category : jsstring)
         (keywords : list jsstring),
    answers h rq data ->
    TypeVariant.aiText_of data = Ok aiText ->
    Js.JSON_parse aiText = Ok parsed ->
    Js.get parsed "category" = Ok (VStr category) ->
    Js.get parsed "keywords" = Ok (VArr (map VStr keywords)) ->
    (Js.get (body req) "type" = Ok (VStr "filter") ->
     In rq (fetches (run TypeVariant.handler h req)) ->
     exists modelChatMessage,
       responses (run TypeVariant.handler h req)
       = [(200%N, VObj [("aiResponseObject"%js, parsed);
                        ("modelChatMessage"%js, VStr modelChatMessage)])]
       /\ JsString.contains modelChatMessage category
       /\ forall k, In k keywords -> JsString.contains modelChatMessage k)
    /\ (Js.get (body req) "action" = Ok (VStr "filter") ->
        In rq (fetches (run ActionVariant.handler h req)) ->
        exists modelChatMessage,
          responses (run ActionVariant.handler h req)
          = [(200%N, VObj [("aiResponseObject"%js, parsed);
                           ("modelChatMessage"%js, VStr modelChatMessage)])]
          /\ JsString.contains modelChatMessage category
          /\ forall k, In k keywords ->
                       JsString.contains modelChatMessage k).

End AsStated.

(* ================================================================= *)
(** ** The vocabulary of further properties *)

(** [undefined] or [null]: a value no property of which can be read. *)
Definition nullish (v : value) : bool :=
  match v with
  | VUndefined | VNull => true
  | _ => false
  end.

(** A value a spread accepts: an array or a string. *)
Definition iterable (v : value) : bool :=
  match v with
  | VArr _ | VStr _ => true
  | _ => false
  end.

(** Two values have the same properties of the given names. *)
Definition agree_on (names : list jsstring) (x y : value) : Prop :=
  Forall (fun n => Js.get x n = Js.get y n) names.

(** An event with the URL of its call blanked. *)
Definition without_url (ev : event) : event :=
  match ev with
  | Fetch rq =>
      Fetch {| fetch_url := JsString.empty;
               fetch_method := fetch_method rq;
               fetch_headers := fetch_headers rq;
               fetch_body := fetch_body rq |}
  | _ => ev
  end.

(** Two hosts whose engines word their errors alike. *)
Definition same_engine (h1 h2 : host) : Prop :=
  (forall c, type_error_message h1 c = type_error_message h2 c)
  /\ (forall t, syntax_error_message h1 t = syntax_error_message h2 t).

(** The endpoint the handlers call, the key left out. *)
Definition endpoint : jsstring :=
  "https://generativelanguage.googleapis.com/v1beta/models/gemini-1.5-flash-preview-0527:generateContent?key=".


(** [ToString] of the value succeeds. *)
Definition converts (v : value) : bool :=
  match Js.to_string v with
  | Ok _ => true
  | Raised _ => false
  end.

(** The payloads from which part_000 assembles a request body, by type. *)
Definition TypeVariant_assembles (d p : value) : Prop :=
  (d = VStr "filter"
   /\ exists chatHistory,
        Js.get p "chatHistory" = Ok chatHistory
        /\ iterable chatHistory = true)
  \/ (d = VStr "summarize"
      /\ exists product name description specs,
           Js.get p "product" = Ok product
           /\ Js.get product "name" = Ok name
           /\ Js.get product "description" = Ok description
           /\ Js.get product "specs" = Ok specs
           /\ converts name = true
           /\ converts description = true
           /\ converts specs = true)
  \/ (d = VStr "suggest"
      /\ exists products userInput,
           Js.get p "products" = Ok (VArr products)
           /\ Forall (fun x => nullish x = false) products
           /\ Js.get p "userInput" = Ok userInput
           /\ converts userInput = true).

(** The payloads from which api/gemini.js assembles a request body, by
    action. *)
Definition ActionVariant_assembles (d p : value) : Prop :=
  nullish p = false
  /\ ((d = VStr "filter"
       /\ exists chatHistory,
            Js.get p "chatHistory" = Ok chatHistory
            /\ iterable chatHistory = true)
      \/ d = VStr "summarize"
      \/ d = VStr "suggest").

(** The same host with another key, or none. *)
Definition with_key (key : option jsstring) (h : host) : host :=
  {| env_GEMINI_API_KEY := key;
     network := network h;
     type_error_message := type_error_message h;
     syntax_error_message := syntax_error_message h |}.

(* ================================================================= *)
(** ** Further requests and providers *)

Module Further.
Import Scenario.

(** The summarizing host after its key was replaced. *)
Definition rotated : host :=
  stub (Some "rotated"%js) (FetchResolved (success_with summary_text)).

(** The summarizing host with the key set to the empty string. *)
Definition empty_key : host :=
  stub (Some JsString.empty) (FetchResolved (success_with summary_text)).

(** An answer with the same first text part as [summary_text], and more. *)
Definition verbose_text : jsstring :=
  "{'candidates':[{'content':{'parts':[{'text':'A one-sentence summary.'},{'text':'unused'}],'role':'model'},'finishReason':'STOP'},{'content':{'parts':[{'text':'another'}]}}],'usageMetadata':{'totalTokenCount':42}}".

Definition verbose_data : value := json verbose_text.

Definition verbose : host :=
  stub secret (FetchResolved (success_with verbose_text)).

(** An answer with no candidate. *)
Definition blocked_text : jsstring :=
  "{'candidates':[],'promptFeedback':{'blockReason':'SAFETY'}}".

Definition blocked_data : value := json blocked_text.

Definition blocked : host :=
  stub secret (FetchResolved (success_with blocked_text)).

(** The product of [summarize_payload] with a price, in a payload with a
    locale. *)
Definition priced_payload : value :=
  json "{'product':{'id':7,'name':'X','description':'Y','specs':'Z','price':12},'locale':'en'}".

Definition priced_request : request :=
  {| method := "POST";
     body := VObj [("type"%js, VStr "summarize");
                   ("payload"%js, priced_payload)] |}.

(** The products of [suggest_payload] with other properties besides [id],
    [name] and [description]. *)
Definition priced_products : list value :=
  [json "{'id':1,'name':'Vizcom','description':'rendering','price':10}";
   json "{'id':3,'name':'Sketchpad','description':'sketching'}"].

Definition priced_suggest_payload : value :=
  VObj [("products"%js, VArr priced_products);
        ("userInput"%js, VStr "sketch a chair")].

Definition priced_suggest_request : request :=
  {| method := "POST";
     body := VObj [("type"%js, VStr "suggest");
                   ("payload"%js, priced_suggest_payload)] |}.

(** A suggest request with the prompt of [summarize_payload]. *)
Definition prompt_payload : value :=
  json "{'prompt':'Summarize X.','temperature':1}".

Definition suggest_by_prompt : request :=
  {| method := "POST";
     body := VObj [("action"%js, VStr "suggest");
                   ("payload"%js, prompt_payload)] |}.

(** A filter request with a note in its payload. *)
Definition noted_payload : value :=
  VObj [("chatHistory"%js,
          json "[{'role':'user','parts':[{'text':'cheap ergonomic tools'}]}]");
        ("note"%js, VStr "for the record");
        ("userMessage"%js, VStr "hello")].

Definition noted_request : request :=
  {| method := "POST";
     body := VObj [("action"%js, VStr "filter");
                   ("payload"%js, noted_payload)] |}.

(** A summarize request with no prompt. *)
Definition promptless_request : request :=
  post "{'action':'summarize','payload':{}}".

End Further.
(* ================================================================= *)
(** ** The run-time model on examples *)

Example number_to_string_examples :
  map Number.to_string
    [Number.of_N 3; Number.of_decimal false 1 (-1);
     Number.of_decimal false 15 (-1); Number.of_decimal true 25 (-2);
     Number.of_decimal false 1 21; Number.of_decimal false 1 (-7);
     Number.of_decimal false 123456789012345678901 0;
     Number.of_decimal false 5 (-324); Number.of_decimal false 1 400;
     SFadd Number.prec Number.emax
       (Number.of_decimal false 1 (-1)) (Number.of_decimal false 2 (-1));
     S754_zero true]
  = ["3"; "0.1"; "1.5"; "-0.25"; "1e+21"; "1e-7"; "123456789012345680000";
     "5e-324"; "Infinity"; "0.30000000000000004"; "0"]%js.
Proof. vm_compute. reflexivity. Qed.

Example parse_orders_keys_and_keeps_last :
  JSON.parse (Scenario.quoted "{ 'b' : [1, true, null], '2': 'x', '1': {}, 'b': 'again' }")
  = Some (VObj [("1"%js, VObj []); ("2"%js, VStr "x");
                ("b"%js, VStr "again")]).
Proof. vm_compute. reflexivity. Qed.

Example parse_decodes_escapes :
  JSON.parse (Scenario.quoted "'a\nA\/'")
  = Some (VStr (JsStr [97; 10; 65; 47]%N)).
Proof. vm_compute. reflexivity. Qed.

Example parse_rejects :
  map (fun t => JSON.parse (Scenario.quoted t))
    ["{'a':1,}"; "[1 2]"; "01"; "1."; "tru"; "'open"; "{'a'}"; "[1]]";
     "undefined"; "A one-sentence summary."]%js
  = repeat None 10.
Proof. vm_compute. reflexivity. Qed.

Example stringify_drops_undefined_properties :
  JSON.stringify
    (VObj [("a"%js, VUndefined);
           ("b"%js, VArr [VUndefined; VNum (Number.of_decimal false 25 (-1))]);
           ("c"%js, VStr (JsStr [34; 10; 55357]%N))])
  = Some (Scenario.quoted "{'b':[null,2.5],'c':'\'\n\ud83d'}").
Proof. vm_compute. reflexivity. Qed.

Example strict_equality_examples :
  map (fun '(a, b) => Js.strict_eq a b)
    [(VNum (S754_zero true), VNum (S754_zero false));
     (VNum S754_nan, VNum S754_nan);
     (VNum (Number.of_N 3), VStr "3");
     (VStr "suggest", VStr "suggest");
     (VObj [], VObj []);
     (VUndefined, VNull)]
  = [true; false; false; true; false; false].
Proof. vm_compute. reflexivity. Qed.

Example to_string_examples :
  map Js.to_string
    [VArr [VNum (Number.of_N 1); VNull; VArr [VStr "a"; VBool true]];
     VObj [("name"%js, VStr "x")];
     VObj [("toString"%js, VStr "x")];
     VUndefined]
  = [Ok "1,,a,true"%js; Ok "[object Object]"%js;
     Raised (TypeError (NoPrimitive (VObj [("toString"%js, VStr "x")])));
     Ok "undefined"%js].
Proof. vm_compute. reflexivity. Qed.

Example spread_examples :
  map Js.spread [VArr [VNull]; VStr (JsStr [104; 55357; 56832]%N); VObj []]
  = [Ok [VNull];
     Ok [VStr "h"; VStr (JsStr [55357; 56832]%N)];
     Raised (TypeError (NotIterable (VObj [])))].
Proof. vm_compute. reflexivity. Qed.

(* ================================================================= *)
(** ** Strings and traces *)

Lemma units_eqb_eq (a b : list N) : JsString.units_eqb a b = true <-> a = b.
Proof.
  revert b; induction a as [|x a IH]; intros [|y b]; simpl; split;
    try discriminate; try reflexivity.
  - intros H. apply andb_true_iff in H as [Hx Hab].
    apply N.eqb_eq in Hx. apply IH in Hab. congruence.
  - intros H. injection H as -> ->. rewrite N.eqb_refl. simpl. now apply IH.
Qed.

Lemma jsstring_eqb_eq (a b : jsstring) : JsString.eqb a b = true <-> a = b.
Proof.
  destruct a as [a], b as [b]. unfold JsString.eqb. simpl.
  rewrite units_eqb_eq. split; congruence.
Qed.

Lemma jsstring_eqb_neq (a b : jsstring) : JsString.eqb a b = false <-> a <> b.
Proof.
  rewrite <- jsstring_eqb_eq. destruct (JsString.eqb a b); split; congruence.
Qed.

Lemma contains_refl (s : jsstring) : JsString.contains s s.
Proof. exists [], []. now rewrite app_nil_r. Qed.

Lemma contains_append_l (a b x : jsstring) :
  JsString.contains a x -> JsString.contains (a ++ b)%js x.
Proof.
  intros (pre & post & H). exists pre, (post ++ units b).
  simpl. rewrite H, <- !app_assoc. reflexivity.
Qed.

Lemma contains_append_r (a b x : jsstring) :
  JsString.contains b x -> JsString.contains (a ++ b)%js x.
Proof.
  intros (pre & post & H). exists (units a ++ pre), post.
  simpl. rewrite H, <- !app_assoc. reflexivity.
Qed.

Lemma fetches_app (t u : list event) :
  fetches (t ++ u) = fetches t ++ fetches u.
Proof. apply flat_map_app. Qed.

Lemma responses_app (t u : list event) :
  responses (t ++ u) = responses t ++ responses u.
Proof. apply flat_map_app. Qed.

Lemma fetches_call (rq : fetch_request) (t : list event) :
  fetches (Fetch rq :: t) = rq :: fetches t.
Proof. reflexivity. Qed.

Lemma responses_call (rq : fetch_request) (t : list event) :
  responses (Fetch rq :: t) = responses t.
Proof. reflexivity. Qed.

Lemma logged_call (rq : fetch_request) (t : list event) :
  logged (Fetch rq :: t) = logged t.
Proof. reflexivity. Qed.

(** A value with one readable property has them all readable. *)
Lemma get_readable (base : value) (n1 n2 : jsstring) (v : value) :
  Js.get base n1 = Ok v -> exists w, Js.get base n2 = Ok w.
Proof.
  unfold Js.get. destruct base; try discriminate; intros _;
    repeat match goal with
           | |- context [match ?x with _ => _ end] => destruct x
           end; eexists; reflexivity.
Qed.

(* ================================================================= *)
(** ** Running effectful code by cases *)

Ltac unfold_eff :=
  cbv beta iota zeta delta
    [Eff.bind Eff.ret Eff.throw Eff.return_ Eff.lift Eff.emit Eff.try_catch
     Eff.console_error Eff.res_json Eff.getenv_GEMINI_API_KEY Eff.fetch
     Eff.text Eff.json Eff.message_of fst snd app negb].

Ltac split_match :=
  match goal with
  | |- context [match ?x with _ => _ end] =>
      lazymatch x with
      | context [match _ with _ => _ end] => fail
      | _ => destruct x eqn:?
      end
  end.

Ltac run_eff := unfold_eff; repeat (split_match; unfold_eff).

(* ================================================================= *)
(** ** The paths through part_000 *)

Section TypeVariantPaths.
Import TypeVariant.
Variable h : host.

Lemma TypeVariant_switch_quiet (d p rb : value) :
  snd (requestBody_for d p h) = Normal rb -> fst (requestBody_for d p h) = [].
Proof. unfold requestBody_for. run_eff; (reflexivity || discriminate). Qed.

Lemma TypeVariant_switch_no_fetch (d p : value) :
  fetches (fst (requestBody_for d p h)) = [].
Proof. unfold requestBody_for. run_eff; reflexivity. Qed.

Lemma TypeVariant_switch_any_host (d p : value) (h' : host) :
  requestBody_for d p h = requestBody_for d p h'.
Proof. unfold requestBody_for. run_eff; reflexivity. Qed.

Lemma TypeVariant_conclude_no_fetch (d p : value) (r : fetch_response) :
  fetches (fst (conclude d p r h)) = [].
Proof. unfold conclude. run_eff; reflexivity. Qed.

Lemma TypeVariant_recover_trace (e : exn) :
  fst (recover e h)
  = [ConsoleError [LogString "Function execution error:"; LogError e];
     Respond (fst internal_error) (snd internal_error)].
Proof. reflexivity. Qed.

Variable req : request.

(** The handler on a request that reaches the call: the call, then what
    follows from the provider's answer. *)
Lemma TypeVariant_run_call (d p rb : value) :
  reaches_call h req d p rb ->
  run handler h req =
    Fetch (outbound (env_GEMINI_API_KEY h) rb)
    :: match network h (outbound (env_GEMINI_API_KEY h) rb) with
       | FetchResolved r =>
           match conclude d p r h with
           | (t, Throw e) => t ++ fst (recover e h)
           | (t, _) => t
           end
       | FetchRejected m => fst (recover (FetchError m) h)
       end.
Proof.
  intros (Hm & Hk & Hd & Hp & Hrb).
  pose proof (TypeVariant_switch_quiet _ _ _ Hrb) as Hq.
  unfold run, handler, attempt.
  apply jsstring_eqb_eq in Hm. rewrite Hm. unfold_eff.
  rewrite Hk, Hd, Hp. unfold_eff.
  destruct (requestBody_for d p h) as [t c]. simpl in Hrb, Hq. subst t c.
  unfold_eff.
  destruct (network h _) as [r|m]; unfold_eff.
  - destruct (conclude d p r h) as [t [a|e|]]; unfold_eff;
      rewrite ?app_nil_r; reflexivity.
  - reflexivity.
Qed.

(** The calls of a request that reaches the call: that one. *)
Lemma TypeVariant_calls_reached (d p rb : value) :
  reaches_call h req d p rb ->
  fetches (run handler h req) = [outbound (env_GEMINI_API_KEY h) rb].
Proof.
  intros Hcall. rewrite (TypeVariant_run_call _ _ _ Hcall).
  rewrite fetches_call. f_equal.
  destruct (network h _) as [r|m]; [|reflexivity].
  pose proof (TypeVariant_conclude_no_fetch d p r) as Hc.
  destruct (conclude d p r h) as [t [a|e|]];
    simpl in Hc; rewrite ?fetches_app, Hc; reflexivity.
Qed.

(** A call is made only by a request that reaches it. *)
Lemma TypeVariant_call_made (rq : fetch_request) :
  In rq (fetches (run handler h req)) ->
  exists d p rb,
    reaches_call h req d p rb /\ rq = outbound (env_GEMINI_API_KEY h) rb.
Proof.
  intros Hin.
  assert (Hcall : exists d p rb, reaches_call h req d p rb).
  { revert Hin. unfold run, handler, attempt.
    destruct (JsString.eqb (method req) "POST") eqn:Hm; [|intros []].
    apply jsstring_eqb_eq in Hm. unfold_eff.
    destruct (Js.falsy (env_GEMINI_API_KEY h)) eqn:Hk; [intros []|].
    destruct (Js.get (body req) "type") as [d|] eqn:Hd; [|intros []].
    destruct (Js.get (body req) "payload") as [p|] eqn:Hp; [|intros []].
    unfold_eff.
    pose proof (TypeVariant_switch_no_fetch d p) as Hq.
    destruct (requestBody_for d p h) as [t [rb|e|]] eqn:Hrb;
      simpl in Hq; unfold_eff.
    - intros _. exists d, p, rb.
      repeat split; try assumption. now rewrite Hrb.
    - unfold recover. unfold_eff. rewrite fetches_app, Hq. intros [].
    - rewrite Hq. intros []. }
  destruct Hcall as (d & p & rb & Hcall). exists d, p, rb.
  split; [exact Hcall|].
  rewrite (TypeVariant_calls_reached _ _ _ Hcall) in Hin.
  destruct Hin as [<-|[]]. reflexivity.
Qed.

(** What follows the call when the provider answers with a success status
    and a body that parses to [data], whose first text part is [aiText]. *)
Lemma TypeVariant_run_answered
    (d p : value) (rq : fetch_request) (data aiText : value) :
  Js.get (body req) "type" = Ok d ->
  Js.get (body req) "payload" = Ok p ->
  In rq (fetches (run handler h req)) ->
  answers h rq data ->
  aiText_of data = Ok aiText ->
  run handler h req =
    Fetch rq
    :: (if type_is d "filter" then
          match filter_reply aiText with
          | Ok reply => [Respond 200 reply]
          | Raised e => fst (recover e h)
          end
        else if type_is d "summarize" then
          [Respond 200 (VObj [("summary"%js, aiText)])]
        else if type_is d "suggest" then
          match suggest_reply p aiText with
          | Ok reply => [Respond 200 reply]
          | Raised e => fst (recover e h)
          end
        else []).
Proof.
  intros Hd Hp Hin (r & t & Hnet & Hok & Hrecv & Hparse) Hai.
  destruct (TypeVariant_call_made rq Hin) as (d' & p' & rb & Hcall & ->).
  assert (d' = d) by (destruct Hcall as (_ & _ & Hd' & _); congruence).
  assert (p' = p) by (destruct Hcall as (_ & _ & _ & Hp' & _); congruence).
  subst d' p'.
  rewrite (TypeVariant_run_call _ _ _ Hcall), Hnet. f_equal.
  unfold conclude. unfold_eff. rewrite Hok, Hrecv. unfold_eff.
  rewrite Hparse, Hai. run_eff; rewrite ?app_nil_r; reflexivity.
Qed.

(** What follows the call when the provider answers with a status outside
    200..299. *)
Lemma TypeVariant_run_refused (rq : fetch_request) (r : fetch_response) :
  In rq (fetches (run handler h req)) ->
  refuses h rq r ->
  run handler h req =
    Fetch rq
    :: match received r with
       | BodyText t =>
           ConsoleError [LogString "Gemini API Error:"; LogString t]
           :: fst (recover (Error ("Gemini API Error: " ++ statusText r)%js) h)
       | BodyFailed m => fst (recover (FetchError m) h)
       end.
Proof.
  intros Hin (Hnet & Hok).
  destruct (TypeVariant_call_made rq Hin) as (d & p & rb & Hcall & ->).
  rewrite (TypeVariant_run_call _ _ _ Hcall), Hnet. f_equal.
  unfold conclude. unfold_eff. rewrite Hok.
  destruct (received r) as [t|m]; reflexivity.
Qed.

(** What follows the call when the network fails. *)
Lemma TypeVariant_run_rejected (rq : fetch_request) (m : jsstring) :
  In rq (fetches (run handler h req)) ->
  network h rq = FetchRejected m ->
  run handler h req = Fetch rq :: fst (recover (FetchError m) h).
Proof.
  intros Hin Hnet.
  destruct (TypeVariant_call_made rq Hin) as (d & p & rb & Hcall & ->).
  rewrite (TypeVariant_run_call _ _ _ Hcall), Hnet. reflexivity.
Qed.

(** Nothing is sent before an exception leaves the try block. *)
Lemma TypeVariant_throw_sends_nothing (key : option jsstring) (e : exn) :
  snd (attempt key req h) = Throw e ->
  responses (fst (attempt key req h)) = [].
Proof.
  unfold attempt, requestBody_for, conclude.
  run_eff; intros; (discriminate || reflexivity).
Qed.

Lemma TypeVariant_run_throw (e : exn) :
  method req = "POST"%js ->
  Js.falsy (env_GEMINI_API_KEY h) = false ->
  snd (attempt (env_GEMINI_API_KEY h) req h) = Throw e ->
  responses (run handler h req) = [internal_error].
Proof.
  intros Hm Hk Hthrow.
  pose proof (TypeVariant_throw_sends_nothing _ _ Hthrow) as Hquiet.
  unfold run, handler.
  apply jsstring_eqb_eq in Hm. rewrite Hm. unfold_eff. rewrite Hk.
  destruct (attempt (env_GEMINI_API_KEY h) req h) as [t c].
  simpl in Hthrow, Hquiet. subst c. unfold_eff.
  change (responses (t ++ fst (recover e h)) = [internal_error]).
  rewrite responses_app, Hquiet. reflexivity.
Qed.

Lemma TypeVariant_at_most_one_call :
  (length (fetches (run handler h req)) <= 1)%nat.
Proof.
  unfold run, handler, attempt, requestBody_for, conclude, recover.
  run_eff; simpl; lia.
Qed.

(** Whatever the request and the host, the handler sends exactly one
    response, with one of four status codes. *)
Lemma TypeVariant_one_response :
  exists code json,
    responses (run handler h req) = [(code, json)]
    /\ In code [200; 400; 405; 500]%N.
Proof.
  unfold run, handler, attempt, requestBody_for, conclude, recover.
  run_eff; try discriminate;
    (eexists; eexists; split; [reflexivity | simpl; tauto]).
Qed.

End TypeVariantPaths.

(* ================================================================= *)
(** ** The paths through api/gemini.js *)

Section ActionVariantPaths.
Import ActionVariant.
Variable h : host.

Lemma ActionVariant_switch_quiet (d p rb : value) :
  snd (requestBody_for d p h) = Normal rb -> fst (requestBody_for d p h) = [].
Proof. unfold requestBody_for. run_eff; (reflexivity || discriminate). Qed.

Lemma ActionVariant_switch_no_fetch (d p : value) :
  fetches (fst (requestBody_for d p h)) = [].
Proof. unfold requestBody_for. run_eff; reflexivity. Qed.

Lemma ActionVariant_switch_any_host (d p : value) (h' : host) :
  requestBody_for d p h = requestBody_for d p h'.
Proof. unfold requestBody_for. run_eff; reflexivity. Qed.

Lemma ActionVariant_conclude_no_fetch (r : fetch_response) :
  fetches (fst (conclude r h)) = [].
Proof. unfold conclude. run_eff; reflexivity. Qed.

Lemma ActionVariant_recover_trace (e : exn) :
  fst (recover e h)
  = [ConsoleError [LogString "Error in Vercel function:"; LogError e];
     Respond (fst (internal_error h e)) (snd (internal_error h e))].
Proof. reflexivity. Qed.

Variable req : request.

Lemma ActionVariant_run_call (d p rb : value) :
  reaches_call h req d p rb ->
  run handler h req =
    Fetch (outbound (env_GEMINI_API_KEY h) rb)
    :: match network h (outbound (env_GEMINI_API_KEY h) rb) with
       | FetchResolved r =>
           match conclude r h with
           | (t, Throw e) => t ++ fst (recover e h)
           | (t, _) => t
           end
       | FetchRejected m => fst (recover (FetchError m) h)
       end.
Proof.
  intros (Hm & Hk & Hd & Hp & Hrb).
  pose proof (ActionVariant_switch_quiet _ _ _ Hrb) as Hq.
  unfold run, handler, attempt.
  apply jsstring_eqb_eq in Hm. rewrite Hm. unfold_eff.
  rewrite Hk, Hd, Hp. unfold_eff.
  destruct (requestBody_for d p h) as [t c]. simpl in Hrb, Hq. subst t c.
  unfold_eff.
  destruct (network h _) as [r|m]; unfold_eff.
  - destruct (conclude r h) as [t [a|e|]]; unfold_eff;
      rewrite ?app_nil_r; reflexivity.
  - reflexivity.
Qed.

Lemma ActionVariant_calls_reached (d p rb : value) :
  reaches_call h req d p rb ->
  fetches (run handler h req) = [outbound (env_GEMINI_API_KEY h) rb].
Proof.
  intros Hcall. rewrite (ActionVariant_run_call _ _ _ Hcall).
  rewrite fetches_call. f_equal.
  destruct (network h _) as [r|m]; [|reflexivity].
  pose proof (ActionVariant_conclude_no_fetch r) as Hc.
  destruct (conclude r h) as [t [a|e|]];
    simpl in Hc; rewrite ?fetches_app, Hc; reflexivity.
Qed.

Lemma ActionVariant_call_made (rq : fetch_request) :
  In rq (fetches (run handler h req)) ->
  exists d p rb,
    reaches_call h req d p rb /\ rq = outbound (env_GEMINI_API_KEY h) rb.
Proof.
  intros Hin.
  assert (Hcall : exists d p rb, reaches_call h req d p rb).
  { revert Hin. unfold run, handler, attempt.
    destruct (JsString.eqb (method req) "POST") eqn:Hm; [|intros []].
    apply jsstring_eqb_eq in Hm. unfold_eff.
    destruct (Js.falsy (env_GEMINI_API_KEY h)) eqn:Hk; [intros []|].
    destruct (Js.get (body req) "action") as [d|] eqn:Hd; [|intros []].
    destruct (Js.get (body req) "payload") as [p|] eqn:Hp; [|intros []].
    unfold_eff.
    pose proof (ActionVariant_switch_no_fetch d p) as Hq.
    destruct (requestBody_for d p h) as [t [rb|e|]] eqn:Hrb;
      simpl in Hq; unfold_eff.
    - intros _. exists d, p, rb.
      repeat split; try assumption. now rewrite Hrb.
    - unfold recover. unfold_eff. rewrite fetches_app, Hq. intros [].
    - rewrite Hq. intros []. }
  destruct Hcall as (d & p & rb & Hcall). exists d, p, rb.
  split; [exact Hcall|].
  rewrite (ActionVariant_calls_reached _ _ _ Hcall) in Hin.
  destruct Hin as [<-|[]]. reflexivity.
Qed.

Lemma ActionVariant_run_answered (rq : fetch_request) (data : value) :
  In rq (fetches (run handler h req)) ->
  answers h rq data ->
  run handler h req = [Fetch rq; Respond 200 data].
Proof.
  intros Hin (r & t & Hnet & Hok & Hrecv & Hparse).
  destruct (ActionVariant_call_made rq Hin) as (d & p & rb & Hcall & ->).
  rewrite (ActionVariant_run_call _ _ _ Hcall), Hnet. f_equal.
  unfold conclude. unfold_eff. rewrite Hok, Hrecv. unfold_eff.
  rewrite Hparse. reflexivity.
Qed.

Lemma ActionVariant_run_refused (rq : fetch_request) (r : fetch_response) :
  In rq (fetches (run handler h req)) ->
  refuses h rq r ->
  run handler h req =
    Fetch rq
    :: match received r with
       | BodyText t =>
           ConsoleError [LogString "Gemini API Error:"; LogString t]
           :: fst (recover
                     (Error ("Gemini API request failed with status "
                               ++ Number.to_string (Number.of_N (status r)))%js)
                     h)
       | BodyFailed m => fst (recover (FetchError m) h)
       end.
Proof.
  intros Hin (Hnet & Hok).
  destruct (ActionVariant_call_made rq Hin) as (d & p & rb & Hcall & ->).
  rewrite (ActionVariant_run_call _ _ _ Hcall), Hnet. f_equal.
  unfold conclude. unfold_eff. rewrite Hok.
  destruct (received r) as [t|m]; reflexivity.
Qed.

Lemma ActionVariant_run_rejected (rq : fetch_request) (m : jsstring) :
  In rq (fetches (run handler h req)) ->
  network h rq = FetchRejected m ->
  run handler h req = Fetch rq :: fst (recover (FetchError m) h).
Proof.
  intros Hin Hnet.
  destruct (ActionVariant_call_made rq Hin) as (d & p & rb & Hcall & ->).
  rewrite (ActionVariant_run_call _ _ _ Hcall), Hnet. reflexivity.
Qed.

Lemma ActionVariant_throw_sends_nothing (key : option jsstring) (e : exn) :
  snd (attempt key req h) = Throw e ->
  responses (fst (attempt key req h)) = [].
Proof.
  unfold attempt, requestBody_for, conclude.
  run_eff; intros; (discriminate || reflexivity).
Qed.

Lemma ActionVariant_run_throw (e : exn) :
  method req = "POST"%js ->
  Js.falsy (env_GEMINI_API_KEY h) = false ->
  snd (attempt (env_GEMINI_API_KEY h) req h) = Throw e ->
  responses (run handler h req) = [internal_error h e].
Proof.
  intros Hm Hk Hthrow.
  pose proof (ActionVariant_throw_sends_nothing _ _ Hthrow) as Hquiet.
  unfold run, handler.
  apply jsstring_eqb_eq in Hm. rewrite Hm. unfold_eff. rewrite Hk.
  destruct (attempt (env_GEMINI_API_KEY h) req h) as [t c].
  simpl in Hthrow, Hquiet. subst c. unfold_eff.
  change (responses (t ++ fst (recover e h)) = [internal_error h e]).
  rewrite responses_app, Hquiet. reflexivity.
Qed.

Lemma ActionVariant_at_most_one_call :
  (length (fetches (run handler h req)) <= 1)%nat.
Proof.
  unfold run, handler, attempt, requestBody_for, conclude, recover.
  run_eff; simpl; lia.
Qed.

Lemma ActionVariant_one_response :
  exists code json,
    responses (run handler h req) = [(code, json)]
    /\ In code [200; 400; 405; 500]%N.
Proof.
  unfold run, handler, attempt, requestBody_for, conclude, recover.
  run_eff; try discriminate;
    (eexists; eexists; split; [reflexivity | simpl; tauto]).
Qed.

End ActionVariantPaths.

(* ================================================================= *)
(** ** The method check *)

(** C7. A request whose method is not POST is answered 405, and no call
    to the provider is made; by both handlers. *)
Theorem non_post_is_405 :
  forall (h : host) (req : request),
    method req <> "POST"%js ->
    (statuses (run TypeVariant.handler h req) = [405%N]
     /\ fetches (run TypeVariant.handler h req) = [])
    /\ (statuses (run ActionVariant.handler h req) = [405%N]
        /\ fetches (run ActionVariant.handler h req) = []).
Proof.
  intros h req Hm. apply jsstring_eqb_neq in Hm.
  unfold run, TypeVariant.handler, ActionVariant.handler.
  rewrite Hm. repeat split; reflexivity.
Qed.

(* ================================================================= *)
(** ** The credential check *)

(** An empty key counts as none. *)
Lemma falsy_key_is_500 (h : host) (req : request) :
  method req = "POST"%js ->
  Js.falsy (env_GEMINI_API_KEY h) = true ->
  (statuses (run TypeVariant.handler h req) = [500%N]
   /\ fetches (run TypeVariant.handler h req) = [])
  /\ (statuses (run ActionVariant.handler h req) = [500%N]
      /\ fetches (run ActionVariant.handler h req) = []).
Proof.
  intros Hm Hk. apply jsstring_eqb_eq in Hm.
  unfold run, TypeVariant.handler, ActionVariant.handler.
  rewrite Hm. unfold_eff. rewrite Hk. repeat split; reflexivity.
Qed.

(** C8. A POST request handled while GEMINI_API_KEY is absent from the
    environment is answered 500, and no call to the provider is made; by
    both handlers. *)
Theorem missing_key_is_500 :
  forall (h : host) (req : request),
    method req = "POST"%js ->
    env_GEMINI_API_KEY h = None ->
    (statuses (run TypeVariant.handler h req) = [500%N]
     /\ fetches (run TypeVariant.handler h req) = [])
    /\ (statuses (run ActionVariant.handler h req) = [500%N]
        /\ fetches (run ActionVariant.handler h req) = []).
Proof.
  intros h req Hm Hk. apply falsy_key_is_500; [assumption|].
  rewrite Hk. reflexivity.
Qed.

(* ================================================================= *)
(** ** The action check *)

(** C9, amended. A POST request handled while the key is configured,
    whose body is neither [undefined] nor [null], so that its type
    (part_000) or action (api/gemini.js) can be read, and whose type or
    action is none of filter, summarize and suggest, is answered 400, and
    no call to the provider is made. When the body is [undefined] or
    [null] there is nothing to read the type or action from: the
    destructuring throws inside the try block, the answer is 500, and no
    call is made. Without the key the answer is 500 as well, by the
    credential check, which comes first. *)
Theorem unknown_action_is_400 :
  forall (h : host) (req : request),
    method req = "POST"%js ->
    Js.falsy (env_GEMINI_API_KEY h) = false ->
    (nullish (body req) = false ->
     exists type action,
       Js.get (body req) "type" = Ok type
       /\ Js.get (body req) "action" = Ok action
       /\ (known_action type = false ->
           statuses (run TypeVariant.handler h req) = [400%N]
           /\ fetches (run TypeVariant.handler h req) = [])
       /\ (known_action action = false ->
           statuses (run ActionVariant.handler h req) = [400%N]
           /\ fetches (run ActionVariant.handler h req) = []))
    /\ (nullish (body req) = true ->
        (statuses (run TypeVariant.handler h req) = [500%N]
         /\ fetches (run TypeVariant.handler h req) = [])
        /\ (statuses (run ActionVariant.handler h req) = [500%N]
            /\ fetches (run ActionVariant.handler h req) = [])).
Proof.
  intros h req Hm Hk. apply jsstring_eqb_eq in Hm. split.
  - intros Hbody.
    assert (Hread : forall name, exists v, Js.get (body req) name = Ok v).
    { intros name. destruct (body req); try discriminate Hbody; simpl;
        repeat match goal with
               | |- context [match ?x with _ => _ end] => destruct x
               end; eexists; reflexivity. }
    destruct (Hread "type"%js) as [type Htype].
    destruct (Hread "action"%js) as [action Haction].
    destruct (Hread "payload"%js) as [p Hp].
    exists type, action. split; [exact Htype|]. split; [exact Haction|].
    split; intros Hd; unfold known_action in Hd;
      apply orb_false_iff in Hd as [Hd Hsug];
      apply orb_false_iff in Hd as [Hfil Hsum].
    + unfold run, TypeVariant.handler, TypeVariant.attempt,
        TypeVariant.requestBody_for, TypeVariant.type_is.
      rewrite Hm. unfold_eff. rewrite Hk, Htype, Hp. unfold_eff.
      rewrite Hfil, Hsum, Hsug. unfold_eff. split; reflexivity.
    + unfold run, ActionVariant.handler, ActionVariant.attempt,
        ActionVariant.requestBody_for, ActionVariant.action_is.
      rewrite Hm. unfold_eff. rewrite Hk, Haction, Hp. unfold_eff.
      rewrite Hfil, Hsum, Hsug. unfold_eff. split; reflexivity.
  - intros Hbody.
    unfold run, TypeVariant.handler, TypeVariant.attempt,
      ActionVariant.handler, ActionVariant.attempt.
    rewrite Hm. unfold_eff. rewrite Hk.
    destruct (body req); try discriminate Hbody;
      repeat split; reflexivity.
Qed.

(* ================================================================= *)
(** ** One outbound call *)

(** C1, amended. Every request leads to at most one call to the provider.
    A request that passes the method and credential checks and for which
    the switch assembles a request body leads to exactly one call, the one
    that carries that body. A known type does not suffice: a payload from
    which the body cannot be assembled makes the switch throw before the
    call. *)
Theorem one_call_when_assembled :
  forall (h : host) (req : request),
    ((length (fetches (run TypeVariant.handler h req)) <= 1)%nat
     /\ forall d p requestBody,
          TypeVariant.reaches_call h req d p requestBody ->
          fetches (run TypeVariant.handler h req)
          = [TypeVariant.outbound (env_GEMINI_API_KEY h) requestBody])
    /\ ((length (fetches (run ActionVariant.handler h req)) <= 1)%nat
        /\ forall d p requestBody,
             ActionVariant.reaches_call h req d p requestBody ->
             fetches (run ActionVariant.handler h req)
             = [ActionVariant.outbound (env_GEMINI_API_KEY h) requestBody]).
Proof.
  intros h req. split; split.
  - apply TypeVariant_at_most_one_call.
  - apply TypeVariant_calls_reached.
  - apply ActionVariant_at_most_one_call.
  - apply ActionVariant_calls_reached.
Qed.

(* ================================================================= *)
(** ** summarize *)

(** C4, amended. In part_000, a summarize request the provider answers
    with a success status is answered 200 with the first candidate's first
    text part, whatever it is and unparsed, as [summary]. In api/gemini.js
    it is answered 200 with the provider's parsed response, unchanged. *)
Theorem summarize_returns_the_text :
  forall (h : host) (req : request) (rq : fetch_request) (data : value),
    answers h rq data ->
    (Js.get (body req) "type" = Ok (VStr "summarize") ->
     In rq (fetches (run TypeVariant.handler h req)) ->
     forall aiText,
       TypeVariant.aiText_of data = Ok aiText ->
       responses (run TypeVariant.handler h req)
       = [(200%N, VObj [("summary"%js, aiText)])])
    /\ (Js.get (body req) "action" = Ok (VStr "summarize") ->
        In rq (fetches (run ActionVariant.handler h req)) ->
        responses (run ActionVariant.handler h req) = [(200%N, data)]).
Proof.
  intros h req rq data Hans. split.
  - intros Hd Hin aiText Hai.
    destruct (get_readable _ _ "payload" _ Hd) as [p Hp].
    rewrite (TypeVariant_run_answered h req _ p rq data aiText
               Hd Hp Hin Hans Hai).
    reflexivity.
  - intros _ Hin.
    rewrite (ActionVariant_run_answered h req rq data Hin Hans).
    reflexivity.
Qed.

(* ================================================================= *)
(** ** filter *)

(** Joining strings keeps what was joined so far and every string
    joined. *)
Lemma join_from_strings (sep : jsstring) (ks : list jsstring) :
  forall acc,
  exists joined,
    Js.join_from Js.to_string sep acc (map VStr ks) = Ok joined
    /\ JsString.contains joined acc
    /\ forall k, In k ks -> JsString.contains joined k.
Proof.
  induction ks as [|k ks IH]; intros acc; simpl.
  - exists acc. split; [reflexivity|]. split; [apply contains_refl|].
    intros k [].
  - destruct (IH (acc ++ sep ++ k)%js) as (joined & Hj & Hacc & Hks).
    exists joined. split; [exact Hj|]. split.
    + destruct Hacc as (pre & post & H).
      exists pre, (units sep ++ units k ++ post).
      rewrite H. simpl. rewrite <- !app_assoc. reflexivity.
    + intros k' [<-|Hin]; [|now apply Hks].
      destruct Hacc as (pre & post & H).
      exists (pre ++ units acc ++ units sep), post.
      rewrite H. simpl. rewrite <- !app_assoc. reflexivity.
Qed.

Lemma array_join_strings (sep : jsstring) (ks : list jsstring) :
  exists joined,
    Js.array_join (VArr (map VStr ks)) sep = Ok joined
    /\ forall k, In k ks -> JsString.contains joined k.
Proof.
  destruct ks as [|k ks]; simpl.
  - exists JsString.empty. split; [reflexivity|]. intros k [].
  - destruct (join_from_strings sep ks k) as (joined & Hj & Hk & Hks).
    exists joined. split; [exact Hj|].
    intros k' [<-|Hin]; [exact Hk|now apply Hks].
Qed.

(** C3, amended. In part_000, a filter request the provider answers with a
    text that parses to an object with a string [category] and a list of
    strings [keywords] is answered 200 with that object as
    [aiResponseObject] and a [modelChatMessage] in which the category and
    every keyword occur. In api/gemini.js it is answered 200 with the
    provider's parsed response, unchanged. *)
Theorem filter_returns_object_and_message :
  forall (h : host) (req : request) (rq : fetch_request) (data : value),
    answers h rq data ->
    (Js.get (body req) "type" = Ok (VStr "filter") ->
     In rq (fetches (run TypeVariant.handler h req)) ->
     forall aiText parsed category keywords,
       TypeVariant.aiText_of data = Ok aiText ->
       Js.JSON_parse aiText = Ok parsed ->
       Js.get parsed "category" = Ok (VStr category) ->
       Js.get parsed "keywords" = Ok (VArr (map VStr keywords)) ->
       exists modelChatMessage,
         responses (run TypeVariant.handler h req)
         = [(200%N, VObj [("aiResponseObject"%js, parsed);
                          ("modelChatMessage"%js, VStr modelChatMessage)])]
         /\ JsString.contains modelChatMessage category
         /\ forall k, In k keywords -> JsString.contains modelChatMessage k)
    /\ (Js.get (body req) "action" = Ok (VStr "filter") ->
        In rq (fetches (run ActionVariant.handler h req)) ->
        responses (run ActionVariant.handler h req) = [(200%N, data)]).
Proof.
  intros h req rq data Hans. split.
  - intros Hd Hin aiText parsed category keywords Hai Hparse Hcat Hkw.
    destruct (get_readable _ _ "payload" _ Hd) as [p Hp].
    rewrite (TypeVariant_run_answered h req _ p rq data aiText
               Hd Hp Hin Hans Hai).
    change (TypeVariant.type_is (VStr "filter") "filter") with true.
    cbv iota. unfold TypeVariant.filter_reply.
    rewrite Hparse. cbn [rbind]. rewrite Hcat. cbn [rbind Js.to_string].
    rewrite Hkw. cbn [rbind].
    destruct (array_join_strings ", " keywords) as (joined & -> & Hks).
    cbn [rbind]. eexists. split; [reflexivity|]. split.
    + apply contains_append_r, contains_append_l, contains_refl.
    + intros k Hin'.
      do 3 apply contains_append_r. apply contains_append_l. now apply Hks.
  - intros _ Hin.
    rewrite (ActionVariant_run_answered h req rq data Hin Hans).
    reflexivity.
Qed.

(* ================================================================= *)
(** ** suggest *)

Lemma map_elems_each (f : value -> result value) (es ys : list value) :
  Js.map_elems f es = Ok ys -> forall x, In x es -> exists y, f x = Ok y.
Proof.
  revert ys; induction es as [|e es IH]; intros ys H x Hin; [destruct Hin|].
  simpl in H. destruct (f e) as [y|] eqn:He; [|discriminate].
  destruct (Js.map_elems f es) as [ys'|] eqn:Hes; [|discriminate].
  destruct Hin as [<-|Hin]; [now exists y|]. now apply (IH ys').
Qed.

Lemma candidate_has_id (x c recommendedId : value) :
  TypeVariant.candidate_of x = Ok c ->
  exists b, TypeVariant.has_id recommendedId x = Ok b.
Proof.
  unfold TypeVariant.candidate_of, TypeVariant.has_id.
  destruct (Js.get x "id") as [id|]; [|discriminate].
  intros _. eexists. reflexivity.
Qed.

(** A suggest request that leads to a call has a list of products, and
    the id of each can be read. *)
Lemma suggest_products_readable
    (h : host) (req : request) (rq : fetch_request) (p : value)
    (ps : list value) :
  Js.get (body req) "type" = Ok (VStr "suggest") ->
  Js.get (body req) "payload" = Ok p ->
  In rq (fetches (run TypeVariant.handler h req)) ->
  Js.get p "products" = Ok (VArr ps) ->
  forall recommendedId x, In x ps ->
    exists b, TypeVariant.has_id recommendedId x = Ok b.
Proof.
  intros Hd Hp Hin Hps n x Hx.
  destruct (TypeVariant_call_made h req rq Hin)
    as (d' & p' & rb & (_ & _ & Hd' & Hp' & Hrb) & _).
  assert (d' = VStr "suggest") by congruence.
  assert (p' = p) by congruence. subst d' p'.
  unfold TypeVariant.requestBody_for in Hrb.
  change (TypeVariant.type_is (VStr "suggest") "filter") with false in Hrb.
  change (TypeVariant.type_is (VStr "suggest") "summarize") with false in Hrb.
  change (TypeVariant.type_is (VStr "suggest") "suggest") with true in Hrb.
  cbv iota in Hrb. unfold TypeVariant.suggest_requestBody in Hrb.
  rewrite Hps in Hrb. cbn [rbind Js.array_map] in Hrb.
  destruct (Js.map_elems TypeVariant.candidate_of ps) as [cs|] eqn:Hcs;
    [|discriminate].
  destruct (map_elems_each _ _ _ Hcs x Hx) as [c Hc].
  exact (candidate_has_id x c n Hc).
Qed.

(** The linear scan stops at the first element the callback accepts. *)
Lemma find_elem_first (pred : value -> result bool) (es : list value) :
  (forall x, In x es -> exists b, pred x = Ok b) ->
  (exists q, In q es /\ pred q = Ok true) ->
  exists before q after,
    es = before ++ q :: after
    /\ Forall (fun x => pred x = Ok false) before
    /\ pred q = Ok true
    /\ Js.find_elem pred es = Ok q.
Proof.
  induction es as [|e es IH]; intros Htot (q & Hin & Hq); [destruct Hin|].
  destruct (Htot e (or_introl eq_refl)) as [[|] He].
  - exists [], e, es. simpl. rewrite He. repeat split; auto.
  - destruct Hin as [<-|Hin]; [congruence|].
    destruct IH as (before & q' & after & -> & Hb & Hq' & Hfind).
    + intros x Hx. apply Htot. now right.
    + now exists q.
    + exists (e :: before), q', after. simpl. rewrite He.
      repeat split; auto.
Qed.

Lemma find_elem_none (pred : value -> result bool) (es : list value) :
  (forall x, In x es -> exists b, pred x = Ok b) ->
  (forall x, In x es -> pred x <> Ok true) ->
  Js.find_elem pred es = Ok VUndefined.
Proof.
  induction es as [|e es IH]; intros Htot Hnone; [reflexivity|].
  simpl. destruct (Htot e (or_introl eq_refl)) as [[|] He].
  - exfalso. now apply (Hnone e (or_introl eq_refl)).
  - rewrite He. apply IH; intros x Hx; [apply Htot|apply Hnone]; now right.
Qed.

(** The callback of [find] accepts a product exactly when the product's
    [id] is strictly equal to the id sought. *)
Lemma has_id_iff (recommendedId x : value) (b : bool) :
  TypeVariant.has_id recommendedId x = Ok b
  <-> exists id, Js.get x "id" = Ok id
                 /\ Js.strict_eq id recommendedId = b.
Proof.
  unfold TypeVariant.has_id. destruct (Js.get x "id") as [id|e]; cbn [rbind].
  - split.
    + intros [= <-]. now exists id.
    + intros (id' & [= <-] & <-). reflexivity.
  - split; [discriminate | intros (id' & Hid & _); discriminate].
Qed.

(** The linear scan passes over the elements the callback refuses. *)
Lemma find_elem_skips (pred : value -> result bool)
    (before : list value) (q : value) (after : list value) :
  Forall (fun x => pred x = Ok false) before ->
  pred q = Ok true ->
  Js.find_elem pred (before ++ q :: after) = Ok q.
Proof.
  intros Hbefore Hq. induction Hbefore as [|x before Hx _ IH]; simpl.
  - now rewrite Hq.
  - now rewrite Hx.
Qed.

(** C2. In part_000, for a suggest request the provider answers with a text
    that parses to an object whose [recommendedId] is [n]. The id of a
    product [q] is what [q.id] reads, and it is equal to [n] when [===]
    says so, with no conversion. If [q] is the first product of the
    payload whose id is equal to [n], the answer is 200 with [q] itself as
    [recommendedProduct]. If some product has an id equal to [n], there is
    such a first one, so the product returned is one of the payload and
    its id is equal to [n]. If no product has, the answer is still 200,
    [recommendedProduct] is undefined, and the body on the wire is the
    empty object. Nothing is logged as an error in any case. *)
Theorem suggest_returns_the_product_with_the_id :
  forall (h : host) (req : request) (rq : fetch_request)
         (p data aiText parsed recommendedId : value)
         (products : list value),
    Js.get (body req) "type" = Ok (VStr "suggest") ->
    Js.get (body req) "payload" = Ok p ->
    Js.get p "products" = Ok (VArr products) ->
    In rq (fetches (run TypeVariant.handler h req)) ->
    answers h rq data ->
    TypeVariant.aiText_of data = Ok aiText ->
    Js.JSON_parse aiText = Ok parsed ->
    Js.get parsed "recommendedId" = Ok recommendedId ->
    (forall before q after id,
       products = before ++ q :: after ->
       (forall x i, In x before -> Js.get x "id" = Ok i ->
                    Js.strict_eq i recommendedId = false) ->
       Js.get q "id" = Ok id ->
       Js.strict_eq id recommendedId = true ->
       responses (run TypeVariant.handler h req)
       = [(200%N, VObj [("recommendedProduct"%js, q)])]
       /\ logged (run TypeVariant.handler h req) = [])
    /\ ((exists q id, In q products
                      /\ Js.get q "id" = Ok id
                      /\ Js.strict_eq id recommendedId = true) ->
        exists q id,
          In q products
          /\ Js.get q "id" = Ok id
          /\ Js.strict_eq id recommendedId = true
          /\ responses (run TypeVariant.handler h req)
             = [(200%N, VObj [("recommendedProduct"%js, q)])]
          /\ logged (run TypeVariant.handler h req) = [])
    /\ ((forall q id, In q products -> Js.get q "id" = Ok id ->
                      Js.strict_eq id recommendedId = false) ->
        responses (run TypeVariant.handler h req)
        = [(200%N, VObj [("recommendedProduct"%js, VUndefined)])]
        /\ wire (VObj [("recommendedProduct"%js, VUndefined)])
           = Some "{}"%js
        /\ logged (run TypeVariant.handler h req) = []).
Proof.
  intros h req rq p data aiText parsed n ps
    Hd Hp Hps Hin Hans Hai Hparse Hid.
  pose proof (suggest_products_readable h req rq p ps Hd Hp Hin Hps n)
    as Htot.
  rewrite (TypeVariant_run_answered h req _ p rq data aiText
             Hd Hp Hin Hans Hai).
  change (TypeVariant.type_is (VStr "suggest") "filter") with false.
  change (TypeVariant.type_is (VStr "suggest") "summarize") with false.
  change (TypeVariant.type_is (VStr "suggest") "suggest") with true.
  cbv iota. unfold TypeVariant.suggest_reply.
  rewrite Hparse. cbn [rbind]. rewrite Hid. cbn [rbind].
  rewrite Hps. cbn [rbind Js.array_find].
  split; [|split].
  - intros before q after id Heq Hbefore Hq Hsame. subst ps.
    rewrite (find_elem_skips (TypeVariant.has_id n) before q after).
    + cbn [rbind]. split; reflexivity.
    + apply Forall_forall. intros x Hx.
      destruct (Htot x) as [b Hb]; [apply in_or_app; now left|].
      destruct (proj1 (has_id_iff n x b) Hb) as (i & Hi & <-).
      rewrite Hb. now rewrite (Hbefore x i Hx Hi).
    + apply has_id_iff. now exists id.
  - intros (q & id & Hq & Hget & Hsame).
    destruct (find_elem_first (TypeVariant.has_id n) ps Htot)
      as (before & q' & after & Heq & _ & Hq' & Hfind).
    { exists q. split; [exact Hq|]. apply has_id_iff. now exists id. }
    destruct (proj1 (has_id_iff n q' true) Hq') as (id' & Hget' & Hsame').
    exists q', id'. rewrite Hfind. cbn [rbind].
    split; [subst ps; apply in_or_app; right; now left|].
    auto.
  - intros Hnone. rewrite (find_elem_none _ ps Htot); [cbn [rbind]|].
    + split; [reflexivity|]. split; reflexivity.
    + intros q Hq Htrue.
      destruct (proj1 (has_id_iff n q true) Htrue) as (id & Hget & Hsame).
      rewrite (Hnone q id Hq Hget) in Hsame. discriminate.
Qed.

(* ================================================================= *)
(** ** A refusal by the provider *)

Lemma TypeVariant_call_any_body_text
    (h : host) (req : request) (rq : fetch_request) (t : jsstring) :
  In rq (fetches (run TypeVariant.handler h req)) ->
  In rq (fetches (run TypeVariant.handler (with_body_text t h) req)).
Proof.
  intros Hin.
  destruct (TypeVariant_call_made h req rq Hin)
    as (d & p & rb & (Hm & Hk & Hd & Hp & Hrb) & ->).
  rewrite (TypeVariant_calls_reached (with_body_text t h) req d p rb).
  - now left.
  - repeat split; try assumption.
    now rewrite (TypeVariant_switch_any_host _ d p h).
Qed.

Lemma ActionVariant_call_any_body_text
    (h : host) (req : request) (rq : fetch_request) (t : jsstring) :
  In rq (fetches (run ActionVariant.handler h req)) ->
  In rq (fetches (run ActionVariant.handler (with_body_text t h) req)).
Proof.
  intros Hin.
  destruct (ActionVariant_call_made h req rq Hin)
    as (d & p & rb & (Hm & Hk & Hd & Hp & Hrb) & ->).
  rewrite (ActionVariant_calls_reached (with_body_text t h) req d p rb).
  - now left.
  - repeat split; try assumption.
    now rewrite (ActionVariant_switch_any_host _ d p h).
Qed.

Lemma refuses_any_body_text
    (h : host) (rq : fetch_request) (r : fetch_response) (t : jsstring) :
  refuses h rq r ->
  refuses (with_body_text t h) rq
    {| status := status r; statusText := statusText r;
       received := BodyText t |}.
Proof.
  intros [Hnet Hok]. split; [|exact Hok]. simpl. now rewrite Hnet.
Qed.

(** C5. When the provider answers the call with a status outside 200..299,
    both handlers answer 500. The body is the fixed message (part_000), or
    the fixed message and the status code (api/gemini.js): the provider's
    error text goes to [console.error] and nowhere else, and another error
    text would give the same response. *)
Theorem upstream_refusal_is_generic_500 :
  forall (h : host) (req : request) (rq : fetch_request)
         (r : fetch_response),
    refuses h rq r ->
    (In rq (fetches (run TypeVariant.handler h req)) ->
     responses (run TypeVariant.handler h req) = [TypeVariant.internal_error]
     /\ forall t,
          received r = BodyText t ->
          logged (run TypeVariant.handler h req)
          = [[LogString "Gemini API Error:"; LogString t];
             [LogString "Function execution error:";
              LogError (Error ("Gemini API Error: " ++ statusText r)%js)]]
          /\ forall t',
               responses (run TypeVariant.handler (with_body_text t' h) req)
               = responses (run TypeVariant.handler h req))
    /\ (In rq (fetches (run ActionVariant.handler h req)) ->
        statuses (run ActionVariant.handler h req) = [500%N]
        /\ forall t,
             received r = BodyText t ->
             responses (run ActionVariant.handler h req)
             = [(500%N,
                 VObj [("error"%js,
                         VStr "An internal server error occurred.");
                       ("details"%js,
                         VStr ("Gemini API request failed with status "
                                 ++ Number.to_string
                                      (Number.of_N (status r)))%js)])]
             /\ logged (run ActionVariant.handler h req)
                = [[LogString "Gemini API Error:"; LogString t];
                   [LogString "Error in Vercel function:";
                    LogError
                      (Error ("Gemini API request failed with status "
                                ++ Number.to_string
                                     (Number.of_N (status r)))%js)]]
             /\ forall t',
                  responses
                    (run ActionVariant.handler (with_body_text t' h) req)
                  = responses (run ActionVariant.handler h req)).
Proof.
  intros h req rq r Href. split; intros Hin.
  - rewrite (TypeVariant_run_refused h req rq r Hin Href).
    split; [destruct (received r); reflexivity|].
    intros t Ht. rewrite Ht. split; [reflexivity|]. intros t'.
    rewrite (TypeVariant_run_refused (with_body_text t' h) req rq _
               (TypeVariant_call_any_body_text h req rq t' Hin)
               (refuses_any_body_text h rq r t' Href)).
    reflexivity.
  - rewrite (ActionVariant_run_refused h req rq r Hin Href).
    split; [destruct (received r); reflexivity|].
    intros t Ht. rewrite Ht. split; [reflexivity|].
    split; [reflexivity|]. intros t'.
    rewrite (ActionVariant_run_refused (with_body_text t' h) req rq _
               (ActionVariant_call_any_body_text h req rq t' Hin)
               (refuses_any_body_text h rq r t' Href)).
    reflexivity.
Qed.

(* ================================================================= *)
(** ** Failures inside the try block *)

(** C6. Once the method and credential checks are passed, every exception
    thrown inside the try block is answered by exactly one response, the
    500 of the catch block, and nothing was sent before it. So are, in
    particular: a payload from which the request body cannot be assembled
    (no call is made then), a network failure, and, in part_000, a
    provider text that [JSON.parse] rejects for a filter or suggest
    request; api/gemini.js does not parse that text, and answers 500 when
    the provider's body itself is no JSON. *)
Theorem failures_become_500 :
  forall (h : host) (req : request),
    method req = "POST"%js ->
    Js.falsy (env_GEMINI_API_KEY h) = false ->
    (* part_000 *)
    ((forall e,
        snd (TypeVariant.attempt (env_GEMINI_API_KEY h) req h) = Throw e ->
        responses (run TypeVariant.handler h req)
        = [TypeVariant.internal_error])
     /\ (forall d p e,
           Js.get (body req) "type" = Ok d ->
           Js.get (body req) "payload" = Ok p ->
           snd (TypeVariant.requestBody_for d p h) = Throw e ->
           responses (run TypeVariant.handler h req)
           = [TypeVariant.internal_error]
           /\ fetches (run TypeVariant.handler h req) = [])
     /\ (forall rq m,
           In rq (fetches (run TypeVariant.handler h req)) ->
           network h rq = FetchRejected m ->
           responses (run TypeVariant.handler h req)
           = [TypeVariant.internal_error])
     /\ (forall rq d data aiText e,
           Js.get (body req) "type" = Ok d ->
           d = VStr "filter" \/ d = VStr "suggest" ->
           In rq (fetches (run TypeVariant.handler h req)) ->
           answers h rq data ->
           TypeVariant.aiText_of data = Ok aiText ->
           Js.JSON_parse aiText = Raised e ->
           responses (run TypeVariant.handler h req)
           = [TypeVariant.internal_error]))
    (* api/gemini.js *)
    /\ ((forall e,
           snd (ActionVariant.attempt (env_GEMINI_API_KEY h) req h)
           = Throw e ->
           responses (run ActionVariant.handler h req)
           = [ActionVariant.internal_error h e])
        /\ (forall d p e,
              Js.get (body req) "action" = Ok d ->
              Js.get (body req) "payload" = Ok p ->
              snd (ActionVariant.requestBody_for d p h) = Throw e ->
              responses (run ActionVariant.handler h req)
              = [ActionVariant.internal_error h e]
              /\ fetches (run ActionVariant.handler h req) = [])
        /\ (forall rq m,
              In rq (fetches (run ActionVariant.handler h req)) ->
              network h rq = FetchRejected m ->
              responses (run ActionVariant.handler h req)
              = [ActionVariant.internal_error h (FetchError m)])
        /\ (forall rq r t,
              In rq (fetches (run ActionVariant.handler h req)) ->
              network h rq = FetchResolved r ->
              ok r = true ->
              received r = BodyText t ->
              JSON.parse t = None ->
              responses (run ActionVariant.handler h req)
              = [ActionVariant.internal_error h (SyntaxError t)])).
Proof.
  intros h req Hm Hk.
  split; [split; [|split; [|split]] | split; [|split; [|split]]].
  - intros e. now apply TypeVariant_run_throw.
  - intros d p e Hd Hp Hthrow. split.
    + apply (TypeVariant_run_throw h req e Hm Hk).
      unfold TypeVariant.attempt. unfold_eff. rewrite Hd, Hp. unfold_eff.
      destruct (TypeVariant.requestBody_for d p h) as [t c].
      simpl in Hthrow. subst c. reflexivity.
    + unfold run, TypeVariant.handler, TypeVariant.attempt.
      pose proof (TypeVariant_switch_no_fetch h d p) as Hq.
      apply jsstring_eqb_eq in Hm. rewrite Hm. unfold_eff.
      rewrite Hk, Hd, Hp. unfold_eff.
      destruct (TypeVariant.requestBody_for d p h) as [t c].
      simpl in Hthrow, Hq. subst c. unfold_eff.
      change (fetches (t ++ fst (TypeVariant.recover e h)) = []).
      rewrite fetches_app, Hq. reflexivity.
  - intros rq m Hin Hnet.
    rewrite (TypeVariant_run_rejected h req rq m Hin Hnet). reflexivity.
  - intros rq d data aiText e Hd Hkind Hin Hans Hai Hparse.
    destruct (get_readable _ _ "payload" _ Hd) as [p Hp].
    rewrite (TypeVariant_run_answered h req d p rq data aiText
               Hd Hp Hin Hans Hai).
    unfold TypeVariant.filter_reply, TypeVariant.suggest_reply.
    rewrite Hparse. destruct Hkind as [-> | ->]; reflexivity.
  - intros e. now apply ActionVariant_run_throw.
  - intros d p e Hd Hp Hthrow. split.
    + apply (ActionVariant_run_throw h req e Hm Hk).
      unfold ActionVariant.attempt. unfold_eff. rewrite Hd, Hp. unfold_eff.
      destruct (ActionVariant.requestBody_for d p h) as [t c].
      simpl in Hthrow. subst c. reflexivity.
    + unfold run, ActionVariant.handler, ActionVariant.attempt.
      pose proof (ActionVariant_switch_no_fetch h d p) as Hq.
      apply jsstring_eqb_eq in Hm. rewrite Hm. unfold_eff.
      rewrite Hk, Hd, Hp. unfold_eff.
      destruct (ActionVariant.requestBody_for d p h) as [t c].
      simpl in Hthrow, Hq. subst c. unfold_eff.
      change (fetches (t ++ fst (ActionVariant.recover e h)) = []).
      rewrite fetches_app, Hq. reflexivity.
  - intros rq m Hin Hnet.
    rewrite (ActionVariant_run_rejected h req rq m Hin Hnet). reflexivity.
  - intros rq r t Hin Hnet Hok Hrecv Hparse.
    destruct (ActionVariant_call_made h req rq Hin)
      as (d & p & rb & Hcall & ->).
    rewrite (ActionVariant_run_call h req _ _ _ Hcall), Hnet.
    unfold ActionVariant.conclude. unfold_eff.
    rewrite Hok, Hrecv. unfold_eff. rewrite Hparse. reflexivity.
Qed.

(* ================================================================= *)
(** ** What the filter request body depends on *)

Lemma TypeVariant_filter_conclude_any_payload
    (p1 p2 : value) (r : fetch_response) (h : host) :
  TypeVariant.conclude (VStr "filter") p1 r h
  = TypeVariant.conclude (VStr "filter") p2 r h.
Proof.
  unfold TypeVariant.conclude.
  change (TypeVariant.type_is (VStr "filter") "filter") with true.
  change (TypeVariant.type_is (VStr "filter") "summarize") with false.
  change (TypeVariant.type_is (VStr "filter") "suggest") with false.
  reflexivity.
Qed.

(** C10. In part_000, the request body assembled for a filter request is a
    function of [payload.chatHistory] alone: two payloads with the same
    chat history give the same body, whatever else they hold (a
    [userMessage], say), and the handler does the same on the two
    requests. *)
Theorem filter_body_depends_on_chatHistory_only :
  forall (p1 p2 : value),
    Js.get p1 "chatHistory" = Js.get p2 "chatHistory" ->
    TypeVariant.filter_requestBody p1 = TypeVariant.filter_requestBody p2
    /\ forall (h : host) (req1 req2 : request),
         method req1 = method req2 ->
         Js.get (body req1) "type" = Ok (VStr "filter") ->
         Js.get (body req2) "type" = Ok (VStr "filter") ->
         Js.get (body req1) "payload" = Ok p1 ->
         Js.get (body req2) "payload" = Ok p2 ->
         run TypeVariant.handler h req1 = run TypeVariant.handler h req2.
Proof.
  intros p1 p2 Hhist.
  assert (Hbody : TypeVariant.filter_requestBody p1
                  = TypeVariant.filter_requestBody p2).
  { unfold TypeVariant.filter_requestBody. now rewrite Hhist. }
  split; [exact Hbody|].
  intros h req1 req2 Hm Hd1 Hd2 Hp1 Hp2.
  unfold run, TypeVariant.handler, TypeVariant.attempt,
    TypeVariant.requestBody_for.
  rewrite Hm, Hd1, Hd2, Hp1, Hp2. unfold_eff.
  change (TypeVariant.type_is (VStr "filter") "filter") with true.
  cbv iota. rewrite Hbody.
  destruct (JsString.eqb (method req2) "POST"); [|reflexivity].
  destruct (Js.falsy (env_GEMINI_API_KEY h)); [reflexivity|].
  destruct (TypeVariant.filter_requestBody p2) as [rb|e]; [|reflexivity].
  unfold_eff.
  destruct (network h _) as [r|m]; [|reflexivity].
  now rewrite (TypeVariant_filter_conclude_any_payload p1 p2 r h).
Qed.

(* ================================================================= *)
(** ** The properties on the scenarios *)

Import Scenario.

Ltac by_running := vm_compute; reflexivity.

Ltac conjuncts :=
  repeat match goal with
         | |- _ /\ _ => split
         end.

(** The call is the one the handler makes. *)
Ltac calling := vm_compute; left; reflexivity.

Lemma stub_answers (key : option jsstring) (text : jsstring)
    (rq : fetch_request) (data : value) :
  JSON.parse (quoted text) = Some data ->
  answers (stub key (FetchResolved (success_with text))) rq data.
Proof.
  intros Hparse. exists (success_with text), (quoted text).
  conjuncts; try reflexivity. exact Hparse.
Qed.

Lemma summarizing_answers (rq : fetch_request) :
  answers summarizing rq summary_data.
Proof. apply stub_answers. by_running. Qed.

Lemma filtering_answers (rq : fetch_request) :
  answers filtering rq filter_data.
Proof. apply stub_answers. by_running. Qed.

(** C7 on a GET request. *)
Lemma non_post_is_405_witness :
  method get_request <> "POST"%js
  /\ (statuses (run TypeVariant.handler summarizing get_request) = [405%N]
      /\ fetches (run TypeVariant.handler summarizing get_request) = [])
  /\ (statuses (run ActionVariant.handler summarizing get_request) = [405%N]
      /\ fetches (run ActionVariant.handler summarizing get_request) = []).
Proof.
  assert (H : method get_request <> "POST"%js) by discriminate.
  split; [exact H|]. exact (non_post_is_405 summarizing get_request H).
Defined.

(** C8 on a summarize request, no key in the environment. *)
Lemma missing_key_is_500_witness :
  (statuses (run TypeVariant.handler unconfigured summarize_request)
   = [500%N]
   /\ fetches (run TypeVariant.handler unconfigured summarize_request) = [])
  /\ (statuses (run ActionVariant.handler unconfigured summarize_request)
      = [500%N]
      /\ fetches (run ActionVariant.handler unconfigured summarize_request)
         = []).
Proof.
  apply (missing_key_is_500 unconfigured summarize_request); reflexivity.
Defined.

(** C9 as amended, on a request whose type and action are bogus, and on
    a POST request with no body. *)
Lemma unknown_action_is_400_witness :
  ((statuses (run TypeVariant.handler summarizing bogus_request) = [400%N]
    /\ fetches (run TypeVariant.handler summarizing bogus_request) = [])
   /\ (statuses (run ActionVariant.handler summarizing bogus_request)
       = [400%N]
       /\ fetches (run ActionVariant.handler summarizing bogus_request)
          = []))
  /\ ((statuses (run TypeVariant.handler summarizing post_without_body)
       = [500%N]
       /\ fetches (run TypeVariant.handler summarizing post_without_body)
          = [])
      /\ (statuses (run ActionVariant.handler summarizing post_without_body)
          = [500%N]
          /\ fetches (run ActionVariant.handler summarizing
                        post_without_body) = [])).
Proof.
  assert (Hk : Js.falsy (env_GEMINI_API_KEY summarizing) = false)
    by reflexivity.
  split.
  - assert (Hbody : nullish (body bogus_request) = false) by by_running.
    assert (Htype : Js.get (body bogus_request) "type" = Ok (VStr "bogus"))
      by by_running.
    assert (Haction : Js.get (body bogus_request) "action"
                      = Ok (VStr "bogus")) by by_running.
    assert (Hd : known_action (VStr "bogus") = false) by by_running.
    destruct (proj1 (unknown_action_is_400 summarizing bogus_request
                       eq_refl Hk) Hbody)
      as (type & action & Htype' & Haction' & H400 & H400').
    assert (Et : type = VStr "bogus") by congruence.
    assert (Ea : action = VStr "bogus") by congruence.
    subst type action.
    split; [exact (H400 Hd) | exact (H400' Hd)].
  - assert (Hbody : nullish (body post_without_body) = true)
      by reflexivity.
    exact (proj2 (unknown_action_is_400 summarizing post_without_body
                    eq_refl Hk) Hbody).
Defined.

(** C9 as worded fails: with no key in the environment, the request whose
    type is bogus is answered 500, not 400. *)
Lemma unknown_action_counterexample : ~ AsStated.unknown_action_claim.
Proof.
  intros claim.
  destruct (claim unconfigured bogus_request (VStr "bogus"))
    as [Htype _]; try by_running.
  destruct Htype as [Hstatus _]; [by_running|].
  vm_compute in Hstatus. discriminate.
Qed.

(** C1 as amended, on a summarize request. *)
Lemma one_call_when_assembled_witness :
  fetches (run TypeVariant.handler summarizing summarize_request)
  = [summarize_call]
  /\ fetches (run ActionVariant.handler summarizing summarize_request)
     = [summarize_call_by_action].
Proof.
  destruct (one_call_when_assembled summarizing summarize_request)
    as [[_ Htype] [_ Haction]].
  split.
  - apply (Htype (VStr "summarize") summarize_payload).
    unfold TypeVariant.reaches_call. conjuncts; by_running.
  - apply (Haction (VStr "summarize") summarize_payload).
    unfold ActionVariant.reaches_call. conjuncts; by_running.
Defined.

(** C1 as worded fails: a POST request of type filter with no payload
    passes the three checks, and no call is made. *)
Lemma one_call_counterexample : ~ AsStated.one_call_claim.
Proof.
  intros claim.
  destruct (claim summarizing filter_without_payload) as [[Hone _] _].
  specialize (Hone (VStr "filter")).
  assert (H : length (fetches (run TypeVariant.handler summarizing
                                 filter_without_payload)) = 1%nat)
    by (apply Hone; by_running).
  vm_compute in H. discriminate.
Qed.

(** C4 as amended, on the summarize request, by both handlers. *)
Lemma summarize_returns_the_text_witness :
  responses (run TypeVariant.handler summarizing summarize_request)
  = [(200%N, VObj [("summary"%js, VStr "A one-sentence summary.")])]
  /\ responses (run ActionVariant.handler summarizing summarize_request)
     = [(200%N, summary_data)].
Proof.
  split.
  - apply (proj1 (summarize_returns_the_text summarizing summarize_request
                    summarize_call summary_data (summarizing_answers _)));
      [reflexivity | calling | by_running].
  - apply (proj2 (summarize_returns_the_text summarizing summarize_request
                    summarize_call_by_action summary_data
                    (summarizing_answers _)));
      [reflexivity | calling].
Defined.

(** C4 as worded fails: api/gemini.js answers the summarize request with
    the provider's response, which has no [summary]. *)
Lemma summarize_counterexample : ~ AsStated.summarize_claim.
Proof.
  intros claim.
  assert (Hai : TypeVariant.aiText_of summary_data
                = Ok (VStr "A one-sentence summary.")) by by_running.
  destruct (claim summarizing summarize_request summarize_call_by_action
              summary_data _ (summarizing_answers _) Hai) as [_ Haction].
  assert (H : responses (run ActionVariant.handler summarizing
                           summarize_request)
              = [(200%N, VObj [("summary"%js,
                                 VStr "A one-sentence summary.")])])
    by (apply Haction; [reflexivity | calling]).
  vm_compute in H. discriminate.
Qed.

(** C3 as amended, on the filter request. *)
Lemma filter_returns_object_and_message_witness :
  (exists modelChatMessage,
     responses (run TypeVariant.handler filtering
                  (filter_request "any chairs?"))
     = [(200%N, VObj [("aiResponseObject"%js, filter_object);
                      ("modelChatMessage"%js, VStr modelChatMessage)])]
     /\ JsString.contains modelChatMessage "Research & Strategy"%js
     /\ forall k, In k ["ergonomics"%js; "budget"%js] ->
                  JsString.contains modelChatMessage k)
  /\ responses (run ActionVariant.handler filtering
                  (filter_request "any chairs?"))
     = [(200%N, filter_data)].
Proof.
  split.
  - apply (proj1 (filter_returns_object_and_message filtering
                    (filter_request "any chairs?")
                    (filter_call "any chairs?") filter_data
                    (filtering_answers _)))
      with (aiText := VStr classification);
      [reflexivity | calling | by_running ..].
  - apply (proj2 (filter_returns_object_and_message filtering
                    (filter_request "any chairs?")
                    (filter_call_by_action "any chairs?") filter_data
                    (filtering_answers _)));
      [reflexivity | calling].
Defined.

(** C3 as worded fails: api/gemini.js answers the filter request with the
    provider's response, which has no [aiResponseObject]. *)
Lemma filter_counterexample : ~ AsStated.filter_claim.
Proof.
  intros claim.
  destruct (claim filtering (filter_request "any chairs?")
              (filter_call_by_action "any chairs?") filter_data
              (VStr classification) filter_object
              "Research & Strategy"%js ["ergonomics"%js; "budget"%js]
              (filtering_answers _))
    as [_ Haction]; try by_running.
  destruct Haction as (msg & Hresp & _); [reflexivity | calling |].
  vm_compute in Hresp. discriminate.
Qed.

Lemma suggesting_answers (id : jsstring) (rq : fetch_request) (data : value) :
  JSON.parse (quoted (recommendation_text id)) = Some data ->
  answers (suggesting id) rq data.
Proof. apply stub_answers. Qed.

(** C2 on the suggest request: the provider recommends the id 3, which the
    second product has, and the answer is that product; then the id 7,
    which none has. *)
Lemma suggest_returns_the_product_with_the_id_witness :
  (responses (run TypeVariant.handler (suggesting "3") suggest_request)
   = [(200%N, VObj [("recommendedProduct"%js, sketchpad)])]
   /\ logged (run TypeVariant.handler (suggesting "3") suggest_request)
      = [])
  /\ (exists q id,
        In q suggest_products
        /\ Js.get q "id" = Ok id
        /\ Js.strict_eq id (VNum (Number.of_N 3)) = true
        /\ responses (run TypeVariant.handler (suggesting "3")
                        suggest_request)
           = [(200%N, VObj [("recommendedProduct"%js, q)])]
        /\ logged (run TypeVariant.handler (suggesting "3") suggest_request)
           = [])
  /\ (responses (run TypeVariant.handler (suggesting "7") suggest_request)
      = [(200%N, VObj [("recommendedProduct"%js, VUndefined)])]
      /\ wire (VObj [("recommendedProduct"%js, VUndefined)]) = Some "{}"%js
      /\ logged (run TypeVariant.handler (suggesting "7") suggest_request)
         = []).
Proof.
  assert (Hd : Js.get (body suggest_request) "type" = Ok (VStr "suggest"))
    by reflexivity.
  assert (Hp : Js.get (body suggest_request) "payload" = Ok suggest_payload)
    by reflexivity.
  assert (Hps : Js.get suggest_payload "products" = Ok (VArr suggest_products))
    by by_running.
  assert (Hin3 : In suggest_call
                   (fetches (run TypeVariant.handler (suggesting "3")
                               suggest_request))) by calling.
  assert (Hans3 : answers (suggesting "3") suggest_call
                    (json (recommendation_text "3")))
    by (apply suggesting_answers; by_running).
  assert (Hai3 : TypeVariant.aiText_of (json (recommendation_text "3"))
                 = Ok (VStr (recommendation "3"))) by by_running.
  assert (Hparse3 : Js.JSON_parse (VStr (recommendation "3"))
                    = Ok (json "{'recommendedId':3}")) by by_running.
  assert (Hid3 : Js.get (json "{'recommendedId':3}") "recommendedId"
                 = Ok (VNum (Number.of_N 3))) by by_running.
  assert (Hget : Js.get sketchpad "id" = Ok (VNum (Number.of_N 3)))
    by by_running.
  assert (Hsame : Js.strict_eq (VNum (Number.of_N 3)) (VNum (Number.of_N 3))
                  = true) by by_running.
  destruct (suggest_returns_the_product_with_the_id
              (suggesting "3") suggest_request suggest_call
              suggest_payload _ _ _ _ suggest_products
              Hd Hp Hps Hin3 Hans3 Hai3 Hparse3 Hid3)
    as (Hfirst & Hsome & _).
  split; [|split].
  - apply (Hfirst [json "{'id':1,'name':'Vizcom','description':'rendering'}"]
             sketchpad [] (VNum (Number.of_N 3)));
      [reflexivity | | exact Hget | exact Hsame].
    intros x i [<-|[]] Hi. vm_compute in Hi.
    injection Hi as <-. by_running.
  - apply Hsome. exists sketchpad, (VNum (Number.of_N 3)).
    split; [right; left; reflexivity|]. split; [exact Hget | exact Hsame].
  - assert (Hin : In suggest_call
                    (fetches (run TypeVariant.handler (suggesting "7")
                                suggest_request))) by calling.
    assert (Hans : answers (suggesting "7") suggest_call
                     (json (recommendation_text "7")))
      by (apply suggesting_answers; by_running).
    assert (Hai : TypeVariant.aiText_of (json (recommendation_text "7"))
                  = Ok (VStr (recommendation "7"))) by by_running.
    assert (Hparse : Js.JSON_parse (VStr (recommendation "7"))
                     = Ok (json "{'recommendedId':7}")) by by_running.
    assert (Hid : Js.get (json "{'recommendedId':7}") "recommendedId"
                  = Ok (VNum (Number.of_N 7))) by by_running.
    apply (proj2 (proj2 (suggest_returns_the_product_with_the_id
                           (suggesting "7") suggest_request suggest_call
                           suggest_payload _ _ _ _ suggest_products
                           Hd Hp Hps Hin Hans Hai Hparse Hid))).
    intros q id [<-|[<-|[]]] Hi; vm_compute in Hi; injection Hi as <-;
      by_running.
Defined.

(** C5 on a provider that answers 429. *)
Lemma upstream_refusal_is_generic_500_witness :
  (responses (run TypeVariant.handler refusing summarize_request)
   = [TypeVariant.internal_error]
   /\ logged (run TypeVariant.handler refusing summarize_request)
      = [[LogString "Gemini API Error:";
          LogString "quota exceeded for project 1234"];
         [LogString "Function execution error:";
          LogError (Error "Gemini API Error: Too Many Requests")]]
   /\ responses (run TypeVariant.handler
                   (with_body_text "another text" refusing)
                   summarize_request)
      = responses (run TypeVariant.handler refusing summarize_request))
  /\ (statuses (run ActionVariant.handler refusing summarize_request)
      = [500%N]
      /\ responses (run ActionVariant.handler refusing summarize_request)
         = [(500%N,
             VObj [("error"%js, VStr "An internal server error occurred.");
                   ("details"%js,
                     VStr "Gemini API request failed with status 429")])]
      /\ responses (run ActionVariant.handler
                      (with_body_text "another text" refusing)
                      summarize_request)
         = responses (run ActionVariant.handler refusing summarize_request)).
Proof.
  assert (Href : forall rq, refuses refusing rq quota_exceeded)
    by (intros rq; split; reflexivity).
  split.
  - destruct (proj1 (upstream_refusal_is_generic_500 refusing
                       summarize_request summarize_call quota_exceeded
                       (Href _)))
      as [Hresp Htext]; [calling|].
    destruct (Htext "quota exceeded for project 1234"%js eq_refl)
      as [Hlog Hsame].
    split; [exact Hresp|]. split; [exact Hlog|]. apply Hsame.
  - destruct (proj2 (upstream_refusal_is_generic_500 refusing
                       summarize_request summarize_call_by_action
                       quota_exceeded (Href _)))
      as [Hstatus Htext]; [calling|].
    destruct (Htext "quota exceeded for project 1234"%js eq_refl)
      as (Hresp & _ & Hsame).
    split; [exact Hstatus|]. split; [|apply Hsame].
    rewrite Hresp. by_running.
Defined.

(** C6 on a missing payload, a network failure and a text that is no
    JSON. *)
Lemma failures_become_500_witness :
  (* a payload that cannot be read *)
  (responses (run TypeVariant.handler summarizing filter_without_payload)
   = [TypeVariant.internal_error]
   /\ fetches (run TypeVariant.handler summarizing filter_without_payload)
      = [])
  (* a network failure *)
  /\ responses (run TypeVariant.handler offline summarize_request)
     = [TypeVariant.internal_error]
  (* a text that is no JSON, for a filter request *)
  /\ responses (run TypeVariant.handler summarizing
                  (filter_request "any chairs?"))
     = [TypeVariant.internal_error]
  (* the other handler, on the payload that cannot be read *)
  /\ responses (run ActionVariant.handler summarizing filter_without_payload)
     = [ActionVariant.internal_error summarizing
          (TypeError (ReadOfNullish VUndefined "systemInstruction"))].
Proof.
  assert (Hpost : method filter_without_payload = "POST"%js) by reflexivity.
  assert (Hkey : Js.falsy (env_GEMINI_API_KEY summarizing) = false)
    by reflexivity.
  split; [|split; [|split]].
  - apply (proj1 (proj2 (proj1 (failures_become_500 summarizing
                                  filter_without_payload Hpost Hkey)))
             (VStr "filter") VUndefined
             (TypeError (ReadOfNullish VUndefined "chatHistory")));
      by_running.
  - apply (proj1 (proj2 (proj2 (proj1 (failures_become_500 offline
                                         summarize_request
                                         eq_refl eq_refl))))
             summarize_call "fetch failed"%js); [calling | reflexivity].
  - apply (proj2 (proj2 (proj2 (proj1 (failures_become_500 summarizing
                                         (filter_request "any chairs?")
                                         eq_refl eq_refl))))
             (filter_call "any chairs?") (VStr "filter") summary_data
             (VStr "A one-sentence summary.")
             (SyntaxError "A one-sentence summary."));
      [reflexivity | now left | calling | apply summarizing_answers
      | by_running | by_running].
  - apply (proj1 (proj2 (failures_become_500 summarizing
                           filter_without_payload Hpost Hkey))
             (TypeError (ReadOfNullish VUndefined "systemInstruction"))).
    by_running.
Defined.

(** C10 on two filter payloads that differ in [userMessage]. *)
Lemma filter_body_depends_on_chatHistory_only_witness :
  TypeVariant.filter_requestBody (filter_payload "any chairs?")
  = TypeVariant.filter_requestBody (filter_payload "any desks?")
  /\ run TypeVariant.handler filtering (filter_request "any chairs?")
     = run TypeVariant.handler filtering (filter_request "any desks?").
Proof.
  destruct (filter_body_depends_on_chatHistory_only
              (filter_payload "any chairs?") (filter_payload "any desks?")
              eq_refl) as [Hbody Hrun].
  split; [exact Hbody|].
  apply Hrun; reflexivity.
Defined.

(* ================================================================= *)
(** ** Further properties: what every run looks like *)

Ltac unfold_handlers :=
  unfold run, TypeVariant.handler, TypeVariant.attempt,
    TypeVariant.requestBody_for, TypeVariant.conclude, TypeVariant.recover,
    ActionVariant.handler, ActionVariant.attempt,
    ActionVariant.requestBody_for, ActionVariant.conclude,
    ActionVariant.recover.

(** A trace of at most four events that ends with the response. *)
Ltac response_after prefix :=
  exists prefix; eexists; eexists;
  split; [reflexivity|]; split; [reflexivity|]; simpl; tauto.

Ltac ends_with_response :=
  match goal with
  | |- exists t c j, [_] = _ /\ _ => response_after (@nil event)
  | |- exists t c j, [?a; _] = _ /\ _ => response_after [a]
  | |- exists t c j, [?a; ?b; _] = _ /\ _ => response_after [a; b]
  | |- exists t c j, [?a; ?b; ?c'; _] = _ /\ _ => response_after [a; b; c']
  end.

(** X1. Whatever the request and the host, each handler sends exactly one
    response, its status is 200, 400, 405 or 500, and sending it is the
    last thing the handler does. *)
Theorem one_response_sent_last :
  forall (h : host) (req : request),
    (exists t code json,
       run TypeVariant.handler h req = t ++ [Respond code json]
       /\ responses t = []
       /\ In code [200; 400; 405; 500]%N)
    /\ (exists t code json,
          run ActionVariant.handler h req = t ++ [Respond code json]
          /\ responses t = []
          /\ In code [200; 400; 405; 500]%N).
Proof.
  intros h req. split; unfold_handlers; run_eff; ends_with_response.
Qed.

(** X2. A handler answers 200 only after one call that the provider
    answered with a success status, and it has logged nothing then. *)
Theorem success_needs_an_answered_call :
  forall (h : host) (req : request),
    (In 200%N (statuses (run TypeVariant.handler h req)) ->
     exists rq r,
       fetches (run TypeVariant.handler h req) = [rq]
       /\ network h rq = FetchResolved r /\ ok r = true
       /\ logged (run TypeVariant.handler h req) = [])
    /\ (In 200%N (statuses (run ActionVariant.handler h req)) ->
        exists rq r,
          fetches (run ActionVariant.handler h req) = [rq]
          /\ network h rq = FetchResolved r /\ ok r = true
          /\ logged (run ActionVariant.handler h req) = []).
Proof.
  intros h req. split; unfold_handlers; run_eff; simpl;
    intros [Hin|[]]; try discriminate Hin;
    (eexists; eexists; split; [reflexivity|];
     split; [eassumption|]; split; [assumption | reflexivity]).
Qed.

Ltac in_list := repeat first [left; reflexivity | right].

(** X3. Every failure answered by the catch block is logged first: the
    500 of a request that passed the method and credential checks comes
    with a [console.error] of the error caught, and in api/gemini.js the
    [details] of the response are the message of that very error. *)
Theorem internal_errors_are_logged :
  forall (h : host) (req : request),
    method req = "POST"%js ->
    Js.falsy (env_GEMINI_API_KEY h) = false ->
    (In 500%N (statuses (run TypeVariant.handler h req)) ->
     exists e,
       In [LogString "Function execution error:"; LogError e]
          (logged (run TypeVariant.handler h req)))
    /\ (In 500%N (statuses (run ActionVariant.handler h req)) ->
        exists e,
          In [LogString "Error in Vercel function:"; LogError e]
             (logged (run ActionVariant.handler h req))
          /\ responses (run ActionVariant.handler h req)
             = [ActionVariant.internal_error h e]).
Proof.
  intros h req Hm Hk. apply jsstring_eqb_eq in Hm.
  split; unfold_handlers; rewrite Hm; unfold_eff; rewrite Hk;
    run_eff; simpl; intros [Hin|[]]; try discriminate Hin;
    eexists; try split; try (simpl; in_list); reflexivity.
Qed.

(* ================================================================= *)
(** ** Further properties: the outbound call *)

Lemma TypeVariant_body_is_object (h : host) (d p rb : value) :
  snd (TypeVariant.requestBody_for d p h) = Normal rb ->
  exists o, rb = VObj o.
Proof.
  unfold TypeVariant.requestBody_for, TypeVariant.filter_requestBody,
    TypeVariant.summarize_requestBody, TypeVariant.suggest_requestBody,
    TypeVariant.single_prompt, rbind.
  run_eff; intros [= <-]; eexists; reflexivity.
Qed.

Lemma ActionVariant_body_is_object (h : host) (d p rb : value) :
  snd (ActionVariant.requestBody_for d p h) = Normal rb ->
  exists o, rb = VObj o.
Proof.
  unfold ActionVariant.requestBody_for, ActionVariant.filter_requestBody,
    ActionVariant.prompt_requestBody, rbind.
  run_eff; intros [= <-]; eexists; reflexivity.
Qed.

Lemma truthy_key (k : option jsstring) :
  Js.falsy k = false ->
  exists key, k = Some key /\ key <> JsString.empty.
Proof.
  destruct k as [[us]|]; [|discriminate]. destruct us; [discriminate|].
  intros _. eexists. split; [reflexivity|discriminate].
Qed.

(** X4. Every call a handler makes is a POST to the one endpoint, with the
    configured key, which is not empty, as the query parameter, with a
    JSON content type and with a body; and only POST requests lead to
    one. *)
Theorem calls_go_to_the_endpoint_with_the_key :
  forall (h : host) (req : request) (rq : fetch_request),
    In rq (fetches (run TypeVariant.handler h req))
    \/ In rq (fetches (run ActionVariant.handler h req)) ->
    exists key text,
      env_GEMINI_API_KEY h = Some key
      /\ key <> JsString.empty
      /\ method req = "POST"%js
      /\ fetch_url rq = (endpoint ++ key)%js
      /\ fetch_method rq = "POST"%js
      /\ fetch_headers rq = [("Content-Type"%js, "application/json"%js)]
      /\ fetch_body rq = Some text.
Proof.
  intros h req rq [Hin|Hin].
  - destruct (TypeVariant_call_made h req rq Hin)
      as (d & p & rb & (Hm & Hk & _ & _ & Hrb) & ->).
    destruct (truthy_key _ Hk) as (key & Hkey & Hne).
    destruct (TypeVariant_body_is_object h d p rb Hrb) as [o ->].
    exists key. eexists. rewrite Hkey.
    repeat split; try assumption; reflexivity.
  - destruct (ActionVariant_call_made h req rq Hin)
      as (d & p & rb & (Hm & Hk & _ & _ & Hrb) & ->).
    destruct (truthy_key _ Hk) as (key & Hkey & Hne).
    destruct (ActionVariant_body_is_object h d p rb Hrb) as [o ->].
    exists key. eexists. rewrite Hkey.
    repeat split; try assumption; reflexivity.
Qed.

Lemma TypeVariant_conclude_any_host
    (d p : value) (r : fetch_response) (h h' : host) :
  TypeVariant.conclude d p r h = TypeVariant.conclude d p r h'.
Proof. unfold TypeVariant.conclude. run_eff; reflexivity. Qed.

Lemma ActionVariant_conclude_any_host (r : fetch_response) (h h' : host) :
  ActionVariant.conclude r h = ActionVariant.conclude r h'.
Proof. unfold ActionVariant.conclude. run_eff; reflexivity. Qed.

Lemma ActionVariant_recover_same_engine (e : exn) (h h' : host) :
  same_engine h h' ->
  ActionVariant.recover e h = ActionVariant.recover e h'.
Proof.
  intros [Htype Hsyntax]. unfold ActionVariant.recover. unfold_eff.
  destruct e; simpl; rewrite ?Htype, ?Hsyntax; reflexivity.
Qed.

(** As [unfold_eff], the concatenation of traces kept folded. *)
Ltac unfold_bind :=
  cbv beta iota zeta delta
    [Eff.bind Eff.ret Eff.throw Eff.return_ Eff.lift Eff.emit Eff.try_catch
     Eff.console_error Eff.res_json Eff.getenv_GEMINI_API_KEY Eff.fetch
     fst snd negb].

Ltac same_but_url :=
  repeat match goal with
         | |- context [let '(_, _) := ?x in _] =>
             lazymatch x with
             | context [let '(_, _) := _ in _] => fail
             | _ => destruct x
             end
         end;
  rewrite ?map_app; reflexivity.

(** X5. The key reaches nothing but the URL of the call. Two hosts with a
    key each, whose providers answer the calls alike, leave the same trace,
    the URL of the call apart: the same log, the same body sent to the
    provider, the same response. (api/gemini.js puts [error.message] in its
    response, so there the engines must also word their errors alike.) *)
Theorem key_reaches_only_the_url :
  forall (h1 h2 : host) (req : request),
    Js.falsy (env_GEMINI_API_KEY h1) = false ->
    Js.falsy (env_GEMINI_API_KEY h2) = false ->
    ((forall requestBody,
        network h1 (TypeVariant.outbound (env_GEMINI_API_KEY h1) requestBody)
        = network h2
            (TypeVariant.outbound (env_GEMINI_API_KEY h2) requestBody)) ->
     map without_url (run TypeVariant.handler h1 req)
     = map without_url (run TypeVariant.handler h2 req))
    /\ (same_engine h1 h2 ->
        (forall requestBody,
           network h1
             (ActionVariant.outbound (env_GEMINI_API_KEY h1) requestBody)
           = network h2
               (ActionVariant.outbound (env_GEMINI_API_KEY h2) requestBody)) ->
        map without_url (run ActionVariant.handler h1 req)
        = map without_url (run ActionVariant.handler h2 req)).
Proof.
  intros h1 h2 req Hk1 Hk2. split; [intros Hnet | intros Heng Hnet].
  - unfold run, TypeVariant.handler, TypeVariant.attempt.
    destruct (JsString.eqb (method req) "POST"); [|reflexivity].
    unfold_bind. rewrite Hk1, Hk2.
    destruct (Js.get (body req) "type") as [d|e]; [|reflexivity].
    destruct (Js.get (body req) "payload") as [p|e]; [|reflexivity].
    unfold_bind. rewrite (TypeVariant_switch_any_host h1 d p h2).
    destruct (TypeVariant.requestBody_for d p h2) as [t [rb|e|]];
      [|reflexivity|reflexivity].
    unfold_bind. rewrite Hnet.
    destruct (network h2 _) as [r|m];
      [|unfold TypeVariant.recover; unfold_bind; same_but_url].
    rewrite (TypeVariant_conclude_any_host d p r h1 h2).
    destruct (TypeVariant.conclude d p r h2) as [t' [a|e|]];
      unfold TypeVariant.recover; unfold_bind; same_but_url.
  - unfold run, ActionVariant.handler, ActionVariant.attempt.
    destruct (JsString.eqb (method req) "POST"); [|reflexivity].
    unfold_bind. rewrite Hk1, Hk2.
    destruct (Js.get (body req) "action") as [d|e];
      [|now rewrite (ActionVariant_recover_same_engine e h1 h2 Heng)].
    destruct (Js.get (body req) "payload") as [p|e];
      [|now rewrite (ActionVariant_recover_same_engine e h1 h2 Heng)].
    unfold_bind. rewrite (ActionVariant_switch_any_host h1 d p h2).
    destruct (ActionVariant.requestBody_for d p h2) as [t [rb|e|]];
      [|now rewrite (ActionVariant_recover_same_engine e h1 h2 Heng)
       |reflexivity].
    unfold_bind. rewrite Hnet.
    destruct (network h2 _) as [r|m];
      [|rewrite (ActionVariant_recover_same_engine _ h1 h2 Heng);
        same_but_url].
    rewrite (ActionVariant_conclude_any_host r h1 h2).
    destruct (ActionVariant.conclude r h2) as [t' [a|e|]];
      rewrite ?(ActionVariant_recover_same_engine e h1 h2 Heng);
      same_but_url.
Qed.

(* ================================================================= *)
(** ** Further properties: which status, and when *)

Lemma known_action_cases (d : value) :
  known_action d = false <->
  Js.strict_eq d (VStr "filter") = false
  /\ Js.strict_eq d (VStr "summarize") = false
  /\ Js.strict_eq d (VStr "suggest") = false.
Proof.
  unfold known_action. rewrite !orb_false_iff. tauto.
Qed.

Ltac unfold_switch :=
  unfold TypeVariant.type_is, ActionVariant.action_is in *.

(** Closes a case of a handler's run in which the facts at hand contradict
    each other, or give the goal. *)
Ltac settle :=
  simpl in *;
  repeat match goal with
         | H : _ /\ _ |- _ => destruct H
         | H : exists _, _ |- _ => destruct H
         | H : _ \/ _ |- _ => destruct H
         | H : JsString.eqb _ _ = true |- _ => apply jsstring_eqb_eq in H
         | H : JsString.eqb _ _ = false |- _ => apply jsstring_eqb_neq in H
         | H : known_action _ = false |- _ =>
             apply known_action_cases in H
         | H : Js.get ?b ?n = Ok _, H' : Js.get ?b ?n = _ |- _ =>
             rewrite H in H'
         | H : Ok _ = Ok _ |- _ => injection H as H; subst
         | H : _ || _ = false |- _ => apply orb_false_iff in H
         end;
  try congruence; try contradiction; try discriminate;
  try match goal with
      | H : Js.get ?b _ = Ok _, H' : Js.get ?b ?n = Raised _ |- _ =>
          destruct (get_readable _ _ n _ H); congruence
      | H : ?a || ?b = true, Ha : ?a = false, Hb : ?b = false |- _ =>
          rewrite Ha, Hb in H; discriminate H
      | |- ?x = ?x \/ _ => left; reflexivity
      | |- _ /\ _ =>
          split; [assumption|]; split; [reflexivity|];
          eexists; split; [reflexivity|];
          apply known_action_cases; auto
      end.

(** X6. Which requests are answered 405 and which 400. A handler answers
    405 exactly when the method is not POST, and 400 exactly when the
    method is POST, the key is set, the body can be read and its type
    (part_000) or action (api/gemini.js) is none of filter, summarize and
    suggest. *)
Theorem which_requests_are_refused :
  forall (h : host) (req : request),
    ((In 405%N (statuses (run TypeVariant.handler h req))
      <-> method req <> "POST"%js)
     /\ (In 400%N (statuses (run TypeVariant.handler h req))
         <-> method req = "POST"%js
             /\ Js.falsy (env_GEMINI_API_KEY h) = false
             /\ exists d, Js.get (body req) "type" = Ok d
                          /\ known_action d = false))
    /\ ((In 405%N (statuses (run ActionVariant.handler h req))
         <-> method req <> "POST"%js)
        /\ (In 400%N (statuses (run ActionVariant.handler h req))
            <-> method req = "POST"%js
                /\ Js.falsy (env_GEMINI_API_KEY h) = false
                /\ exists d, Js.get (body req) "action" = Ok d
                             /\ known_action d = false)).
Proof.
  intros h req.
  split; split; unfold_handlers; unfold_switch; run_eff;
    (split; intro; settle).
Qed.

(* ================================================================= *)
(** ** Further properties: what the responses carry *)

(** X7. What a response other than a success carries. In part_000 it is
    one of four fixed bodies: nothing of the request, of the provider's
    answer or of the error reaches the client. In api/gemini.js it is one
    of three fixed bodies, or the fixed message of the catch block with the
    message of the error caught. *)
Theorem refusals_carry_fixed_bodies :
  forall (h : host) (req : request) (code : N) (json : value),
    code <> 200%N ->
    (In (code, json) (responses (run TypeVariant.handler h req)) ->
     In (code, json)
        [(405%N, VObj [("error"%js, VStr "Method Not Allowed")]);
         (500%N, VObj [("error"%js, VStr "API key is not configured.")]);
         (400%N, VObj [("error"%js, VStr "Invalid request type")]);
         TypeVariant.internal_error])
    /\ (In (code, json) (responses (run ActionVariant.handler h req)) ->
        In (code, json)
           [(405%N, VObj [("message"%js, VStr "Method Not Allowed")]);
            (500%N,
             VObj [("error"%js,
                     VStr "GEMINI_API_KEY is not configured on the server.")]);
            (400%N, VObj [("error"%js, VStr "Invalid action specified.")])]
        \/ exists e,
             (code, json) = ActionVariant.internal_error h e
             /\ In [LogString "Error in Vercel function:"; LogError e]
                   (logged (run ActionVariant.handler h req))).
Proof.
  intros h req code json Hcode.
  split; unfold_handlers; run_eff; simpl; intros [Heq|[]];
    injection Heq as <- <-; try congruence;
    first [ solve [in_list]
          | solve [left; in_list]
          | right; eexists; split; cycle 1; [in_list | reflexivity] ].
Qed.

Lemma strict_eq_string (d : value) (s : jsstring) :
  Js.strict_eq d (VStr s) = true <-> d = VStr s.
Proof.
  destruct d; simpl; try (split; intros; discriminate).
  rewrite jsstring_eqb_eq. split; [now intros ->|congruence].
Qed.

Lemma filter_reply_shape (aiText reply : value) :
  TypeVariant.filter_reply aiText = Ok reply ->
  exists parsed message,
    Js.JSON_parse aiText = Ok parsed
    /\ reply = VObj [("aiResponseObject"%js, parsed);
                     ("modelChatMessage"%js, VStr message)].
Proof.
  unfold TypeVariant.filter_reply.
  destruct (Js.JSON_parse aiText) as [parsed|]; [|discriminate]. cbn [rbind].
  destruct (Js.get parsed "category") as [c|]; [|discriminate]. cbn [rbind].
  destruct (Js.to_string c) as [c'|]; [|discriminate]. cbn [rbind].
  destruct (Js.get parsed "keywords") as [k|]; [|discriminate]. cbn [rbind].
  destruct (Js.array_join k ", ") as [k'|]; [|discriminate]. cbn [rbind].
  intros [= <-]. eexists; eexists; split; reflexivity.
Qed.

Lemma find_elem_found (pred : value -> result bool) (es : list value)
    (v : value) :
  Js.find_elem pred es = Ok v -> v = VUndefined \/ In v es.
Proof.
  induction es as [|e es IH]; simpl.
  - intros [= <-]. now left.
  - destruct (pred e) as [[|]|]; [| |discriminate].
    + intros [= <-]. right. now left.
    + intros Hfind. destruct (IH Hfind); [now left | right; now right].
Qed.

Lemma suggest_reply_shape (payload aiText reply : value) :
  TypeVariant.suggest_reply payload aiText = Ok reply ->
  exists product,
    reply = VObj [("recommendedProduct"%js, product)]
    /\ (product = VUndefined
        \/ exists products,
             Js.get payload "products" = Ok (VArr products)
             /\ In product products).
Proof.
  unfold TypeVariant.suggest_reply.
  destruct (Js.JSON_parse aiText) as [parsed|]; [|discriminate]. cbn [rbind].
  destruct (Js.get parsed "recommendedId") as [n|]; [|discriminate].
  cbn [rbind].
  destruct (Js.get payload "products") as [ps|]; [|discriminate].
  cbn [rbind].
  destruct ps; try discriminate. cbn [Js.array_find].
  destruct (Js.find_elem _ _) as [q|] eqn:Hfind; [|discriminate].
  cbn [rbind]. intros [= <-]. exists q. split; [reflexivity|].
  destruct (find_elem_found _ _ _ Hfind); [now left|].
  right. eexists; split; [reflexivity | assumption].
Qed.

(** X8. What a success of part_000 carries. A 200 is sent only to a
    request of a known type, and its body has the shape of that type:
    [aiResponseObject] and a string [modelChatMessage] for filter,
    [summary] for summarize, [recommendedProduct] for suggest. The
    recommended product is [undefined] or one of the products the caller
    sent: the provider cannot make the handler return anything else. *)
Theorem success_has_the_shape_of_its_type :
  forall (h : host) (req : request) (json : value),
    In (200%N, json) (responses (run TypeVariant.handler h req)) ->
    exists type payload,
      Js.get (body req) "type" = Ok type
      /\ Js.get (body req) "payload" = Ok payload
      /\ ((type = VStr "filter"
           /\ exists parsed message,
                json = VObj [("aiResponseObject"%js, parsed);
                             ("modelChatMessage"%js, VStr message)])
          \/ (type = VStr "summarize"
              /\ exists aiText, json = VObj [("summary"%js, aiText)])
          \/ (type = VStr "suggest"
              /\ exists product,
                   json = VObj [("recommendedProduct"%js, product)]
                   /\ (product = VUndefined
                       \/ exists products,
                            Js.get payload "products" = Ok (VArr products)
                            /\ In product products))).
Proof.
  intros h req json.
  unfold_handlers; unfold_switch; run_eff; simpl; intros [Heq|[]];
    try discriminate Heq; injection Heq as <-;
    eexists; eexists; (split; [reflexivity|]); (split; [reflexivity|]);
    repeat match goal with
           | H : Js.strict_eq _ (VStr _) = true |- _ =>
               apply strict_eq_string in H
           end; subst.
  all: try discriminate.
  - left. split; [reflexivity|].
    match goal with
    | H : TypeVariant.filter_reply _ = Ok _ |- _ =>
        destruct (filter_reply_shape _ _ H) as (o & m & _ & ->)
    end.
    eexists; eexists; reflexivity.
  - right; left. split; [reflexivity|]. eexists; reflexivity.
  - right; right. split; [reflexivity|].
    match goal with
    | H : TypeVariant.suggest_reply _ _ = Ok _ |- _ =>
        destruct (suggest_reply_shape _ _ _ H) as (q & -> & Hq)
    end.
    exists q. split; [reflexivity | exact Hq].
Qed.

(* ================================================================= *)
(** ** Further properties: what is read of the provider's answer *)

Lemma TypeVariant_conclude_answered
    (h : host) (d p : value) (r : fetch_response) (t : jsstring)
    (data : value) :
  ok r = true -> received r = BodyText t -> JSON.parse t = Some data ->
  TypeVariant.conclude d p r h
  = match TypeVariant.aiText_of data with
    | Ok aiText =>
        if TypeVariant.type_is d "filter" then
          match TypeVariant.filter_reply aiText with
          | Ok reply => ([Respond 200 reply], Return)
          | Raised e => ([], Throw e)
          end
        else if TypeVariant.type_is d "summarize" then
          ([Respond 200 (VObj [("summary"%js, aiText)])], Return)
        else if TypeVariant.type_is d "suggest" then
          match TypeVariant.suggest_reply p aiText with
          | Ok reply => ([Respond 200 reply], Return)
          | Raised e => ([], Throw e)
          end
        else ([], Normal tt)
    | Raised e => ([], Throw e)
    end.
Proof.
  intros Hok Hrecv Hparse. unfold TypeVariant.conclude. unfold_eff.
  rewrite Hok, Hrecv. unfold_eff. rewrite Hparse.
  run_eff; reflexivity.
Qed.

(** X9. part_000 reads one thing of the provider's answer: the text of the
    first part of the first candidate. Two answers to the same call that
    agree on it, or that fail alike to have it, lead to the same log and
    the same response, whatever else they hold. *)
Theorem only_the_first_text_part_is_read :
  forall (h1 h2 : host) (req : request) (rq : fetch_request)
         (data1 data2 : value),
    In rq (fetches (run TypeVariant.handler h1 req)) ->
    In rq (fetches (run TypeVariant.handler h2 req)) ->
    answers h1 rq data1 ->
    answers h2 rq data2 ->
    TypeVariant.aiText_of data1 = TypeVariant.aiText_of data2 ->
    run TypeVariant.handler h1 req = run TypeVariant.handler h2 req.
Proof.
  intros h1 h2 req rq data1 data2 Hin1 Hin2
    (r1 & t1 & Hnet1 & Hok1 & Hrecv1 & Hparse1)
    (r2 & t2 & Hnet2 & Hok2 & Hrecv2 & Hparse2) Hai.
  destruct (TypeVariant_call_made h1 req rq Hin1)
    as (d & p & rb1 & Hcall1 & Hrq1).
  destruct (TypeVariant_call_made h2 req rq Hin2)
    as (d' & p' & rb2 & Hcall2 & Hrq2).
  assert (d' = d)
    by (destruct Hcall1 as (_ & _ & Hd & _), Hcall2 as (_ & _ & Hd' & _);
        congruence).
  assert (p' = p)
    by (destruct Hcall1 as (_ & _ & _ & Hp & _),
                 Hcall2 as (_ & _ & _ & Hp' & _);
        congruence).
  subst d' p'.
  rewrite (TypeVariant_run_call h1 req _ _ _ Hcall1), <- Hrq1, Hnet1.
  rewrite (TypeVariant_run_call h2 req _ _ _ Hcall2), <- Hrq2, Hnet2.
  rewrite (TypeVariant_conclude_answered h1 d p r1 t1 data1 Hok1 Hrecv1
             Hparse1).
  rewrite (TypeVariant_conclude_answered h2 d p r2 t2 data2 Hok2 Hrecv2
             Hparse2).
  rewrite Hai. reflexivity.
Qed.

(** X10. An answer without that text. When the provider answers with a
    success status and a body in which the text of the first part of the
    first candidate cannot be reached (no candidates, say), part_000
    answers 500, whatever the type of the request, and logs the error;
    api/gemini.js answers 200 and relays the body. *)
Theorem answer_without_text_is_500_or_relayed :
  forall (h : host) (req : request) (rq : fetch_request) (data : value)
         (e : exn),
    answers h rq data ->
    TypeVariant.aiText_of data = Raised e ->
    (In rq (fetches (run TypeVariant.handler h req)) ->
     responses (run TypeVariant.handler h req) = [TypeVariant.internal_error]
     /\ logged (run TypeVariant.handler h req)
        = [[LogString "Function execution error:"; LogError e]])
    /\ (In rq (fetches (run ActionVariant.handler h req)) ->
        responses (run ActionVariant.handler h req) = [(200%N, data)]
        /\ logged (run ActionVariant.handler h req) = []).
Proof.
  intros h req rq data e Hans Hai. split; intros Hin.
  - destruct Hans as (r & t & Hnet & Hok & Hrecv & Hparse).
    destruct (TypeVariant_call_made h req rq Hin)
      as (d & p & rb & Hcall & Hrq).
    rewrite (TypeVariant_run_call h req _ _ _ Hcall), <- Hrq, Hnet.
    rewrite (TypeVariant_conclude_answered h d p r t data Hok Hrecv Hparse).
    rewrite Hai. split; reflexivity.
  - rewrite (ActionVariant_run_answered h req rq data Hin Hans).
    split; reflexivity.
Qed.

(* ================================================================= *)
(** ** Further properties: what is read of the request *)

(** The handler of part_000 does the same on two requests of one method
    and one type from whose payloads the switch assembles the same body,
    when what follows the call is the same for the two payloads. *)
Lemma TypeVariant_run_same_switch
    (h : host) (req1 req2 : request) (d p1 p2 : value) :
  method req1 = method req2 ->
  Js.get (body req1) "type" = Ok d ->
  Js.get (body req2) "type" = Ok d ->
  Js.get (body req1) "payload" = Ok p1 ->
  Js.get (body req2) "payload" = Ok p2 ->
  TypeVariant.requestBody_for d p1 h = TypeVariant.requestBody_for d p2 h ->
  (forall r, TypeVariant.conclude d p1 r h = TypeVariant.conclude d p2 r h) ->
  run TypeVariant.handler h req1 = run TypeVariant.handler h req2.
Proof.
  intros Hm Hd1 Hd2 Hp1 Hp2 Hbody Hconclude.
  unfold run, TypeVariant.handler, TypeVariant.attempt.
  rewrite Hm, Hd1, Hd2, Hp1, Hp2.
  destruct (JsString.eqb (method req2) "POST"); [|reflexivity].
  unfold_eff.
  destruct (Js.falsy (env_GEMINI_API_KEY h)); [reflexivity|].
  rewrite Hbody.
  destruct (TypeVariant.requestBody_for d p2 h) as [t [rb|e|]];
    [|reflexivity|reflexivity].
  destruct (network h _) as [r|m]; [|reflexivity].
  now rewrite (Hconclude r).
Qed.

(** The handler of api/gemini.js does the same on two requests of one
    method from which the switch assembles the same body. *)
Lemma ActionVariant_run_same_switch
    (h : host) (req1 req2 : request) (d1 d2 p1 p2 : value) :
  method req1 = method req2 ->
  Js.get (body req1) "action" = Ok d1 ->
  Js.get (body req2) "action" = Ok d2 ->
  Js.get (body req1) "payload" = Ok p1 ->
  Js.get (body req2) "payload" = Ok p2 ->
  ActionVariant.requestBody_for d1 p1 h
  = ActionVariant.requestBody_for d2 p2 h ->
  run ActionVariant.handler h req1 = run ActionVariant.handler h req2.
Proof.
  intros Hm Hd1 Hd2 Hp1 Hp2 Hbody.
  unfold run, ActionVariant.handler, ActionVariant.attempt.
  rewrite Hm, Hd1, Hd2, Hp1, Hp2.
  destruct (JsString.eqb (method req2) "POST"); [|reflexivity].
  unfold_eff.
  destruct (Js.falsy (env_GEMINI_API_KEY h)); [reflexivity|].
  now rewrite Hbody.
Qed.

Lemma TypeVariant_summarize_conclude_any_payload
    (p1 p2 : value) (r : fetch_response) (h : host) :
  TypeVariant.conclude (VStr "summarize") p1 r h
  = TypeVariant.conclude (VStr "summarize") p2 r h.
Proof.
  unfold TypeVariant.conclude.
  change (TypeVariant.type_is (VStr "summarize") "filter") with false.
  change (TypeVariant.type_is (VStr "summarize") "summarize") with true.
  change (TypeVariant.type_is (VStr "summarize") "suggest") with false.
  reflexivity.
Qed.

Lemma agree_on_get (names : list jsstring) (x y : value) (n : jsstring) :
  agree_on names x y -> In n names -> Js.get x n = Js.get y n.
Proof.
  unfold agree_on. rewrite Forall_forall. auto.
Qed.

(** X11. In part_000, a summarize request is read for three properties of
    [payload.product]: [name], [description] and [specs]. Two requests
    whose products agree on them are handled alike, whatever else the
    products and the payloads hold. *)
Theorem summarize_reads_three_properties :
  forall (h : host) (req1 req2 : request) (p1 p2 product1 product2 : value),
    method req1 = method req2 ->
    Js.get (body req1) "type" = Ok (VStr "summarize") ->
    Js.get (body req2) "type" = Ok (VStr "summarize") ->
    Js.get (body req1) "payload" = Ok p1 ->
    Js.get (body req2) "payload" = Ok p2 ->
    Js.get p1 "product" = Ok product1 ->
    Js.get p2 "product" = Ok product2 ->
    agree_on ["name"%js; "description"%js; "specs"%js] product1 product2 ->
    run TypeVariant.handler h req1 = run TypeVariant.handler h req2.
Proof.
  intros h req1 req2 p1 p2 product1 product2 Hm Hd1 Hd2 Hp1 Hp2 Hq1 Hq2
    Hagree.
  apply (TypeVariant_run_same_switch h req1 req2 (VStr "summarize") p1 p2);
    try assumption.
  - unfold TypeVariant.requestBody_for.
    change (TypeVariant.type_is (VStr "summarize") "filter") with false.
    change (TypeVariant.type_is (VStr "summarize") "summarize") with true.
    cbv iota. unfold TypeVariant.summarize_requestBody.
    rewrite Hq1, Hq2. cbn [rbind].
    rewrite (agree_on_get _ _ _ "name" Hagree) by (simpl; tauto).
    rewrite (agree_on_get _ _ _ "description" Hagree) by (simpl; tauto).
    rewrite (agree_on_get _ _ _ "specs" Hagree) by (simpl; tauto).
    reflexivity.
  - intros r. apply TypeVariant_summarize_conclude_any_payload.
Qed.

Lemma candidate_of_agree (x y : value) :
  agree_on ["id"%js; "name"%js; "description"%js] x y ->
  TypeVariant.candidate_of x = TypeVariant.candidate_of y.
Proof.
  intros Hagree. unfold TypeVariant.candidate_of.
  rewrite (agree_on_get _ _ _ "id" Hagree) by (simpl; tauto).
  rewrite (agree_on_get _ _ _ "name" Hagree) by (simpl; tauto).
  rewrite (agree_on_get _ _ _ "description" Hagree) by (simpl; tauto).
  reflexivity.
Qed.

Lemma map_elems_agree (f : value -> result value) (xs ys : list value) :
  Forall2 (fun x y => f x = f y) xs ys ->
  Js.map_elems f xs = Js.map_elems f ys.
Proof.
  induction 1 as [|x y xs ys Hxy _ IH]; simpl; [reflexivity|].
  now rewrite Hxy, IH.
Qed.

Lemma TypeVariant_no_body_no_call
    (h : host) (req : request) (d p : value) :
  Js.get (body req) "type" = Ok d ->
  Js.get (body req) "payload" = Ok p ->
  (forall rb, snd (TypeVariant.requestBody_for d p h) <> Normal rb) ->
  fetches (run TypeVariant.handler h req) = [].
Proof.
  intros Hd Hp Hnone.
  destruct (fetches (run TypeVariant.handler h req)) as [|rq l] eqn:Hf;
    [reflexivity|].
  destruct (TypeVariant_call_made h req rq) as (d' & p' & rb & Hcall & _).
  { rewrite Hf. now left. }
  destruct Hcall as (_ & _ & Hd' & Hp' & Hrb).
  assert (d' = d) by congruence. assert (p' = p) by congruence. subst.
  now destruct (Hnone rb).
Qed.

(** X12. In part_000, what a suggest request sends to the provider is made
    of [payload.userInput] and of three properties of each product: [id],
    [name] and [description]. Two requests whose product lists agree on
    them, product by product, lead to the same calls, whatever else the
    products hold. *)
Theorem suggest_sends_three_properties_of_each_product :
  forall (h : host) (req1 req2 : request) (p1 p2 : value)
         (products1 products2 : list value),
    method req1 = method req2 ->
    Js.get (body req1) "type" = Ok (VStr "suggest") ->
    Js.get (body req2) "type" = Ok (VStr "suggest") ->
    Js.get (body req1) "payload" = Ok p1 ->
    Js.get (body req2) "payload" = Ok p2 ->
    Js.get p1 "userInput" = Js.get p2 "userInput" ->
    Js.get p1 "products" = Ok (VArr products1) ->
    Js.get p2 "products" = Ok (VArr products2) ->
    Forall2 (agree_on ["id"%js; "name"%js; "description"%js])
      products1 products2 ->
    fetches (run TypeVariant.handler h req1)
    = fetches (run TypeVariant.handler h req2).
Proof.
  intros h req1 req2 p1 p2 products1 products2 Hm Hd1 Hd2 Hp1 Hp2 Hinput
    Hps1 Hps2 Hagree.
  assert (Hbody : TypeVariant.requestBody_for (VStr "suggest") p1 h
                  = TypeVariant.requestBody_for (VStr "suggest") p2 h).
  { unfold TypeVariant.requestBody_for.
    change (TypeVariant.type_is (VStr "suggest") "filter") with false.
    change (TypeVariant.type_is (VStr "suggest") "summarize") with false.
    change (TypeVariant.type_is (VStr "suggest") "suggest") with true.
    cbv iota. unfold TypeVariant.suggest_requestBody.
    rewrite Hps1, Hps2, Hinput. cbn [rbind Js.array_map].
    rewrite (map_elems_agree TypeVariant.candidate_of products1 products2);
      [reflexivity|].
    eapply Forall2_impl; [|exact Hagree].
    intros x y. apply candidate_of_agree. }
  destruct (JsString.eqb (method req1) "POST") eqn:Hpost; cycle 1.
  { unfold run, TypeVariant.handler. rewrite <- Hm, Hpost. reflexivity. }
  apply jsstring_eqb_eq in Hpost.
  assert (Hpost2 : method req2 = "POST"%js) by congruence.
  destruct (Js.falsy (env_GEMINI_API_KEY h)) eqn:Hk.
  { destruct (falsy_key_is_500 h req1 Hpost Hk) as [[_ ->] _].
    destruct (falsy_key_is_500 h req2 Hpost2 Hk) as [[_ ->] _].
    reflexivity. }
  destruct (TypeVariant.requestBody_for (VStr "suggest") p2 h)
    as [t c] eqn:Hrb2.
  destruct c as [rb|e|].
  - rewrite (TypeVariant_calls_reached h req1 (VStr "suggest") p1 rb).
    + rewrite (TypeVariant_calls_reached h req2 (VStr "suggest") p2 rb);
        [reflexivity|].
      repeat split; try assumption. now rewrite Hrb2.
    + repeat split; try assumption. now rewrite Hbody.
  - rewrite (TypeVariant_no_body_no_call h req1 _ _ Hd1 Hp1)
      by (intros rb; rewrite Hbody; simpl; discriminate).
    rewrite (TypeVariant_no_body_no_call h req2 _ _ Hd2 Hp2)
      by (intros rb; rewrite Hrb2; simpl; discriminate).
    reflexivity.
  - rewrite (TypeVariant_no_body_no_call h req1 _ _ Hd1 Hp1)
      by (intros rb; rewrite Hbody; simpl; discriminate).
    rewrite (TypeVariant_no_body_no_call h req2 _ _ Hd2 Hp2)
      by (intros rb; rewrite Hrb2; simpl; discriminate).
    reflexivity.
Qed.

(** X13. In api/gemini.js, summarize and suggest are one case, and a
    request of either action is read for [payload.prompt] alone. Two such
    requests with the same prompt are handled alike, whichever of the two
    actions each names and whatever else its payload holds. *)
Theorem summarize_and_suggest_read_the_prompt_only :
  forall (h : host) (req1 req2 : request) (a1 a2 p1 p2 : value),
    method req1 = method req2 ->
    Js.get (body req1) "action" = Ok a1 ->
    Js.get (body req2) "action" = Ok a2 ->
    a1 = VStr "summarize" \/ a1 = VStr "suggest" ->
    a2 = VStr "summarize" \/ a2 = VStr "suggest" ->
    Js.get (body req1) "payload" = Ok p1 ->
    Js.get (body req2) "payload" = Ok p2 ->
    Js.get p1 "prompt" = Js.get p2 "prompt" ->
    run ActionVariant.handler h req1 = run ActionVariant.handler h req2.
Proof.
  intros h req1 req2 a1 a2 p1 p2 Hm Hd1 Hd2 Ha1 Ha2 Hp1 Hp2 Hprompt.
  apply (ActionVariant_run_same_switch h req1 req2 a1 a2 p1 p2);
    try assumption.
  assert (Hbody : ActionVariant.prompt_requestBody p1
                  = ActionVariant.prompt_requestBody p2)
    by (unfold ActionVariant.prompt_requestBody; now rewrite Hprompt).
  unfold ActionVariant.requestBody_for.
  destruct Ha1 as [-> | ->], Ha2 as [-> | ->];
    cbv [ActionVariant.action_is]; cbn [Js.strict_eq];
    repeat match goal with
           | |- context [JsString.eqb ?a ?b] =>
               let v := eval vm_compute in (JsString.eqb a b) in
               change (JsString.eqb a b) with v
           end;
    cbv iota; cbn [orb]; cbv iota; now rewrite Hbody.
Qed.

(** X14. In api/gemini.js, a filter request is read for four properties of
    the payload: [systemInstruction], [chatHistory], [userMessage] and
    [responseSchema]. Two requests whose payloads agree on them are handled
    alike. *)
Theorem filter_reads_four_properties :
  forall (h : host) (req1 req2 : request) (p1 p2 : value),
    method req1 = method req2 ->
    Js.get (body req1) "action" = Ok (VStr "filter") ->
    Js.get (body req2) "action" = Ok (VStr "filter") ->
    Js.get (body req1) "payload" = Ok p1 ->
    Js.get (body req2) "payload" = Ok p2 ->
    agree_on ["systemInstruction"%js; "chatHistory"%js; "userMessage"%js;
              "responseSchema"%js] p1 p2 ->
    run ActionVariant.handler h req1 = run ActionVariant.handler h req2.
Proof.
  intros h req1 req2 p1 p2 Hm Hd1 Hd2 Hp1 Hp2 Hagree.
  apply (ActionVariant_run_same_switch h req1 req2 _ _ p1 p2 Hm Hd1 Hd2
           Hp1 Hp2).
  unfold ActionVariant.requestBody_for.
  change (ActionVariant.action_is (VStr "filter") "filter") with true.
  cbv iota. unfold ActionVariant.filter_requestBody.
  rewrite (agree_on_get _ _ _ "systemInstruction" Hagree) by (simpl; tauto).
  rewrite (agree_on_get _ _ _ "chatHistory" Hagree) by (simpl; tauto).
  rewrite (agree_on_get _ _ _ "userMessage" Hagree) by (simpl; tauto).
  rewrite (agree_on_get _ _ _ "responseSchema" Hagree) by (simpl; tauto).
  reflexivity.
Qed.

(* ================================================================= *)
(** ** Further properties: which requests reach the provider *)

Lemma get_ok_iff (base : value) (name : jsstring) :
  (exists v, Js.get base name = Ok v) <-> nullish base = false.
Proof.
  split.
  - intros [v Hv]. destruct base; try reflexivity; discriminate.
  - intros Hbase. destruct base; try discriminate; simpl;
      repeat match goal with
             | |- context [match ?x with _ => _ end] => destruct x
             end; eexists; reflexivity.
Qed.

Lemma get_ok_not_nullish (base : value) (name : jsstring) (v : value) :
  Js.get base name = Ok v -> nullish base = false.
Proof. intros Hv. apply (get_ok_iff base name). now exists v. Qed.

Lemma spread_ok_iff (v : value) :
  (exists es, Js.spread v = Ok es) <-> iterable v = true.
Proof.
  split.
  - intros [es Hes]. destruct v; try reflexivity; discriminate.
  - intros Hv. destruct v; try discriminate; eexists; reflexivity.
Qed.

Lemma converts_iff (v : value) :
  (exists s, Js.to_string v = Ok s) <-> converts v = true.
Proof.
  unfold converts. destruct (Js.to_string v) as [s|e].
  - split; [reflexivity | intros _; now exists s].
  - split; [intros [s Hs]; discriminate | discriminate].
Qed.

Lemma candidate_of_ok_iff (x : value) :
  (exists c, TypeVariant.candidate_of x = Ok c) <-> nullish x = false.
Proof.
  split.
  - intros [c Hc]. unfold TypeVariant.candidate_of in Hc.
    destruct (Js.get x "id") eqn:Hid; [|discriminate].
    exact (get_ok_not_nullish _ _ _ Hid).
  - intros Hx. unfold TypeVariant.candidate_of.
    destruct (proj2 (get_ok_iff x "id") Hx) as [i ->].
    destruct (proj2 (get_ok_iff x "name") Hx) as [n ->].
    destruct (proj2 (get_ok_iff x "description") Hx) as [d ->].
    eexists; reflexivity.
Qed.

Lemma map_candidates_ok_iff (es : list value) :
  (exists cs, Js.map_elems TypeVariant.candidate_of es = Ok cs)
  <-> Forall (fun x => nullish x = false) es.
Proof.
  induction es as [|e es IH]; simpl.
  - split; [constructor | intros _; eexists; reflexivity].
  - split.
    + intros [cs Hcs].
      destruct (TypeVariant.candidate_of e) as [c|] eqn:Hc; [|discriminate].
      destruct (Js.map_elems _ es) as [cs'|]; [|discriminate].
      constructor.
      * apply candidate_of_ok_iff. now exists c.
      * apply IH. now exists cs'.
    + intros Hall. inversion Hall as [|? ? He Hes]; subst.
      destruct (proj2 (candidate_of_ok_iff e) He) as [c ->].
      destruct (proj2 IH Hes) as [cs ->].
      eexists; reflexivity.
Qed.

(** The switch of part_000 assembles a body exactly from those payloads. *)
Lemma TypeVariant_assembles_iff (h : host) (d p : value) :
  (exists rb, snd (TypeVariant.requestBody_for d p h) = Normal rb)
  <-> TypeVariant_assembles d p.
Proof.
  unfold TypeVariant.requestBody_for, TypeVariant.type_is,
    TypeVariant_assembles.
  destruct (Js.strict_eq d (VStr "filter")) eqn:Hfil.
  { apply strict_eq_string in Hfil. subst d.
    unfold TypeVariant.filter_requestBody. split.
    - intros [rb Hrb]. left. split; [reflexivity|].
      destruct (Js.get p "chatHistory") as [hist|]; [|discriminate].
      exists hist. split; [reflexivity|]. cbn [rbind] in Hrb.
      apply spread_ok_iff.
      destruct (Js.spread hist) as [es|]; [now exists es | discriminate].
    - intros [(_ & hist & -> & Hit)|[(Hd & _)|(Hd & _)]];
        try discriminate Hd.
      cbn [rbind]. destruct (proj2 (spread_ok_iff hist) Hit) as [es ->].
      eexists; reflexivity. }
  destruct (Js.strict_eq d (VStr "summarize")) eqn:Hsum.
  { apply strict_eq_string in Hsum. subst d.
    unfold TypeVariant.summarize_requestBody. split.
    - intros [rb Hrb]. right; left. split; [reflexivity|].
      destruct (Js.get p "product") as [product|]; [|discriminate].
      cbn [rbind] in Hrb.
      destruct (Js.get product "name") as [name|] eqn:Hn; [|discriminate].
      cbn [rbind] in Hrb.
      destruct (Js.to_string name) as [name'|] eqn:Hname; [|discriminate].
      cbn [rbind] in Hrb.
      destruct (Js.get product "description") as [description|] eqn:Hds;
        [|discriminate].
      cbn [rbind] in Hrb.
      destruct (Js.to_string description) as [description'|] eqn:Hdesc;
        [|discriminate].
      cbn [rbind] in Hrb.
      destruct (Js.get product "specs") as [specs|] eqn:Hs; [|discriminate].
      cbn [rbind] in Hrb.
      destruct (Js.to_string specs) as [specs'|] eqn:Hspecs; [|discriminate].
      exists product, name, description, specs.
      unfold converts. rewrite Hname, Hdesc, Hspecs. auto 8.
    - intros [(Hd & _)|[(_ & product & name & description & specs & -> & Hn
                          & Hds & Hs & Hcn & Hcd & Hcs)|(Hd & _)]];
        try discriminate Hd.
      cbn [rbind]. rewrite Hn. cbn [rbind].
      destruct (proj2 (converts_iff name) Hcn) as [name' ->]. cbn [rbind].
      rewrite Hds. cbn [rbind].
      destruct (proj2 (converts_iff description) Hcd) as [description' ->].
      cbn [rbind]. rewrite Hs. cbn [rbind].
      destruct (proj2 (converts_iff specs) Hcs) as [specs' ->].
      eexists; reflexivity. }
  destruct (Js.strict_eq d (VStr "suggest")) eqn:Hsug.
  { apply strict_eq_string in Hsug. subst d.
    unfold TypeVariant.suggest_requestBody. split.
    - intros [rb Hrb]. right; right. split; [reflexivity|].
      destruct (Js.get p "products") as [products|]; [|discriminate].
      cbn [rbind] in Hrb.
      destruct products as [| | | | |es|]; try discriminate.
      cbn [Js.array_map] in Hrb.
      destruct (Js.map_elems TypeVariant.candidate_of es) as [cs|] eqn:Hcs;
        [|discriminate].
      cbn [rbind] in Hrb.
      destruct (Js.get p "userInput") as [userInput|]; [|discriminate].
      cbn [rbind] in Hrb.
      destruct (Js.to_string userInput) as [s|] eqn:Hs; [|discriminate].
      exists es, userInput. split; [reflexivity|].
      split; [apply map_candidates_ok_iff; now exists cs|].
      split; [reflexivity|]. unfold converts. now rewrite Hs.
    - intros [(Hd & _)|[(Hd & _)|(_ & es & userInput & -> & Hall & -> & Hc)]];
        try discriminate Hd.
      cbn [rbind Js.array_map].
      destruct (proj2 (map_candidates_ok_iff es) Hall) as [cs ->].
      cbn [rbind].
      destruct (proj2 (converts_iff userInput) Hc) as [s ->].
      eexists; reflexivity. }
  split.
  - intros [rb Hrb]. discriminate Hrb.
  - intros [(-> & _)|[(-> & _)|(-> & _)]]; discriminate.
Qed.

(** The switch of api/gemini.js assembles a body exactly from those
    payloads. *)
Lemma ActionVariant_assembles_iff (h : host) (d p : value) :
  (exists rb, snd (ActionVariant.requestBody_for d p h) = Normal rb)
  <-> ActionVariant_assembles d p.
Proof.
  unfold ActionVariant.requestBody_for, ActionVariant.action_is,
    ActionVariant_assembles.
  destruct (Js.strict_eq d (VStr "filter")) eqn:Hfil.
  { apply strict_eq_string in Hfil. subst d.
    unfold ActionVariant.filter_requestBody. split.
    - intros [rb Hrb].
      destruct (Js.get p "systemInstruction") as [s|] eqn:Hsys;
        [|discriminate].
      split; [exact (get_ok_not_nullish _ _ _ Hsys)|].
      left. split; [reflexivity|]. cbn [rbind] in Hrb.
      destruct (Js.get p "chatHistory") as [hist|]; [|discriminate].
      exists hist. split; [reflexivity|]. cbn [rbind] in Hrb.
      apply spread_ok_iff.
      destruct (Js.spread hist) as [es|]; [now exists es | discriminate].
    - intros [Hp [(_ & hist & Hhist & Hit)|[Hd|Hd]]]; try discriminate Hd.
      destruct (proj2 (get_ok_iff p "systemInstruction") Hp) as [s ->].
      cbn [rbind]. rewrite Hhist. cbn [rbind].
      destruct (proj2 (spread_ok_iff hist) Hit) as [es ->]. cbn [rbind].
      destruct (proj2 (get_ok_iff p "userMessage") Hp) as [u ->].
      cbn [rbind].
      destruct (proj2 (get_ok_iff p "responseSchema") Hp) as [r ->].
      eexists; reflexivity. }
  destruct (Js.strict_eq d (VStr "summarize") || Js.strict_eq d (VStr "suggest"))
    eqn:Hprompt.
  { unfold ActionVariant.prompt_requestBody. split.
    - intros [rb Hrb].
      destruct (Js.get p "prompt") as [s|] eqn:Hs; [|discriminate].
      split; [exact (get_ok_not_nullish _ _ _ Hs)|]. right.
      apply orb_true_iff in Hprompt. rewrite !strict_eq_string in Hprompt.
      exact Hprompt.
    - intros [Hp _].
      destruct (proj2 (get_ok_iff p "prompt") Hp) as [s ->].
      eexists; reflexivity. }
  split.
  - intros [rb Hrb]. discriminate Hrb.
  - apply orb_false_iff in Hprompt as [Hsum Hsug].
    intros [_ [(-> & _)|[-> | ->]]]; discriminate.
Qed.

(** X15. Which requests reach the provider. A handler calls the provider
    exactly when the method is POST, the key is set, and the switch
    assembles a body from the payload. In part_000 that needs, for filter,
    a [chatHistory] that can be spread; for summarize, a product whose
    [name], [description] and [specs] convert to strings; for suggest, an
    array [products] with no [undefined] or [null] in it and a [userInput]
    that converts to a string. In api/gemini.js it needs a payload other
    than [undefined] and [null] and, for filter, a [chatHistory] that can
    be spread: a summarize or suggest request with no [prompt] reaches the
    provider. *)
Theorem which_requests_reach_the_provider :
  forall (h : host) (req : request),
    (fetches (run TypeVariant.handler h req) <> []
     <-> method req = "POST"%js
         /\ Js.falsy (env_GEMINI_API_KEY h) = false
         /\ exists d p,
              Js.get (body req) "type" = Ok d
              /\ Js.get (body req) "payload" = Ok p
              /\ TypeVariant_assembles d p)
    /\ (fetches (run ActionVariant.handler h req) <> []
        <-> method req = "POST"%js
            /\ Js.falsy (env_GEMINI_API_KEY h) = false
            /\ exists d p,
                 Js.get (body req) "action" = Ok d
                 /\ Js.get (body req) "payload" = Ok p
                 /\ ActionVariant_assembles d p).
Proof.
  intros h req. split; split.
  - intros Hcalls.
    destruct (fetches (run TypeVariant.handler h req)) as [|rq l] eqn:Hf;
      [now destruct Hcalls|].
    destruct (TypeVariant_call_made h req rq)
      as (d & p & rb & (Hm & Hk & Hd & Hp & Hrb) & _);
      [rewrite Hf; now left|].
    split; [exact Hm|]. split; [exact Hk|]. exists d, p.
    split; [exact Hd|]. split; [exact Hp|].
    apply (TypeVariant_assembles_iff h). now exists rb.
  - intros (Hm & Hk & d & p & Hd & Hp & Hasm).
    destruct (proj2 (TypeVariant_assembles_iff h d p) Hasm) as [rb Hrb].
    rewrite (TypeVariant_calls_reached h req d p rb); [discriminate|].
    repeat split; assumption.
  - intros Hcalls.
    destruct (fetches (run ActionVariant.handler h req)) as [|rq l] eqn:Hf;
      [now destruct Hcalls|].
    destruct (ActionVariant_call_made h req rq)
      as (d & p & rb & (Hm & Hk & Hd & Hp & Hrb) & _);
      [rewrite Hf; now left|].
    split; [exact Hm|]. split; [exact Hk|]. exists d, p.
    split; [exact Hd|]. split; [exact Hp|].
    apply (ActionVariant_assembles_iff h). now exists rb.
  - intros (Hm & Hk & d & p & Hd & Hp & Hasm).
    destruct (proj2 (ActionVariant_assembles_iff h d p) Hasm) as [rb Hrb].
    rewrite (ActionVariant_calls_reached h req d p rb); [discriminate|].
    repeat split; assumption.
Qed.

(* ================================================================= *)
(** ** Further properties: the key and the log *)

(** X16. An empty key counts as none. With GEMINI_API_KEY set to the empty
    string a handler does what it does without the variable, and calls
    nothing. *)
Theorem empty_key_counts_as_none :
  forall (h : host) (req : request),
    env_GEMINI_API_KEY h = Some JsString.empty ->
    (run TypeVariant.handler h req
     = run TypeVariant.handler (with_key None h) req
     /\ fetches (run TypeVariant.handler h req) = [])
    /\ (run ActionVariant.handler h req
        = run ActionVariant.handler (with_key None h) req
        /\ fetches (run ActionVariant.handler h req) = []).
Proof.
  intros h req Hk.
  unfold run, TypeVariant.handler, ActionVariant.handler.
  destruct (JsString.eqb (method req) "POST"); unfold_eff; simpl;
    rewrite ?Hk; simpl; repeat split; reflexivity.
Qed.

(** X17. What the log tells. part_000 writes to the log exactly when it
    answers 500. api/gemini.js writes to the log exactly when it answers
    500 with the key set: its 500 for a missing key leaves no trace in the
    log. *)
Theorem the_log_tells_the_500 :
  forall (h : host) (req : request),
    (logged (run TypeVariant.handler h req) <> []
     <-> In 500%N (statuses (run TypeVariant.handler h req)))
    /\ (logged (run ActionVariant.handler h req) <> []
        <-> In 500%N (statuses (run ActionVariant.handler h req))
            /\ Js.falsy (env_GEMINI_API_KEY h) = false).
Proof.
  intros h req.
  split; unfold_handlers; run_eff; simpl;
    (split; [intros Hlog | intros Hst]);
    repeat match goal with
           | H : _ /\ _ |- _ => destruct H
           | H : _ \/ False |- _ => destruct H as [H|[]]
           end;
    try discriminate; try (now destruct Hlog);
    try (split; [left; reflexivity | reflexivity]);
    try (left; reflexivity).
Qed.

(* ================================================================= *)
(** ** The further properties on the scenarios *)

Import Further.

Lemma stub_same_engine (k1 k2 : option jsstring) (a1 a2 : fetch_outcome) :
  same_engine (stub k1 a1) (stub k2 a2).
Proof. split; reflexivity. Qed.

(** X2 on the summarize request: its 200 came from an answered call. *)
Lemma success_needs_an_answered_call_witness :
  (exists rq r,
     fetches (run TypeVariant.handler summarizing summarize_request) = [rq]
     /\ network summarizing rq = FetchResolved r /\ ok r = true
     /\ logged (run TypeVariant.handler summarizing summarize_request) = [])
  /\ (exists rq r,
        fetches (run ActionVariant.handler summarizing summarize_request)
        = [rq]
        /\ network summarizing rq = FetchResolved r /\ ok r = true
        /\ logged (run ActionVariant.handler summarizing summarize_request)
           = []).
Proof.
  assert (H1 : In 200%N (statuses (run TypeVariant.handler summarizing
                                     summarize_request))) by calling.
  assert (H2 : In 200%N (statuses (run ActionVariant.handler summarizing
                                     summarize_request))) by calling.
  split.
  - exact (proj1 (success_needs_an_answered_call summarizing
                    summarize_request) H1).
  - exact (proj2 (success_needs_an_answered_call summarizing
                    summarize_request) H2).
Defined.

(** X3 on the summarize request, the network down. *)
Lemma internal_errors_are_logged_witness :
  (exists e,
     In [LogString "Function execution error:"; LogError e]
        (logged (run TypeVariant.handler offline summarize_request)))
  /\ (exists e,
        In [LogString "Error in Vercel function:"; LogError e]
           (logged (run ActionVariant.handler offline summarize_request))
        /\ responses (run ActionVariant.handler offline summarize_request)
           = [ActionVariant.internal_error offline e]).
Proof.
  assert (Hm : method summarize_request = "POST"%js) by reflexivity.
  assert (Hk : Js.falsy (env_GEMINI_API_KEY offline) = false) by reflexivity.
  assert (H1 : In 500%N (statuses (run TypeVariant.handler offline
                                     summarize_request))) by calling.
  assert (H2 : In 500%N (statuses (run ActionVariant.handler offline
                                     summarize_request))) by calling.
  split.
  - exact (proj1 (internal_errors_are_logged offline summarize_request Hm Hk)
             H1).
  - exact (proj2 (internal_errors_are_logged offline summarize_request Hm Hk)
             H2).
Defined.

(** X4 on the call of the summarize request. *)
Lemma calls_go_to_the_endpoint_with_the_key_witness :
  exists key text,
    env_GEMINI_API_KEY summarizing = Some key /\ key <> JsString.empty
    /\ method summarize_request = "POST"%js
    /\ fetch_url summarize_call = (endpoint ++ key)%js
    /\ fetch_method summarize_call = "POST"%js
    /\ fetch_headers summarize_call
       = [("Content-Type"%js, "application/json"%js)]
    /\ fetch_body summarize_call = Some text.
Proof.
  assert (H : In summarize_call
                (fetches (run TypeVariant.handler summarizing
                            summarize_request))
              \/ In summarize_call
                   (fetches (run ActionVariant.handler summarizing
                               summarize_request)))
    by (left; calling).
  exact (calls_go_to_the_endpoint_with_the_key summarizing summarize_request
           summarize_call H).
Defined.

(** X5 on the summarize request, before and after the key was replaced. *)
Lemma key_reaches_only_the_url_witness :
  map without_url (run TypeVariant.handler summarizing summarize_request)
  = map without_url (run TypeVariant.handler rotated summarize_request)
  /\ map without_url
       (run ActionVariant.handler summarizing summarize_request)
     = map without_url (run ActionVariant.handler rotated summarize_request).
Proof.
  assert (Hk1 : Js.falsy (env_GEMINI_API_KEY summarizing) = false)
    by reflexivity.
  assert (Hk2 : Js.falsy (env_GEMINI_API_KEY rotated) = false)
    by reflexivity.
  destruct (key_reaches_only_the_url summarizing rotated summarize_request
              Hk1 Hk2) as [Htype Haction].
  split.
  - apply Htype. intros requestBody. reflexivity.
  - apply Haction; [apply stub_same_engine|].
    intros requestBody. reflexivity.
Defined.

(** X6 on a GET request and on a request whose action is bogus. *)
Lemma which_requests_are_refused_witness :
  In 405%N (statuses (run TypeVariant.handler summarizing get_request))
  /\ In 400%N (statuses (run ActionVariant.handler summarizing bogus_request)).
Proof.
  split.
  - apply (proj1 (proj1 (which_requests_are_refused summarizing
                           get_request))).
    discriminate.
  - apply (proj2 (proj2 (which_requests_are_refused summarizing
                           bogus_request))).
    split; [reflexivity|]. split; [reflexivity|].
    exists (VStr "bogus"). split; by_running.
Defined.

(** X7 on the summarize request, the provider refusing. *)
Lemma refusals_carry_fixed_bodies_witness :
  In TypeVariant.internal_error
     [(405%N, VObj [("error"%js, VStr "Method Not Allowed")]);
      (500%N, VObj [("error"%js, VStr "API key is not configured.")]);
      (400%N, VObj [("error"%js, VStr "Invalid request type")]);
      TypeVariant.internal_error].
Proof.
  assert (Hcode : 500%N <> 200%N) by discriminate.
  assert (Hin : In (500%N, snd TypeVariant.internal_error)
                  (responses (run TypeVariant.handler refusing
                                summarize_request))) by calling.
  exact (proj1 (refusals_carry_fixed_bodies refusing summarize_request
                  500%N (snd TypeVariant.internal_error) Hcode) Hin).
Defined.

(** X8 on the suggest request, the provider recommending the id 3. *)
Lemma success_has_the_shape_of_its_type_witness :
  exists type payload,
    Js.get (body suggest_request) "type" = Ok type
    /\ Js.get (body suggest_request) "payload" = Ok payload
    /\ ((type = VStr "filter"
         /\ exists parsed message,
              VObj [("recommendedProduct"%js, sketchpad)]
              = VObj [("aiResponseObject"%js, parsed);
                      ("modelChatMessage"%js, VStr message)])
        \/ (type = VStr "summarize"
            /\ exists aiText,
                 VObj [("recommendedProduct"%js, sketchpad)]
                 = VObj [("summary"%js, aiText)])
        \/ (type = VStr "suggest"
            /\ exists product,
                 VObj [("recommendedProduct"%js, sketchpad)]
                 = VObj [("recommendedProduct"%js, product)]
                 /\ (product = VUndefined
                     \/ exists products,
                          Js.get payload "products" = Ok (VArr products)
                          /\ In product products))).
Proof.
  assert (Hin : In (200%N, VObj [("recommendedProduct"%js, sketchpad)])
                  (responses (run TypeVariant.handler (suggesting "3")
                                suggest_request))) by calling.
  exact (success_has_the_shape_of_its_type (suggesting "3") suggest_request
           (VObj [("recommendedProduct"%js, sketchpad)]) Hin).
Defined.

(** X9 on the summarize request, answered tersely and verbosely. *)
Lemma only_the_first_text_part_is_read_witness :
  run TypeVariant.handler summarizing summarize_request
  = run TypeVariant.handler verbose summarize_request.
Proof.
  assert (Hin1 : In summarize_call
                   (fetches (run TypeVariant.handler summarizing
                               summarize_request))) by calling.
  assert (Hin2 : In summarize_call
                   (fetches (run TypeVariant.handler verbose
                               summarize_request))) by calling.
  assert (Hans1 : answers summarizing summarize_call summary_data)
    by (apply stub_answers; by_running).
  assert (Hans2 : answers verbose summarize_call verbose_data)
    by (apply stub_answers; by_running).
  assert (Hai : TypeVariant.aiText_of summary_data
                = TypeVariant.aiText_of verbose_data) by by_running.
  exact (only_the_first_text_part_is_read summarizing verbose
           summarize_request summarize_call summary_data verbose_data
           Hin1 Hin2 Hans1 Hans2 Hai).
Defined.

(** X10 on the summarize request, answered with no candidate. *)
Lemma answer_without_text_is_500_or_relayed_witness :
  (responses (run TypeVariant.handler blocked summarize_request)
   = [TypeVariant.internal_error]
   /\ logged (run TypeVariant.handler blocked summarize_request)
      = [[LogString "Function execution error:";
          LogError (TypeError (ReadOfNullish VUndefined "content"))]])
  /\ (responses (run ActionVariant.handler blocked summarize_request)
      = [(200%N, blocked_data)]
      /\ logged (run ActionVariant.handler blocked summarize_request) = []).
Proof.
  assert (Hans1 : answers blocked summarize_call blocked_data)
    by (apply stub_answers; by_running).
  assert (Hans2 : answers blocked summarize_call_by_action blocked_data)
    by (apply stub_answers; by_running).
  assert (Hai : TypeVariant.aiText_of blocked_data
                = Raised (TypeError (ReadOfNullish VUndefined "content")))
    by by_running.
  assert (Hin1 : In summarize_call
                   (fetches (run TypeVariant.handler blocked
                               summarize_request))) by calling.
  assert (Hin2 : In summarize_call_by_action
                   (fetches (run ActionVariant.handler blocked
                               summarize_request))) by calling.
  split.
  - exact (proj1 (answer_without_text_is_500_or_relayed blocked
                    summarize_request summarize_call blocked_data _
                    Hans1 Hai) Hin1).
  - exact (proj2 (answer_without_text_is_500_or_relayed blocked
                    summarize_request summarize_call_by_action blocked_data _
                    Hans2 Hai) Hin2).
Defined.

(** X11 on the summarize request and on the one whose product has a
    price. *)
Lemma summarize_reads_three_properties_witness :
  run TypeVariant.handler summarizing summarize_request
  = run TypeVariant.handler summarizing priced_request.
Proof.
  assert (Hagree : agree_on ["name"%js; "description"%js; "specs"%js]
                     (json "{'name':'X','description':'Y','specs':'Z'}")
                     (json "{'id':7,'name':'X','description':'Y','specs':'Z','price':12}"))
    by (repeat constructor; by_running).
  apply (summarize_reads_three_properties summarizing summarize_request
           priced_request summarize_payload priced_payload
           (json "{'name':'X','description':'Y','specs':'Z'}")
           (json "{'id':7,'name':'X','description':'Y','specs':'Z','price':12}"));
    solve [exact Hagree | by_running].
Defined.

(** X12 on the suggest request and on the one whose products have
    prices. *)
Lemma suggest_sends_three_properties_of_each_product_witness :
  fetches (run TypeVariant.handler (suggesting "3") suggest_request)
  = fetches (run TypeVariant.handler (suggesting "3") priced_suggest_request).
Proof.
  assert (Hagree : Forall2 (agree_on ["id"%js; "name"%js; "description"%js])
                     suggest_products priced_products)
    by (repeat constructor; by_running).
  apply (suggest_sends_three_properties_of_each_product (suggesting "3")
           suggest_request priced_suggest_request suggest_payload
           priced_suggest_payload suggest_products priced_products);
    solve [exact Hagree | by_running].
Defined.

(** X13 on the summarize request and on a suggest request with its
    prompt. *)
Lemma summarize_and_suggest_read_the_prompt_only_witness :
  run ActionVariant.handler summarizing summarize_request
  = run ActionVariant.handler summarizing suggest_by_prompt.
Proof.
  apply (summarize_and_suggest_read_the_prompt_only summarizing
           summarize_request suggest_by_prompt
           (VStr "summarize") (VStr "suggest")
           summarize_payload prompt_payload);
    solve [by_running | left; reflexivity | right; reflexivity].
Defined.

(** X14 on the filter request and on the one with a note. *)
Lemma filter_reads_four_properties_witness :
  run ActionVariant.handler filtering (filter_request "hello")
  = run ActionVariant.handler filtering noted_request.
Proof.
  assert (Hagree : agree_on ["systemInstruction"%js; "chatHistory"%js;
                             "userMessage"%js; "responseSchema"%js]
                     (filter_payload "hello") noted_payload)
    by (repeat constructor; by_running).
  apply (filter_reads_four_properties filtering (filter_request "hello")
           noted_request (filter_payload "hello") noted_payload);
    solve [exact Hagree | by_running].
Defined.

(** X15 on the summarize request, and on one with no prompt. *)
Lemma which_requests_reach_the_provider_witness :
  fetches (run TypeVariant.handler summarizing summarize_request) <> []
  /\ fetches (run ActionVariant.handler summarizing promptless_request) <> [].
Proof.
  split.
  - apply (proj1 (which_requests_reach_the_provider summarizing
                    summarize_request)).
    split; [reflexivity|]. split; [reflexivity|].
    exists (VStr "summarize"), summarize_payload.
    split; [by_running|]. split; [by_running|].
    right; left. split; [reflexivity|].
    exists (json "{'name':'X','description':'Y','specs':'Z'}"),
      (VStr "X"), (VStr "Y"), (VStr "Z").
    conjuncts; by_running.
  - apply (proj2 (which_requests_reach_the_provider summarizing
                    promptless_request)).
    split; [reflexivity|]. split; [reflexivity|].
    exists (VStr "summarize"), (VObj []).
    split; [by_running|]. split; [by_running|].
    split; [reflexivity|]. right; left. reflexivity.
Defined.

(** X16 on the summarize request, the key empty. *)
Lemma empty_key_counts_as_none_witness :
  (run TypeVariant.handler empty_key summarize_request
   = run TypeVariant.handler (with_key None empty_key) summarize_request
   /\ fetches (run TypeVariant.handler empty_key summarize_request) = [])
  /\ (run ActionVariant.handler empty_key summarize_request
      = run ActionVariant.handler (with_key None empty_key) summarize_request
      /\ fetches (run ActionVariant.handler empty_key summarize_request)
         = []).
Proof.
  apply (empty_key_counts_as_none empty_key summarize_request). reflexivity.
Defined.

(** X17 on the summarize request: the network down, and no key. *)
Lemma the_log_tells_the_500_witness :
  logged (run TypeVariant.handler offline summarize_request) <> []
  /\ ~ (logged (run ActionVariant.handler unconfigured summarize_request)
        <> []).
Proof.
  split.
  - apply (proj1 (the_log_tells_the_500 offline summarize_request)).
    calling.
  - intros Hlog.
    apply (proj2 (the_log_tells_the_500 unconfigured summarize_request))
      in Hlog.
    destruct Hlog as [_ Hk]. discriminate Hk.
Defined.
